(** * movingpandas: the [Trajectory] class of [movingpandas/trajectory.py]

    A shallow embedding of the parts of [Trajectory] that derive per-row
    metrics, answer point-in-time queries, extract segments and export the
    LINESTRING M text, together with the pandas operations they are written
    with.

    Conventions of the embedding:
    - a timestamp is the integer number of nanoseconds since the epoch, a
      [Timedelta] an integer number of nanoseconds; a [datetime], which is
      what [get_start_time] and [get_end_time] return, is a timestamp
      without its digits below the microsecond;
    - [df.at[label, column] = value] with a label the index lacks appends a
      row with that label, its other cells missing;
    - a Python float is a rational, [nan] or a signed infinity; Python's
      scalar [/] raises [ZeroDivisionError] on a zero divisor, numpy's
      element-wise [/] does not;
    - a [DataFrame] is its index together with its columns in order, each a
      name and the list of its cells;
    - a method that can raise returns [Ok v] or [Raise e]; a method that
      assigns to [self] returns the trajectory it leaves behind as well. *)

From Stdlib Require Import List ZArith QArith String Ascii Bool Lia.
From Stdlib Require Import Sorting.Sorted Sorting.Permutation Sorting.Mergesort.
From Stdlib Require Import Structures.Orders DecimalString Qabs.
Import ListNotations.

Set Warnings "-register-all".

Local Open Scope string_scope.
Local Open Scope list_scope.
Local Open Scope Z_scope.

(* ================================================================== *)
(** ** Python exceptions and results *)

Inductive exn : Type :=
| ValueError (msg : string)
| TypeError (msg : string)
| RuntimeError (msg : string)
| KeyError (key : string)
| IndexError
| AttributeError (attr : string)
| ZeroDivisionError
| GeometryError.          (* whatever shapely raises on malformed input *)

Inductive result (A : Type) : Type :=
| Ok (a : A)
| Raise (e : exn).
Arguments Ok {A} a.
Arguments Raise {A} e.

Definition bind {A B : Type} (m : result A) (k : A -> result B) : result B :=
  match m with
  | Ok a => k a
  | Raise e => Raise e
  end.

Notation "x <- m ;; k" := (bind m (fun x => k))
  (at level 61, m at next level, right associativity).

Fixpoint mapM {A B : Type} (f : A -> result B) (l : list A) : result (list B) :=
  match l with
  | [] => Ok []
  | a :: l' =>
      b <- f a ;;
      bs <- mapM f l' ;;
      Ok (b :: bs)
  end.

Definition is_ok {A : Type} (r : result A) : bool :=
  match r with Ok _ => true | Raise _ => false end.

(* ================================================================== *)
(** ** Floats *)

Inductive float : Type :=
| Fin (q : Q)
| NaN
| Inf (negative : bool).

Definition q_is_zero (q : Q) : bool := (Qnum q =? 0)%Z.
Definition q_is_neg (q : Q) : bool := (Qnum q <? 0)%Z.

Definition zero : float := Fin 0.

Definition fis_zero (f : float) : bool :=
  match f with Fin q => q_is_zero q | _ => false end.

(** [a == b] on floats: [nan] differs from everything. *)
Definition feqb (a b : float) : bool :=
  match a, b with
  | Fin p, Fin q => Qeq_bool p q
  | Inf s, Inf t => Bool.eqb s t
  | _, _ => false
  end.

Definition fmul (a b : float) : float :=
  match a, b with
  | NaN, _ | _, NaN => NaN
  | Fin p, Fin q => Fin (p * q)
  | Inf s, Fin q | Fin q, Inf s =>
      if q_is_zero q then NaN else Inf (xorb s (q_is_neg q))
  | Inf s, Inf t => Inf (xorb s t)
  end.

Definition fsub (a b : float) : float :=
  match a, b with
  | NaN, _ | _, NaN => NaN
  | Fin p, Fin q => Fin (p - q)
  | Inf s, Fin _ => Inf s
  | Fin _, Inf t => Inf (negb t)
  | Inf s, Inf t => if Bool.eqb s t then NaN else Inf s
  end.

(** numpy's element-wise division: never raises. *)
Definition fdiv (a b : float) : float :=
  match a, b with
  | NaN, _ | _, NaN => NaN
  | Fin p, Fin q =>
      if q_is_zero q
      then (if q_is_zero p then NaN else Inf (q_is_neg p))
      else Fin (p / q)
  | Fin _, Inf _ => Fin 0
  | Inf s, Fin q => Inf (xorb s (q_is_neg q))
  | Inf _, Inf _ => NaN
  end.

(** Python's [a / b] on two floats. *)
Definition py_truediv (a b : float) : result float :=
  if fis_zero b then Raise ZeroDivisionError else Ok (fdiv a b).

(* ================================================================== *)
(** ** Timestamps and cells *)

Definition Timestamp : Type := Z.
Definition Timedelta : Type := Z.

Definition ns_per_second : positive := 1000000000.

(** [series.dt.total_seconds()] on one entry of a timedelta column: the
    nanoseconds divided by 10^9. *)
Definition total_seconds (d : Timedelta) : float := Fin (Qmake d ns_per_second).

(** [Timedelta.total_seconds()] on a scalar, which pandas computes to the
    microsecond: the digits below are dropped before the division. *)
Definition timedelta_total_seconds (d : Timedelta) : float :=
  Fin (Qmake (d - d mod 1000) ns_per_second).

(** [Timestamp.to_pydatetime()]: a [datetime] has no nanoseconds, the digits
    below the microsecond are dropped. *)
Definition to_pydatetime (t : Timestamp) : Timestamp := 1000 * (t / 1000).

(** [timedelta == n] for a pandas [Timedelta] and an [int]: the two are
    never equal. *)
Definition timedelta_eq_int (d : Timedelta) (n : Z) : bool := false.

(** What a cell of a frame can hold. *)
Inductive cell : Type :=
| VPoint (x y : float)        (* shapely Point *)
| VFloat (f : float)
| VTimedelta (d : Timedelta)
| VNaT
| VNone
| VObj (repr : string).       (* any other object, e.g. another geometry *)

Definition isinstance_Point (c : cell) : bool :=
  match c with VPoint _ _ => true | _ => false end.

(** [a == b] on cells as the code uses it: on points and on floats. *)
Definition cell_eqb (a b : cell) : bool :=
  match a, b with
  | VPoint x0 y0, VPoint x1 y1 => feqb x0 x1 && feqb y0 y1
  | VFloat f, VFloat g => feqb f g
  | VTimedelta d, VTimedelta e => (d =? e)%Z
  | VNone, VNone => true
  | VObj r, VObj s => String.eqb r s
  | _, _ => false
  end.

(* ================================================================== *)
(** ** Series and DataFrame *)

(** A row handed out by [iloc], [loc] and [apply(axis=1)]: its label and its
    cells by column name. *)
Record Series : Type := mkSeries {
  name : Timestamp;
  items : list (string * cell)
}.

Record CRS : Type := mkCRS {
  unit_name : string;            (* crs.axis_info[0].unit_name *)
  is_geographic : bool
}.

Record DataFrame : Type := mkDataFrame {
  index : list Timestamp;
  columns : list (string * list cell);
  geometry_name : string;        (* the active geometry column *)
  df_crs : option CRS
}.

Definition len (d : DataFrame) : nat := List.length (index d).

Definition column_names (d : DataFrame) : list string := map fst (columns d).

Fixpoint assoc {A : Type} (k : string) (l : list (string * A)) : option A :=
  match l with
  | [] => None
  | (k', a) :: l' => if String.eqb k' k then Some a else assoc k l'
  end.

(** [name in df.columns] *)
Definition has_column (k : string) (d : DataFrame) : bool :=
  match assoc k (columns d) with Some _ => true | None => false end.

(** [row[k]] *)
Definition row_get (k : string) (r : Series) : result cell :=
  match assoc k (items r) with
  | Some c => Ok c
  | None => Raise (KeyError k)
  end.

(** [df[k]] *)
Definition df_get (k : string) (d : DataFrame) : result (list cell) :=
  match assoc k (columns d) with
  | Some c => Ok c
  | None => Raise (KeyError k)
  end.

(** [df.geometry] *)
Definition df_geometry (d : DataFrame) : result (list cell) :=
  match assoc (geometry_name d) (columns d) with
  | Some c => Ok c
  | None => Raise (AttributeError "geometry")
  end.

Fixpoint col_set {A : Type} (k : string) (v : A) (l : list (string * A))
  : list (string * A) :=
  match l with
  | [] => [(k, v)]
  | (k', a) :: l' =>
      if String.eqb k' k then (k', v) :: l' else (k', a) :: col_set k v l'
  end.

Definition with_columns (d : DataFrame) (cs : list (string * list cell))
  : DataFrame :=
  mkDataFrame (index d) cs (geometry_name d) (df_crs d).

(** [df[k] = vals] and [df.assign(k=vals)]: an existing column keeps its
    place, a new one goes last. *)
Definition df_set (k : string) (vals : list cell) (d : DataFrame) : DataFrame :=
  with_columns d (col_set k vals (columns d)).

Definition col_drop {A : Type} (k : string) (l : list (string * A))
  : list (string * A) :=
  filter (fun c => negb (String.eqb (fst c) k)) l.

(** [df.drop(columns=ks)]: every label must be there. *)
Fixpoint df_drop (ks : list string) (d : DataFrame) : result DataFrame :=
  match ks with
  | [] => Ok d
  | k :: ks' =>
      if has_column k d
      then df_drop ks' (with_columns d (col_drop k (columns d)))
      else Raise (KeyError k)
  end.

(** [series.shift()]: one place down, the hole filled with [fill]. *)
Definition shift (fill : cell) (l : list cell) : list cell :=
  match l with
  | [] => []
  | _ :: _ => fill :: removelast l
  end.

Definition df_row (d : DataFrame) (i : nat) : Series :=
  mkSeries (nth i (index d) 0)
           (map (fun c => (fst c, nth i (snd c) VNone)) (columns d)).

Definition df_rows (d : DataFrame) : list Series :=
  map (df_row d) (seq 0 (len d)).

(** [df.apply(f, axis=1)] *)
Definition df_apply (f : Series -> result cell) (d : DataFrame)
  : result (list cell) :=
  mapM f (df_rows d).

(** [df.iloc[i]] with Python's negative positions. *)
Definition df_iloc (i : Z) (d : DataFrame) : result Series :=
  let n := Z.of_nat (len d) in
  if (0 <=? i) && (i <? n) then Ok (df_row d (Z.to_nat i))
  else if (i <? 0) && (0 <=? n + i) then Ok (df_row d (Z.to_nat (n + i)))
  else Raise IndexError.

(** [df.index.min()] and [df.index.max()]; an empty index, which no
    trajectory has, yields pandas' NaT and is not modelled. *)
Definition index_min (l : list Timestamp) : Timestamp :=
  fold_right Z.min (hd 0 l) l.
Definition index_max (l : list Timestamp) : Timestamp :=
  fold_right Z.max (hd 0 l) l.

(** The cell of column [col] in the rows labelled [t]. *)
Fixpoint set_where (t : Timestamp) (v : cell) (idx : list Timestamp)
  (col : list cell) : list cell :=
  match idx, col with
  | i :: idx', c :: col' =>
      (if (i =? t)%Z then v else c) :: set_where t v idx' col'
  | _, _ => col
  end.

(** The missing value of a column: [None] where it holds geometries, [NaT]
    where it holds durations, [nan] elsewhere. *)
Definition na_like (col : list cell) : cell :=
  match col with
  | VPoint _ _ :: _ | VNone :: _ => VNone
  | VTimedelta _ :: _ | VNaT :: _ => VNaT
  | _ => VFloat NaN
  end.

(** The frame with one more row, labelled [t], after the others; its cells
    are missing values. *)
Definition enlarge (t : Timestamp) (d : DataFrame) : DataFrame :=
  mkDataFrame (index d ++ [t])
              (map (fun c => (fst c, snd c ++ [na_like (snd c)])) (columns d))
              (geometry_name d) (df_crs d).

(** A frame that has a row labelled [t]: the frame itself when it has one,
    the frame with such a row appended otherwise. *)
Definition with_label (t : Timestamp) (d : DataFrame) : DataFrame :=
  if existsb (Z.eqb t) (index d) then d else enlarge t d.

(** The labels and the cells of a column of [with_label t d]. *)
Definition labels_with (t : Timestamp) (idx : list Timestamp)
  : list Timestamp :=
  if existsb (Z.eqb t) idx then idx else idx ++ [t].

Definition padded (t : Timestamp) (idx : list Timestamp) (col : list cell)
  : list cell :=
  if existsb (Z.eqb t) idx then col else col ++ [na_like col].

(** The cells of a column after [v] was written in the rows labelled [t]. *)
Definition written (t : Timestamp) (v : cell) (idx : list Timestamp)
  (col : list cell) : list cell :=
  set_where t v (labels_with t idx) (padded t idx col).

(** [df.at[t, k] = v]: the cell of column [k] in the rows labelled [t]. For
    a label the index lacks pandas first appends a row with that label, and
    for a column the frame lacks a column of [nan]. *)
Definition df_at_set (t : Timestamp) (k : string) (v : cell) (d : DataFrame)
  : DataFrame :=
  let d := with_label t d in
  let col := match assoc k (columns d) with
             | Some col => col
             | None => map (fun _ => VFloat NaN) (index d)
             end in
  df_set k (set_where t v (index d) col) d.

(** [df[mask]]: the rows where the boolean mask holds. *)
Fixpoint select {A : Type} (mask : list bool) (l : list A) : list A :=
  match mask, l with
  | b :: mask', a :: l' => if b then a :: select mask' l' else select mask' l'
  | _, _ => []
  end.

Definition df_mask (mask : list bool) (d : DataFrame) : DataFrame :=
  mkDataFrame (select mask (index d))
              (map (fun c => (fst c, select mask (snd c))) (columns d))
              (geometry_name d) (df_crs d).

(** [df.take(indexer)]: the rows at the given positions, in that order. *)
Definition df_take (indexer : list nat) (d : DataFrame) : DataFrame :=
  mkDataFrame (map (fun i => nth i (index d) 0) indexer)
              (map (fun c => (fst c, map (fun i => nth i (snd c) VNone) indexer))
                   (columns d))
              (geometry_name d) (df_crs d).

(** [index.duplicated(keep="first")] *)
Fixpoint duplicated_first (seen l : list Timestamp) : list bool :=
  match l with
  | [] => []
  | t :: l' =>
      existsb (Z.eqb t) seen :: duplicated_first (t :: seen) l'
  end.

(** [series.diff()] on the timestamps of the index. *)
Definition index_diff (idx : list Timestamp) : list cell :=
  match idx with
  | [] => []
  | t0 :: rest =>
      VNaT :: map (fun p => VTimedelta (snd p - fst p)) (combine idx rest)
  end.

Fixpoint map2 {A B C : Type} (f : A -> B -> C) (l : list A) (m : list B)
  : list C :=
  match l, m with
  | a :: l', b :: m' => f a b :: map2 f l' m'
  | _, _ => []
  end.

(** Element-wise arithmetic of numeric columns; a cell that is not a float
    counts as missing. *)
Definition cell_float (c : cell) : float :=
  match c with VFloat f => f | _ => NaN end.

Definition cell_op (op : float -> float -> float) (a b : cell) : cell :=
  VFloat (op (cell_float a) (cell_float b)).

(** [series.diff()] on a numeric column. *)
Definition series_diff (col : list cell) : list cell :=
  match col with
  | [] => []
  | _ :: rest => VFloat NaN :: map2 (fun prev cur => cell_op fsub cur prev) col rest
  end.

(** [series.dt.total_seconds()] *)
Definition dt_total_seconds (col : list cell) : list cell :=
  map (fun c => match c with
                | VTimedelta d => VFloat (total_seconds d)
                | _ => VFloat NaN
                end) col.

(** [value.total_seconds()] on the object found in a row. *)
Definition cell_total_seconds (c : cell) : result float :=
  match c with
  | VTimedelta d => Ok (timedelta_total_seconds d)
  | VNaT => Ok NaN
  | _ => Raise (AttributeError "total_seconds")
  end.

(* ================================================================== *)
(** ** The trajectory object *)

(** The conversion factors [get_conversion] hands back; the code reads these
    four fields. *)
Record Conversion : Type := mkConversion {
  conv_crs : float;
  conv_distance : float;
  conv_time : float;
  conv_time2 : float
}.

Definition ACCELERATION_COL_NAME := "acceleration".
Definition ANGULAR_DIFFERENCE_COL_NAME := "angular_difference".
Definition DIRECTION_COL_NAME := "direction".
Definition DISTANCE_COL_NAME := "distance".
Definition SPEED_COL_NAME := "speed".
Definition TIMEDELTA_COL_NAME := "timedelta".
Definition TRAJ_ID_COL_NAME := "traj_id".

(** The attributes of a [Trajectory]; the [*_col_name] attributes exist only
    once the matching [add_*] method has been called ([hasattr]). *)
Inductive Trajectory : Type := mkTrajectory {
  traj_id : string;                              (* self.id *)
  obj_id : option string;
  df : DataFrame;
  crs : option CRS;
  parent : option Trajectory;
  crs_units : option string;
  is_latlon : bool;
  direction_col_name : option string;
  angular_difference_col_name : option string;
  distance_col_name : option string;
  speed_col_name : option string;
  acceleration_col_name : option string;
  timedelta_col_name : option string
}.

Definition set_df (d : DataFrame) (s : Trajectory) : Trajectory :=
  mkTrajectory (traj_id s) (obj_id s) d (crs s) (parent s) (crs_units s)
    (is_latlon s) (direction_col_name s) (angular_difference_col_name s)
    (distance_col_name s) (speed_col_name s) (acceleration_col_name s)
    (timedelta_col_name s).

Definition set_direction_col_name (n : string) (s : Trajectory) : Trajectory :=
  mkTrajectory (traj_id s) (obj_id s) (df s) (crs s) (parent s) (crs_units s)
    (is_latlon s) (Some n) (angular_difference_col_name s)
    (distance_col_name s) (speed_col_name s) (acceleration_col_name s)
    (timedelta_col_name s).

Definition set_angular_difference_col_name (n : string) (s : Trajectory)
  : Trajectory :=
  mkTrajectory (traj_id s) (obj_id s) (df s) (crs s) (parent s) (crs_units s)
    (is_latlon s) (direction_col_name s) (Some n)
    (distance_col_name s) (speed_col_name s) (acceleration_col_name s)
    (timedelta_col_name s).

Definition set_distance_col_name (n : string) (s : Trajectory) : Trajectory :=
  mkTrajectory (traj_id s) (obj_id s) (df s) (crs s) (parent s) (crs_units s)
    (is_latlon s) (direction_col_name s) (angular_difference_col_name s)
    (Some n) (speed_col_name s) (acceleration_col_name s)
    (timedelta_col_name s).

Definition set_speed_col_name (n : string) (s : Trajectory) : Trajectory :=
  mkTrajectory (traj_id s) (obj_id s) (df s) (crs s) (parent s) (crs_units s)
    (is_latlon s) (direction_col_name s) (angular_difference_col_name s)
    (distance_col_name s) (Some n) (acceleration_col_name s)
    (timedelta_col_name s).

Definition set_acceleration_col_name (n : string) (s : Trajectory)
  : Trajectory :=
  mkTrajectory (traj_id s) (obj_id s) (df s) (crs s) (parent s) (crs_units s)
    (is_latlon s) (direction_col_name s) (angular_difference_col_name s)
    (distance_col_name s) (speed_col_name s) (Some n)
    (timedelta_col_name s).

Definition set_timedelta_col_name (n : string) (s : Trajectory) : Trajectory :=
  mkTrajectory (traj_id s) (obj_id s) (df s) (crs s) (parent s) (crs_units s)
    (is_latlon s) (direction_col_name s) (angular_difference_col_name s)
    (distance_col_name s) (speed_col_name s) (acceleration_col_name s)
    (Some n).

(** A method body: it runs on [self], may assign to it, and returns or
    raises; what it assigned before raising stays. *)
Definition method (A : Type) : Type := Trajectory -> result A * Trajectory.

Definition ret {A : Type} (a : A) : method A := fun s => (Ok a, s).

Definition raise {A : Type} (e : exn) : method A := fun s => (Raise e, s).

Definition seq_ {A B : Type} (m : method A) (k : A -> method B) : method B :=
  fun s =>
    match m s with
    | (Ok a, s') => k a s'
    | (Raise e, s') => (Raise e, s')
    end.

(** Evaluate an expression that reads [self]. *)
Definition eval {A : Type} (f : Trajectory -> result A) : method A :=
  fun s => (f s, s).

(** [self.df = ...], also the effect of an in-place frame operation. *)
Definition assign_df (f : Trajectory -> DataFrame) : method unit :=
  fun s => (Ok tt, set_df (f s) s).

Notation "x <~ m ;; k" := (seq_ m (fun x => k))
  (at level 61, m at next level, right associativity).
Notation "m ;;; k" := (seq_ m (fun _ => k))
  (at level 61, right associativity).

Definition get_geom_column_name (self : Trajectory) : string :=
  geometry_name (df self).

(** [df.index.min().to_pydatetime()] and [df.index.max().to_pydatetime()] *)
Definition get_start_time (self : Trajectory) : Timestamp :=
  to_pydatetime (index_min (index (df self))).

Definition get_end_time (self : Trajectory) : Timestamp :=
  to_pydatetime (index_max (index (df self))).

Definition size (self : Trajectory) : nat := List.length (index (df self)).

Definition get_direction_column_name (self : Trajectory) : string :=
  match direction_col_name self with
  | Some n => n
  | None => DIRECTION_COL_NAME
  end.

Definition is_valid (self : Trajectory) : bool :=
  if (len (df self) <? 2)%nat then false
  else if negb (get_start_time self <? get_end_time self) then false
  else true.

Definition column_exists_msg (n : string) : string :=
  "Trajectory already has a column named " ++ n ++
  "! Use overwrite=True to overwrite exiting values or update the name arg.".

(** The message of [add_angular_difference], whose literal has no blank
    after the exclamation mark. *)
Definition column_exists_msg_angular (n : string) : string :=
  "Trajectory already has a column named " ++ n ++
  "!Use overwrite=True to overwrite exiting values or update the name arg.".

(** [index.sort_values()]: the values in ascending order. *)
Fixpoint insert_sorted (t : Timestamp) (l : list Timestamp) : list Timestamp :=
  match l with
  | [] => [t]
  | h :: l' => if t <=? h then t :: l else h :: insert_sorted t l'
  end.

Definition sort_values (l : list Timestamp) : list Timestamp :=
  fold_right insert_sorted [] l.

(** [index.drop_duplicates()] *)
Definition drop_duplicates (l : list Timestamp) : list Timestamp :=
  select (map negb (duplicated_first [] l)) l.

(** Positions in a sorted index without duplicates, as [searchsorted] finds
    them: the number of entries below [t], strictly or not. *)
Definition searchsorted_left (t : Timestamp) (l : list Timestamp) : Z :=
  Z.of_nat (List.length (filter (fun x => x <? t) l)).
Definition searchsorted_right (t : Timestamp) (l : list Timestamp) : Z :=
  Z.of_nat (List.length (filter (fun x => x <=? t) l)).

(** [values[i]] with numpy's negative positions. *)
Definition values_at (l : list Timestamp) (i : Z) : Timestamp :=
  if i <? 0 then nth (Z.to_nat (Z.of_nat (List.length l) + i)) l 0
  else nth (Z.to_nat i) l 0.

Definition pad_indexer (t : Timestamp) (l : list Timestamp) : Z :=
  searchsorted_right t l - 1.

Definition backfill_indexer (t : Timestamp) (l : list Timestamp) : Z :=
  let i := searchsorted_left t l in
  if i =? Z.of_nat (List.length l) then -1 else i.

Definition nearest_indexer (t : Timestamp) (l : list Timestamp) : Z :=
  let left := pad_indexer t l in
  let right := backfill_indexer t l in
  let left_distance := Z.abs (t - values_at l left) in
  let right_distance := Z.abs (t - values_at l right) in
  if (left_distance <? right_distance) || (right =? -1) then left else right.

(** [str.lower()] on the letters A to Z. *)
Definition lower_letter (c : ascii) : ascii :=
  let n := nat_of_ascii c in
  if ((65 <=? n) && (n <=? 90))%nat then ascii_of_nat (n + 32) else c.

Fixpoint lower (s : string) : string :=
  match s with
  | EmptyString => EmptyString
  | String c s' => String (lower_letter c) (lower s')
  end.

(** [index.get_indexer([t], method=method)[0]] for a [t] the index lacks.
    pandas lower-cases the name of the method before it looks at it. Before
    version 2 it reads the name asfreq as no method at all, and without a
    method a label the index lacks has position -1; [asfreq_is_none] says
    whether the installed pandas does so. *)
Definition get_indexer (asfreq_is_none : bool) (t : Timestamp)
  (method_ : string) (l : list Timestamp) : result Z :=
  let method_ := lower method_ in
  if String.eqb method_ "asfreq" && asfreq_is_none
  then Ok (-1)
  else if String.eqb method_ "pad" || String.eqb method_ "ffill"
  then Ok (pad_indexer t l)
  else if String.eqb method_ "backfill" || String.eqb method_ "bfill"
  then Ok (backfill_indexer t l)
  else if String.eqb method_ "nearest"
  then Ok (nearest_indexer t l)
  else Raise (ValueError
                ("Invalid fill method. Expecting pad (ffill), backfill " ++
                 "(bfill) or nearest. Got " ++ method_)%string).

(** What [df.loc[t]] hands back: the row when one row is labelled [t], the
    frame of those rows when several are. *)
Inductive loc_result : Type :=
| LSeries (r : Series)
| LFrame (d : DataFrame).

Fixpoint positions_of (t : Timestamp) (l : list Timestamp) (i : nat)
  : list nat :=
  match l with
  | [] => []
  | h :: l' =>
      if h =? t then i :: positions_of t l' (S i) else positions_of t l' (S i)
  end.

Definition df_loc (t : Timestamp) (d : DataFrame) : result loc_result :=
  match positions_of t (index d) 0 with
  | [] => Raise (KeyError "timestamp")
  | [i] => Ok (LSeries (df_row d i))
  | _ => Ok (LFrame (df_mask (map (Z.eqb t) (index d)) d))
  end.

(** [df[t1:t2]] on a time-ordered index: the rows labelled within
    [[t1, t2]], both ends included. *)
Definition df_slice (t1 t2 : Timestamp) (d : DataFrame) : DataFrame :=
  df_mask (map (fun t => (t1 <=? t) && (t <=? t2)) (index d)) d.

(** [s[:-2]] *)
Definition drop_last2 (s : string) : string :=
  substring 0 (String.length s - 2) s.

(* ================================================================== *)
(** ** Sample data

    Executable stand-ins for the imported functions and a few frames, used
    to run the methods on concrete input. *)

Definition fabs (f : float) : float :=
  match f with
  | Fin q => Fin (Qabs q)
  | NaN => NaN
  | Inf _ => Inf false
  end.

Definition fadd (a b : float) : float :=
  match a, b with
  | Fin p, Fin q => Fin (p + q)
  | NaN, _ | _, NaN => NaN
  | Inf s, Fin _ | Fin _, Inf s => Inf s
  | Inf s, Inf t => if Bool.eqb s t then Inf s else NaN
  end.

(** City-block distance, standing in for the planar and the geodesic
    measure. *)
Definition cityblock (p q : cell) : float :=
  match p, q with
  | VPoint x0 y0, VPoint x1 y1 => fadd (fabs (fsub x1 x0)) (fabs (fsub y1 y0))
  | _, _ => NaN
  end.

Definition bearing_east (p q : cell) : result float :=
  match p, q with
  | VPoint _ _, VPoint _ _ => Ok (Fin 90)
  | _, _ => Raise (TypeError "Only Point geometries are supported")
  end.

Definition abs_difference (a b : cell) : result float :=
  Ok (fabs (fsub (cell_float a) (cell_float b))).

Definition unit_conversion (_ : unit) (_ : option string) : result Conversion :=
  Ok (mkConversion (Fin 1) (Fin 1) (Fin 1) (Fin 1)).

Definition unix_seconds (t : Timestamp) : float := total_seconds t.

Definition midpoint (p q : cell) (_ : float) : cell :=
  match p, q with
  | VPoint (Fin x0) (Fin y0), VPoint (Fin x1) (Fin y1) =>
      VPoint (Fin ((x0 + x1) / 2)) (Fin ((y0 + y1) / 2))
  | _, _ => VNone
  end.

Definition show_Z (z : Z) : string := NilZero.string_of_int (Z.to_int z).

Definition show_cell (c : cell) : string :=
  match c with
  | VFloat (Fin q) => show_Z (Qnum q / Zpos (Qden q))
  | VPoint _ _ => "POINT"
  | VNone => "None"
  | _ => "?"
  end.

(** A stable insertion sort of the positions by label. *)
Fixpoint insert_position (idx : list Timestamp) (i : nat) (l : list nat)
  : list nat :=
  match l with
  | [] => [i]
  | j :: l' =>
      if nth i idx 0 <=? nth j idx 0 then i :: l
      else j :: insert_position idx i l'
  end.

Definition insertion_argsort (idx : list Timestamp) : list nat :=
  fold_right (insert_position idx) [] (seq 0 (List.length idx)).

Definition minute : Z := 60 * 1000000000.

Definition pt (x y : Z) : cell := VPoint (Fin (inject_Z x)) (Fin (inject_Z y)).

(** The four samples of the docstring of [Trajectory.__init__]. *)
Definition docstring_df : DataFrame :=
  mkDataFrame [0; 6 * minute; 10 * minute; 15 * minute]
              [("geometry", [pt 0 0; pt 6 0; pt 6 6; pt 9 9])]
              "geometry" (Some (mkCRS "metre" false)).

Definition traj_of (d : DataFrame) : Trajectory :=
  mkTrajectory "1" None d (df_crs d) None
    (option_map unit_name (df_crs d))
    (match df_crs d with Some c => is_geographic c | None => false end)
    None None None None None None.

Definition docstring_traj : Trajectory := traj_of docstring_df.

(** A frame whose second position is missing. *)
Definition gap_df : DataFrame :=
  mkDataFrame [0; minute]
              [("geometry", [pt 0 0; VNone])]
              "geometry" (Some (mkCRS "metre" false)).

(** A frame, as direct assignment to [traj.df] can produce it, whose last
    two samples carry the same timestamp at different positions. *)
Definition stalled_df : DataFrame :=
  mkDataFrame [0; minute; minute]
              [("geometry", [pt 0 0; pt 1 0; pt 2 0])]
              "geometry" (Some (mkCRS "metre" false)).

(** The docstring frame with a column of the caller's that happens to be
    called like a scratch column. *)
Definition labelled_df : DataFrame :=
  mkDataFrame [0; 6 * minute; 10 * minute; 15 * minute]
              [("geometry", [pt 0 0; pt 6 0; pt 6 6; pt 9 9]);
               ("prev_pt", [VObj "a"; VObj "b"; VObj "c"; VObj "d"])]
              "geometry" (Some (mkCRS "metre" false)).

(** A frame whose last two samples are at the same place. *)
Definition resting_df : DataFrame :=
  mkDataFrame [0; minute; 2 * minute]
              [("geometry", [pt 0 0; pt 3 3; pt 3 3])]
              "geometry" (Some (mkCRS "metre" false)).

(** An input frame out of order, with one timestamp twice. *)
Definition shuffled_df : DataFrame :=
  mkDataFrame [10 * minute; 0; 6 * minute; 0]
              [("geometry", [pt 6 6; pt 0 0; pt 6 0; pt 1 1])]
              "geometry" (Some (mkCRS "metre" false)).


(** A line through the points of a frame, standing in for
    [point_gdf_to_linestring], which refuses fewer than two points. *)
Definition line_of_frame (d : DataFrame) (geom : string) : result cell :=
  if (len d <? 2)%nat
  then Raise (RuntimeError "Dataframe needs at least two points to make line!")
  else
    match assoc geom (columns d) with
    | Some _ => Ok (VObj "LINESTRING")
    | None => Raise (KeyError geom)
    end.

(** Standing in for [create_entry_and_exit_points]: the frame of the
    trajectory with the two interpolated positions as first and last row. *)
Definition entry_and_exit (self : Trajectory)
  (range : cell * cell * Timestamp * Timestamp) : result DataFrame :=
  let '(pt_0, pt_n, t_0, t_n) := range in
  Ok (mkDataFrame (t_0 :: index (df self) ++ [t_n])
        (map (fun c => (fst c, pt_0 :: snd c ++ [pt_n])) (columns (df self)))
        (geometry_name (df self)) (df_crs (df self))).

(** A frame of one sample. *)
Definition single_df : DataFrame :=
  mkDataFrame [0]
              [("geometry", [pt 0 0])]
              "geometry" (Some (mkCRS "metre" false)).

(** An input frame whose rows all carry one timestamp. *)
Definition simultaneous_df : DataFrame :=
  mkDataFrame [minute; minute]
              [("geometry", [pt 0 0; pt 1 1])]
              "geometry" (Some (mkCRS "metre" false)).

(** Two samples a minute apart whose timestamps end in one nanosecond. *)
Definition nanosecond_df : DataFrame :=
  mkDataFrame [1; minute + 1]
              [("geometry", [pt 0 0; pt 60 0])]
              "geometry" (Some (mkCRS "metre" false)).

(** Two samples half a microsecond apart. *)
Definition submicrosecond_df : DataFrame :=
  mkDataFrame [0; 500]
              [("geometry", [pt 0 0; pt 1 0])]
              "geometry" (Some (mkCRS "metre" false)).

(* ================================================================== *)
(** ** The methods of [Trajectory] *)

Section Model.

Set Default Proof Using "Type".

(** *** What the module imports

    [geometry_utils], [unit_utils], shapely and the text formatting of
    Python objects are not part of [trajectory.py]; the methods are
    parametric in them. *)

Variable measure_distance_geodesic : cell -> cell -> float.
Variable measure_distance_euclidean : cell -> cell -> float.
Variable calculate_initial_compass_bearing : cell -> cell -> result float.
Variable azimuth : cell -> cell -> result float.
Variable angular_difference : cell -> cell -> result float.

(** The [UNITS] tuple the [units] argument is normalised to, and the lookup
    of its conversion factors, which raises on an unknown unit. *)
Variable UNITS : Type.
Variable get_conversion : UNITS -> option string -> result Conversion.

(** [to_unixtime], [LineString.length], [LineString.interpolate]. *)
Variable to_unixtime : Timestamp -> float.
Variable linestring_length : cell -> cell -> float.
Variable linestring_interpolate : cell -> cell -> float -> cell.

(** ["{}".format(obj)] for a cell and for a timestamp. *)
Variable format_obj : cell -> string.
Variable format_time : Timestamp -> string.

(** Whether the installed pandas reads the fill method asfreq as no method
    (versions before 2 do). *)
Variable asfreq_is_none : bool.

(** The position array [sort_index] computes. pandas sorts with numpy's
    quicksort, which is not stable: any array that lists every position
    once and puts the labels in ascending order can come back. *)
Variable argsort : list Timestamp -> list nat.
Hypothesis argsort_perm :
  forall idx, Permutation (argsort idx) (seq 0 (List.length idx)).
Hypothesis argsort_sorted :
  forall idx, Sorted Z.le (map (fun i => nth i idx 0) (argsort idx)).

(** *** Construction *)

(** [df.sort_index()] *)
Definition sort_index (d : DataFrame) : DataFrame :=
  df_take (argsort (index d)) d.

(** [Trajectory.__init__] on a GeoDataFrame that has a DatetimeIndex without
    time zone, which is the shape the earlier lines of the constructor turn
    every other accepted input into. *)
Definition Trajectory_init (d : DataFrame) (id_ : string)
  (obj_id_ : option string) (parent_ : option Trajectory) : result Trajectory :=
  if (len d <? 2)%nat
  then Raise (ValueError "The input DataFrame must have at least two rows.")
  else
    let d := sort_index d in
    let self_df :=
      df_mask (map negb (duplicated_first [] (index d))) d in
    match df_crs d with
    | Some c =>
        Ok (mkTrajectory id_ obj_id_ self_df (Some c) parent_
              (Some (unit_name c)) (is_geographic c)
              None None None None None None)
    | None =>
        Ok (mkTrajectory id_ obj_id_ self_df None parent_
              None false
              None None None None None None)
    end.

(** *** Row-wise metrics *)

Definition invalid_point_msg (pt : cell) : string :=
  "Invalid trajectory! Got " ++ format_obj pt ++ " instead of point!".

Definition _compute_distance (self : Trajectory) (row : Series)
  (conversion : Conversion) : result float :=
  pt0 <- row_get "prev_pt" row ;;
  pt1 <- row_get (get_geom_column_name self) row ;;
  if negb (isinstance_Point pt0) then Ok zero
  else if negb (isinstance_Point pt1)
  then Raise (ValueError (invalid_point_msg pt1))
  else if cell_eqb pt0 pt1 then Ok zero
  else if is_latlon self
  then py_truediv (fmul (measure_distance_geodesic pt0 pt1) (conv_crs conversion))
                  (conv_distance conversion)
  else py_truediv (fmul (measure_distance_euclidean pt0 pt1) (conv_crs conversion))
                  (conv_distance conversion).

Definition _compute_heading (self : Trajectory) (row : Series) : result float :=
  pt0 <- row_get "prev_pt" row ;;
  pt1 <- row_get (get_geom_column_name self) row ;;
  if negb (isinstance_Point pt0) then Ok zero
  else if cell_eqb pt0 pt1 then Ok zero
  else if is_latlon self
  then calculate_initial_compass_bearing pt0 pt1
  else azimuth pt0 pt1.

Definition _compute_angular_difference (row : Series) : result float :=
  degrees1 <- row_get "prev_direction" row ;;
  degrees2 <- row_get "direction" row ;;
  if cell_eqb degrees1 degrees2 then Ok zero
  else angular_difference degrees1 degrees2.

Definition _compute_speed (self : Trajectory) (row : Series)
  (conversion : Conversion) : result float :=
  pt0 <- row_get "prev_pt" row ;;
  pt1 <- row_get (get_geom_column_name self) row ;;
  if negb (isinstance_Point pt0) then Ok zero
  else if negb (isinstance_Point pt1)
  then Raise (ValueError (invalid_point_msg pt1))
  else if cell_eqb pt0 pt1 then Ok zero
  else
    dist_computed <-
      (if is_latlon self
       then py_truediv (fmul (measure_distance_geodesic pt0 pt1)
                             (conv_crs conversion))
                       (conv_distance conversion)
       else py_truediv (fmul (measure_distance_euclidean pt0 pt1)
                             (conv_crs conversion))
                       (conv_distance conversion)) ;;
    delta_t <- row_get "delta_t" row ;;
    seconds <- cell_total_seconds delta_t ;;
    quotient <- py_truediv dist_computed seconds ;;
    Ok (fmul quotient (conv_time conversion)).

(** The values [df.apply] collects become the cells of a float column. *)
Definition as_cell (f : Series -> result float) (row : Series) : result cell :=
  x <- f row ;; Ok (VFloat x).

(** *** Frames with a derived column *)

(** [temp_df.assign(prev_pt=temp_df.geometry.shift())] *)
Definition with_prev_pt (temp_df : DataFrame) : result DataFrame :=
  geometry <- df_geometry temp_df ;;
  Ok (df_set "prev_pt" (shift VNone geometry) temp_df).

Definition _get_df_with_timedelta (self : Trajectory) (name_ : string)
  : DataFrame :=
  let temp_df := df self in
  df_set name_ (index_diff (index temp_df)) temp_df.

Definition _get_df_with_distance (self : Trajectory) (conversion : Conversion)
  (name_ : string) : result DataFrame :=
  let temp_df := df self in
  temp_df <- with_prev_pt temp_df ;;
  values <- df_apply (as_cell (fun row => _compute_distance self row conversion))
                     temp_df ;;
  let temp_df := df_set name_ values temp_df in
  let temp_df := df_at_set (get_start_time self) name_ (VFloat zero) temp_df in
  df_drop ["prev_pt"] temp_df.

Definition _get_df_with_speed (self : Trajectory) (conversion : Conversion)
  (name_ : string) : result DataFrame :=
  let temp_df := _get_df_with_timedelta self "delta_t" in
  temp_df <- with_prev_pt temp_df ;;
  values <- df_apply (as_cell (fun row => _compute_speed self row conversion))
                     temp_df ;;
  let temp_df := df_set name_ values temp_df in
  second <- df_iloc 1 temp_df ;;
  v <- row_get name_ second ;;
  let temp_df := df_at_set (get_start_time self) name_ v temp_df in
  df_drop ["prev_pt"; "delta_t"] temp_df.

(** [speed.diff() / index.to_series().diff().dt.total_seconds()
    * conversion.time2], element by element. *)
Definition acceleration_series (conversion : Conversion) (speed : list cell)
  (idx : list Timestamp) : list cell :=
  map (fun c => cell_op fmul c (VFloat (conv_time2 conversion)))
      (map2 (cell_op fdiv)
            (series_diff speed)
            (dt_total_seconds (index_diff idx))).

Definition _get_df_with_acceleration (self : Trajectory)
  (conversion : Conversion) (name_ : string) : result DataFrame :=
  temp_df <- _get_df_with_speed self conversion "speed_temp" ;;
  speed_temp <- df_get "speed_temp" temp_df ;;
  let values := acceleration_series conversion speed_temp (index temp_df) in
  let temp_df := df_set name_ values temp_df in
  second <- df_iloc 1 temp_df ;;
  v <- row_get name_ second ;;
  let temp_df := df_at_set (get_start_time self) name_ v temp_df in
  df_drop ["speed_temp"] temp_df.

(** *** The [add_*] methods *)

(** An assignment to an attribute of [self]. *)
Definition assign (f : Trajectory -> Trajectory) : method unit :=
  fun s => (Ok tt, f s).

Definition _add_prev_pt (force : bool) : method unit :=
  present <~ eval (fun self => Ok (has_column "prev_pt" (df self))) ;;
  if negb present || force
  then
    new_df <~ eval (fun self => with_prev_pt (df self)) ;;
    assign_df (fun _ => new_df)
  else ret tt.

Definition add_direction (overwrite : bool) (name_ : string) : method unit :=
  assign (set_direction_col_name name_) ;;;
  present <~ eval (fun self => Ok (has_column name_ (df self))) ;;
  if present && negb overwrite
  then raise (RuntimeError (column_exists_msg name_))
  else
    _add_prev_pt true ;;;
    values <~ eval (fun self =>
                df_apply (as_cell (_compute_heading self)) (df self)) ;;
    assign_df (fun self => df_set name_ values (df self)) ;;;
    v <~ eval (fun self =>
           second <- df_iloc 1 (df self) ;; row_get name_ second) ;;
    assign_df (fun self =>
                 df_at_set (get_start_time self) name_ v (df self)) ;;;
    dropped <~ eval (fun self => df_drop ["prev_pt"] (df self)) ;;
    assign_df (fun _ => dropped).

Definition add_angular_difference (overwrite : bool) (name_ : string)
  : method unit :=
  assign (set_angular_difference_col_name name_) ;;;
  present <~ eval (fun self => Ok (has_column name_ (df self))) ;;
  if present && negb overwrite
  then raise (RuntimeError (column_exists_msg_angular name_))
  else
    direction_column_name <~
      eval (fun self => Ok (get_direction_column_name self)) ;;
    direction_exists <~
      eval (fun self => Ok (has_column direction_column_name (df self))) ;;
    (if direction_exists then ret tt
     else add_direction false DIRECTION_COL_NAME) ;;;
    temp_df <~ eval (fun self => Ok (df self)) ;;
    direction <~ eval (fun _ => df_get direction_column_name temp_df) ;;
    let temp_df :=
      df_set ("prev_" ++ direction_column_name)
             (shift (VFloat NaN) direction) temp_df in
    values <~ eval (fun _ =>
                df_apply (as_cell _compute_angular_difference) temp_df) ;;
    assign_df (fun self => df_set name_ values (df self)) ;;;
    assign_df (fun self =>
                 df_at_set (get_start_time self) name_ (VFloat zero) (df self)) ;;;
    if negb direction_exists
    then
      dropped <~ eval (fun self => df_drop [DIRECTION_COL_NAME] (df self)) ;;
      assign_df (fun _ => dropped)
    else ret tt.

Definition add_distance (overwrite : bool) (name_ : string) (units : UNITS)
  : method unit :=
  assign (set_distance_col_name name_) ;;;
  present <~ eval (fun self => Ok (has_column name_ (df self))) ;;
  if present && negb overwrite
  then raise (RuntimeError (column_exists_msg name_))
  else
    conversion <~ eval (fun self => get_conversion units (crs_units self)) ;;
    new_df <~ eval (fun self => _get_df_with_distance self conversion name_) ;;
    assign_df (fun _ => new_df).

Definition add_speed (overwrite : bool) (name_ : string) (units : UNITS)
  : method unit :=
  assign (set_speed_col_name name_) ;;;
  present <~ eval (fun self => Ok (has_column name_ (df self))) ;;
  if present && negb overwrite
  then raise (RuntimeError (column_exists_msg name_))
  else
    conversion <~ eval (fun self => get_conversion units (crs_units self)) ;;
    new_df <~ eval (fun self => _get_df_with_speed self conversion name_) ;;
    assign_df (fun _ => new_df).

Definition add_acceleration (overwrite : bool) (name_ : string) (units : UNITS)
  : method unit :=
  assign (set_acceleration_col_name name_) ;;;
  present <~ eval (fun self => Ok (has_column name_ (df self))) ;;
  if present && negb overwrite
  then raise (RuntimeError (column_exists_msg name_))
  else
    conversion <~ eval (fun self => get_conversion units (crs_units self)) ;;
    new_df <~ eval (fun self =>
                _get_df_with_acceleration self conversion name_) ;;
    assign_df (fun _ => new_df).

Definition add_timedelta (overwrite : bool) (name_ : string) : method unit :=
  assign (set_timedelta_col_name name_) ;;;
  present <~ eval (fun self => Ok (has_column name_ (df self))) ;;
  if present && negb overwrite
  then raise (RuntimeError (column_exists_msg name_))
  else assign_df (fun self => _get_df_with_timedelta self name_).

(** *** Queries in time *)

Definition get_row_at (self : Trajectory) (t : Timestamp) (method_ : string)
  : result loc_result :=
  match df_loc t (df self) with
  | Ok row => Ok row
  | Raise (KeyError _) =>
      let index_ := drop_duplicates (sort_values (index (df self))) in
      idx <- get_indexer asfreq_is_none t method_ index_ ;;
      row <- df_iloc idx (df self) ;;
      Ok (LSeries row)
  | Raise e => Raise e
  end.

(** [row.name] and [row[k]] on what [get_row_at] returned. *)
Definition loc_name (r : loc_result) : result Timestamp :=
  match r with
  | LSeries s => Ok (name s)
  | LFrame _ => Raise (AttributeError "name")
  end.

Definition loc_getitem (k : string) (r : loc_result) : result cell :=
  match r with
  | LSeries s => row_get k s
  | LFrame d => col <- df_get k d ;; Ok (hd VNone col)
  end.

(** [LineString([p, q])] *)
Definition LineString (p q : cell) : result (cell * cell) :=
  if isinstance_Point p && isinstance_Point q then Ok (p, q)
  else Raise GeometryError.

Definition interpolate_position_at (self : Trajectory) (t : Timestamp)
  : result cell :=
  prev_row <- get_row_at self t "ffill" ;;
  next_row <- get_row_at self t "bfill" ;;
  next_name <- loc_name next_row ;;
  prev_name <- loc_name prev_row ;;
  let t_diff := next_name - prev_name in
  let t_diff_at := t - prev_name in
  prev_pt <- loc_getitem (get_geom_column_name self) prev_row ;;
  next_pt <- loc_getitem (get_geom_column_name self) next_row ;;
  line <- LineString prev_pt next_pt ;;
  let length_ := linestring_length (fst line) (snd line) in
  if timedelta_eq_int t_diff 0 || feqb length_ zero
  then Ok prev_pt
  else
    fraction <- py_truediv (Fin (inject_Z t_diff_at)) (Fin (inject_Z t_diff)) ;;
    Ok (linestring_interpolate (fst line) (snd line) (fmul fraction length_)).

Definition out_of_range_msg (self : Trajectory) (t : Timestamp) : string :=
  "Timestamp " ++ format_time t ++ " outside the trajectory's time range (" ++
  format_time (get_start_time self) ++ " to " ++
  format_time (get_end_time self) ++ ")".

Definition invalid_method_msg (method_ : string) : string :=
  "Invalid method " ++ method_ ++
  ". Must be one of [nearest, interpolated, ffill, bfill]".

Definition get_position_at (self : Trajectory) (t : Timestamp)
  (method_ : string) : result cell :=
  if (t <? get_start_time self) || (t >? get_end_time self)
  then Raise (ValueError (out_of_range_msg self t))
  else if negb (existsb (String.eqb method_)
                        ["nearest"; "interpolated"; "ffill"; "bfill"])
  then Raise (ValueError (invalid_method_msg method_))
  else if String.eqb method_ "interpolated"
  then interpolate_position_at self t
  else
    row <- get_row_at self t method_ ;;
    loc_getitem (get_geom_column_name self) row.

Definition segment_id (self : Trajectory) (t1 : Timestamp) : string :=
  traj_id self ++ "_" ++ format_time t1.

Definition invalid_segment_msg (t1 t2 : Timestamp) : string :=
  "Failed to extract valid trajectory segment between " ++ format_time t1 ++
  " and " ++ format_time t2.

Definition get_segment_between (self : Trajectory) (t1 t2 : Timestamp)
  : result Trajectory :=
  segment <- Trajectory_init (df_slice t1 t2 (df self)) (segment_id self t1)
                             None (Some self) ;;
  if negb (is_valid segment)
  then Raise (RuntimeError (invalid_segment_msg t1 t2))
  else Ok segment.

(** *** Text export *)

(** One turn of the loop of [to_linestringm_wkt]. *)
Definition wkt_triple (pt : cell) (t : Timestamp) : result string :=
  match pt with
  | VPoint x y =>
      Ok (format_obj (VFloat x) ++ " " ++ format_obj (VFloat y) ++ " " ++
          format_obj (VFloat (to_unixtime t)))%string
  | _ => Raise (AttributeError "x")
  end.

Fixpoint wkt_coords (geom : string) (rows : list Series) (coords : string)
  : result string :=
  match rows with
  | [] => Ok coords
  | row :: rows' =>
      pt <- row_get geom row ;;
      triple <- wkt_triple pt (name row) ;;
      wkt_coords geom rows' (coords ++ triple ++ ", ")%string
  end.

Definition to_linestringm_wkt (self : Trajectory) : result string :=
  coords <- wkt_coords (get_geom_column_name self) (df_rows (df self)) "" ;;
  Ok ("LINESTRING M (" ++ drop_last2 coords ++ ")")%string.

(** *** Further methods *)

Definition get_speed_column_name (self : Trajectory) : string :=
  match speed_col_name self with
  | Some n => n
  | None => SPEED_COL_NAME
  end.

Definition get_distance_column_name (self : Trajectory) : string :=
  match distance_col_name self with
  | Some n => n
  | None => DISTANCE_COL_NAME
  end.

Definition get_angular_difference_column_name (self : Trajectory) : string :=
  match angular_difference_col_name self with
  | Some n => n
  | None => ANGULAR_DIFFERENCE_COL_NAME
  end.

Definition get_timedelta_column_name (self : Trajectory) : string :=
  match timedelta_col_name self with
  | Some n => n
  | None => TIMEDELTA_COL_NAME
  end.

(** [series.iloc[i]] with Python's negative positions. *)
Definition series_iloc (i : Z) (col : list cell) : result cell :=
  let n := Z.of_nat (List.length col) in
  if (0 <=? i) && (i <? n) then Ok (nth (Z.to_nat i) col VNone)
  else if (i <? 0) && (0 <=? n + i) then Ok (nth (Z.to_nat (n + i)) col VNone)
  else Raise IndexError.

Definition get_start_location (self : Trajectory) : result cell :=
  geometry <- df_geometry (df self) ;;
  series_iloc 0 geometry.

Definition get_end_location (self : Trajectory) : result cell :=
  geometry <- df_geometry (df self) ;;
  series_iloc (-1) geometry.

Definition get_duration (self : Trajectory) : Timedelta :=
  get_end_time self - get_start_time self.

(** [copy]: a new trajectory from the frame, the id and the parent; the
    call passes nothing else on. *)
Definition copy (self : Trajectory) : result Trajectory :=
  Trajectory_init (df self) (traj_id self) None (parent self).

(** [point_gdf_to_linestring] of [geometry_utils] and
    [create_entry_and_exit_points] of [overlay], which takes the
    [SpatioTemporalRange] of two points and two times. *)
Variable point_gdf_to_linestring : DataFrame -> string -> result cell.
Variable create_entry_and_exit_points :
  Trajectory -> cell * cell * Timestamp * Timestamp -> result DataFrame.

Definition invalid_split_method_msg (method_ : string) : string :=
  "Invalid split method " ++ method_ ++
  ". Must be one of [interpolated, within]".

Definition no_linestring_msg (t1 t2 : Timestamp) : string :=
  "Cannot generate linestring between " ++ format_time t1 ++ " and " ++
  format_time t2.

Definition get_linestring_between (self : Trajectory) (t1 t2 : Timestamp)
  (method_ : string) : result cell :=
  if negb (existsb (String.eqb method_) ["interpolated"; "within"])
  then Raise (ValueError (invalid_split_method_msg method_))
  else if String.eqb method_ "interpolated"
  then
    pt_0 <- get_position_at self t1 "interpolated" ;;
    pt_n <- get_position_at self t2 "interpolated" ;;
    temp_df <- create_entry_and_exit_points self (pt_0, pt_n, t1, t2) ;;
    let temp_df := df_slice t1 t2 temp_df in
    point_gdf_to_linestring temp_df (get_geom_column_name self)
  else
    match (segment <- get_segment_between self t1 t2 ;;
           point_gdf_to_linestring (df segment) (get_geom_column_name self))
    with
    | Raise (RuntimeError _) => Raise (RuntimeError (no_linestring_msg t1 t2))
    | outcome => outcome
    end.

(* ================================================================== *)
(** ** Vocabulary of the statements *)

(** The cell of column [k] in row [i] (counted from 0). *)
Definition df_cell (k : string) (i : nat) (d : DataFrame) : option cell :=
  match assoc k (columns d) with
  | Some col => nth_error col i
  | None => None
  end.

(** The invariant the constructor establishes on the index. *)
Definition strictly_increasing (idx : list Timestamp) : Prop :=
  StronglySorted Z.lt idx.

(** Every column is as long as the index. *)
Definition aligned (d : DataFrame) : Prop :=
  Forall (fun c => List.length (snd c) = len d) (columns d).

(** A call that was refused: it raised [RuntimeError msg] and left the
    frame of [before] as it was. *)
Definition refused (msg : string) (before : Trajectory)
  (out : result unit * Trajectory) : Prop :=
  fst out = Raise (RuntimeError msg) /\ df (snd out) = df before.

(** The columns the methods use for intermediate values. *)
Definition scratch_names : list string := ["prev_pt"; "delta_t"; "speed_temp"].

(** [after] is [before] with one more column, called [name_], at the end:
    same index, same columns in the same order with the same cells, and a
    new column as long as the index. *)
Definition adds_one_column (name_ : string) (before after : DataFrame)
  : Prop :=
  index after = index before /\
  geometry_name after = geometry_name before /\
  exists vals,
    List.length vals = len before /\
    columns after = columns before ++ [(name_, vals)].

(** The LINESTRING M text in the words of the specification: one triple
    "x y unix_seconds" per sample, in sample order, the triples joined by a
    comma and a blank. *)
Definition sample_triple (sample : Timestamp * cell) : string :=
  match snd sample with
  | VPoint x y =>
      format_obj (VFloat x) ++ " " ++ format_obj (VFloat y) ++ " " ++
      format_obj (VFloat (to_unixtime (fst sample)))
  | _ => ""
  end.

Definition linestringm_text (samples : list (Timestamp * cell)) : string :=
  "LINESTRING M (" ++ String.concat ", " (map sample_triple samples) ++ ")".

(** The triples as the loop accumulates them, each followed by the
    separator. *)
Fixpoint terminated (triples : list string) : string :=
  match triples with
  | [] => ""
  | triple :: rest => triple ++ ", " ++ terminated rest
  end.

(** [after] is [before] with the cells of column [name_] replaced: same
    index, same column names in the same order, every other column
    untouched, and the column [name_] as long as the index. *)
Definition replaces_column (name_ : string) (before after : DataFrame)
  : Prop :=
  index after = index before /\
  column_names after = column_names before /\
  (forall k, k <> name_ ->
     assoc k (columns after) = assoc k (columns before)) /\
  exists vals,
    List.length vals = len before /\
    assoc name_ (columns after) = Some vals.

(* ================================================================== *)
(** ** Results and lists *)

Lemma bind_Ok {A B : Type} (m : result A) (k : A -> result B) (b : B) :
  bind m k = Ok b -> exists a, m = Ok a /\ k a = Ok b.
Proof.
  destruct m as [a | e]; simpl; intros H; [eauto | discriminate].
Qed.

Lemma mapM_length {A B : Type} (f : A -> result B) (l : list A) (bs : list B) :
  mapM f l = Ok bs -> List.length bs = List.length l.
Proof.
  revert bs; induction l as [| a l IH]; simpl; intros bs H.
  - injection H as <-; reflexivity.
  - apply bind_Ok in H as (b & _ & H).
    apply bind_Ok in H as (bs' & Hbs & H).
    injection H as <-; simpl; f_equal; auto.
Qed.

Lemma mapM_nth {A B : Type} (f : A -> result B) (l : list A) (bs : list B)
  (i : nat) (da : A) (db : B) :
  mapM f l = Ok bs -> (i < List.length l)%nat ->
  f (nth i l da) = Ok (nth i bs db).
Proof.
  revert bs i; induction l as [| a l IH]; simpl; intros bs i H Hi; [lia |].
  apply bind_Ok in H as (b & Hb & H).
  apply bind_Ok in H as (bs' & Hbs & H).
  injection H as <-.
  destruct i as [| i]; simpl; [assumption |].
  apply IH; [assumption | lia].
Qed.

(** When every element either succeeds or raises [e], and one raises, the
    whole traversal raises [e]. *)
Lemma mapM_raise {A B : Type} (f : A -> result B) (l : list A) (e : exn) :
  Forall (fun a => is_ok (f a) = true \/ f a = Raise e) l ->
  Exists (fun a => f a = Raise e) l ->
  mapM f l = Raise e.
Proof.
  induction l as [| a l IH]; intros Hall Hex; [inversion Hex |].
  inversion Hall as [| ? ? Ha Hl]; subst.
  simpl. destruct (f a) as [b | e'] eqn:Hfa; simpl.
  - inversion Hex as [? ? Hhd | ? ? Htl]; subst; [congruence |].
    rewrite (IH Hl Htl); reflexivity.
  - destruct Ha as [Ha | Ha]; [discriminate | congruence].
Qed.

Lemma assoc_col_set_same {A : Type} (k : string) (v : A) (l : list (string * A)) :
  assoc k (col_set k v l) = Some v.
Proof.
  induction l as [| [k' a] l IH]; simpl.
  - rewrite String.eqb_refl; reflexivity.
  - destruct (String.eqb k' k) eqn:E; simpl; rewrite E; auto.
Qed.

Lemma assoc_col_set_other {A : Type} (k k' : string) (v : A)
  (l : list (string * A)) :
  k <> k' -> assoc k' (col_set k v l) = assoc k' l.
Proof.
  intros Hne; induction l as [| [k0 a] l IH]; simpl.
  - apply String.eqb_neq in Hne; rewrite Hne; reflexivity.
  - destruct (String.eqb k0 k) eqn:E; simpl.
    + apply String.eqb_eq in E; subst k0.
      apply String.eqb_neq in Hne; rewrite Hne; reflexivity.
    + destruct (String.eqb k0 k'); auto.
Qed.

Lemma assoc_col_drop_other {A : Type} (k k' : string) (l : list (string * A)) :
  k <> k' -> assoc k' (col_drop k l) = assoc k' l.
Proof.
  intros Hne; induction l as [| [k0 a] l IH]; simpl; [reflexivity |].
  destruct (String.eqb k0 k) eqn:E; simpl.
  - apply String.eqb_eq in E; subst k0.
    apply String.eqb_neq in Hne; rewrite Hne; assumption.
  - destruct (String.eqb k0 k'); auto.
Qed.

Lemma assoc_col_drop_same {A : Type} (k : string) (l : list (string * A)) :
  assoc k (col_drop k l) = None.
Proof.
  induction l as [| [k0 a] l IH]; simpl; [reflexivity |].
  destruct (String.eqb k0 k) eqn:E; simpl; [assumption |].
  rewrite E; assumption.
Qed.

Lemma assoc_map_snd {A B : Type} (f : A -> B) (k : string)
  (l : list (string * A)) :
  assoc k (map (fun c => (fst c, f (snd c))) l) = option_map f (assoc k l).
Proof.
  induction l as [| [k0 a] l IH]; simpl; [reflexivity |].
  destruct (String.eqb k0 k); auto.
Qed.

Lemma row_get_df_row (k : string) (d : DataFrame) (i : nat) :
  row_get k (df_row d i) =
  match assoc k (columns d) with
  | Some col => Ok (nth i col VNone)
  | None => Raise (KeyError k)
  end.
Proof.
  unfold row_get, df_row; simpl.
  rewrite (assoc_map_snd (fun col => nth i col VNone)).
  destruct (assoc k (columns d)); reflexivity.
Qed.

Lemma nth_removelast_lt {A : Type} (l : list A) (i : nat) (dflt : A) :
  (S i < List.length l)%nat -> nth i (removelast l) dflt = nth i l dflt.
Proof.
  revert i; induction l as [| a l IH]; intros i Hi; [simpl in Hi; lia |].
  destruct l as [| b l]; [simpl in Hi; lia |].
  change (removelast (a :: b :: l)) with (a :: removelast (b :: l)).
  destruct i as [| i]; [reflexivity |].
  cbn [nth]. apply IH. simpl in Hi |- *. lia.
Qed.

Lemma nth_shift (fill : cell) (l : list cell) (i : nat) (dflt : cell) :
  (S i < List.length l)%nat -> nth (S i) (shift fill l) dflt = nth i l dflt.
Proof.
  intros Hi. destruct l as [| a l]; [simpl in Hi; lia |].
  exact (nth_removelast_lt (a :: l) i dflt Hi).
Qed.

Lemma shift_length (fill : cell) (l : list cell) :
  List.length (shift fill l) = List.length l.
Proof.
  destruct l as [| a l]; [reflexivity |].
  unfold shift. cbn [List.length]. f_equal.
  revert a; induction l as [| b l IH]; intros a; [reflexivity |].
  change (removelast (a :: b :: l)) with (a :: removelast (b :: l)).
  cbn [List.length]. f_equal. apply IH.
Qed.

Lemma nth_index_diff (idx : list Timestamp) (i : nat) :
  (S i < List.length idx)%nat ->
  nth (S i) (index_diff idx) VNone =
  VTimedelta (nth (S i) idx 0 - nth i idx 0).
Proof.
  destruct idx as [| t0 rest]; simpl; intros Hi; [lia |].
  revert t0 i Hi; induction rest as [| t1 rest IH]; simpl; intros t0 i Hi;
    [lia |].
  destruct i as [| i]; [reflexivity |].
  apply IH; lia.
Qed.

Lemma index_diff_length (idx : list Timestamp) :
  List.length (index_diff idx) = List.length idx.
Proof.
  destruct idx as [| t0 rest]; simpl; [reflexivity |].
  f_equal. rewrite length_map.
  revert t0; induction rest as [| t1 rest IH]; simpl; intros t0; auto.
Qed.

(* ================================================================== *)
(** ** The overwrite guard *)

(** C4. When the frame already has a column called [name_], every [add_*]
    method called with that name and [overwrite=False] raises the
    RuntimeError whose message names the column, and the frame (index, every
    column, every cell) is the one from before the call. *)
Theorem overwrite_guard_refuses (self : Trajectory) (name_ : string)
  (units : UNITS) :
  has_column name_ (df self) = true ->
  refused (column_exists_msg name_) self (add_distance false name_ units self) /\
  refused (column_exists_msg name_) self (add_speed false name_ units self) /\
  refused (column_exists_msg name_) self
          (add_acceleration false name_ units self) /\
  refused (column_exists_msg name_) self (add_timedelta false name_ self) /\
  refused (column_exists_msg name_) self (add_direction false name_ self) /\
  refused (column_exists_msg_angular name_) self
          (add_angular_difference false name_ self).
Proof.
  intros Hcol.
  unfold refused, add_distance, add_speed, add_acceleration, add_timedelta,
    add_direction, add_angular_difference, seq_, assign, eval, raise; simpl.
  rewrite Hcol; simpl. repeat split.
Qed.

(* ================================================================== *)
(** ** Degenerate steps *)

Lemma cell_eqb_point_r (p q : cell) :
  isinstance_Point p = true -> cell_eqb p q = true -> isinstance_Point q = true.
Proof.
  destruct p; try discriminate; destruct q; simpl; auto; discriminate.
Qed.

(** A step whose earlier position is not a point, or whose two positions are
    equal points, has distance, speed and heading 0.0 whatever the time
    between them; a step from a point to something that is not a point
    makes the distance and the speed raise ValueError. *)
Lemma degenerate_row (self : Trajectory) (row : Series)
  (conversion : Conversion) (pt0 pt1 : cell) :
  row_get "prev_pt" row = Ok pt0 ->
  row_get (get_geom_column_name self) row = Ok pt1 ->
  (isinstance_Point pt0 = false \/ cell_eqb pt0 pt1 = true ->
     _compute_distance self row conversion = Ok zero /\
     _compute_speed self row conversion = Ok zero /\
     _compute_heading self row = Ok zero) /\
  (isinstance_Point pt0 = true -> isinstance_Point pt1 = false ->
     _compute_distance self row conversion =
       Raise (ValueError (invalid_point_msg pt1)) /\
     _compute_speed self row conversion =
       Raise (ValueError (invalid_point_msg pt1))).
Proof.
  intros H0 H1.
  unfold _compute_distance, _compute_speed, _compute_heading.
  rewrite H0, H1; simpl. split.
  - intros [Hnp | Heq].
    + rewrite Hnp; simpl. auto.
    + destruct (isinstance_Point pt0) eqn:Hp0; simpl; [| auto].
      rewrite (cell_eqb_point_r pt0 pt1 Hp0 Heq), Heq; simpl. auto.
  - intros Hp0 Hp1. rewrite Hp0, Hp1; simpl. auto.
Qed.

(* ================================================================== *)
(** ** A step without elapsed time *)

Lemma total_seconds_zero : fis_zero (total_seconds 0) = true.
Proof. reflexivity. Qed.

Lemma py_truediv_cases (a b : float) :
  is_ok (py_truediv a b) = true \/ py_truediv a b = Raise ZeroDivisionError.
Proof.
  unfold py_truediv. destruct (fis_zero b); simpl; auto.
Qed.

Lemma compute_speed_zero_elapsed (self : Trajectory) (row : Series)
  (conversion : Conversion) (pt0 pt1 : cell) :
  row_get "prev_pt" row = Ok pt0 ->
  row_get (get_geom_column_name self) row = Ok pt1 ->
  row_get "delta_t" row = Ok (VTimedelta 0) ->
  isinstance_Point pt0 = true ->
  isinstance_Point pt1 = true ->
  cell_eqb pt0 pt1 = false ->
  _compute_speed self row conversion = Raise ZeroDivisionError.
Proof.
  intros H0 H1 Hdt Hp0 Hp1 Hne.
  unfold _compute_speed. rewrite H0, H1; simpl.
  rewrite Hp0, Hp1, Hne, Hdt; simpl.
  destruct (is_latlon self);
    match goal with
    | |- bind (py_truediv ?a ?b) _ = _ =>
        destruct (py_truediv_cases a b) as [Hok | Hr];
        [destruct (py_truediv a b); [simpl | discriminate] | rewrite Hr]
    end; reflexivity.
Qed.

(* ================================================================== *)
(** ** Frames: rows, cells and columns *)

Lemma df_rows_length (d : DataFrame) : List.length (df_rows d) = len d.
Proof. unfold df_rows. rewrite length_map, length_seq. reflexivity. Qed.

Lemma df_rows_nth (d : DataFrame) (i : nat) (dflt : Series) :
  (i < len d)%nat -> nth i (df_rows d) dflt = df_row d i.
Proof.
  intros Hi. unfold df_rows.
  rewrite (nth_indep _ dflt (df_row d 0%nat))
    by (rewrite length_map, length_seq; exact Hi).
  rewrite (map_nth (df_row d)), seq_nth by exact Hi. reflexivity.
Qed.

Lemma df_apply_length (f : Series -> result cell) (d : DataFrame)
  (vals : list cell) :
  df_apply f d = Ok vals -> List.length vals = len d.
Proof.
  intros H. apply mapM_length in H. rewrite H. apply df_rows_length.
Qed.

Lemma df_apply_nth (f : Series -> result cell) (d : DataFrame)
  (vals : list cell) (i : nat) :
  df_apply f d = Ok vals -> (i < len d)%nat ->
  f (df_row d i) = Ok (nth i vals VNone).
Proof.
  intros H Hi. unfold df_apply in H.
  rewrite <- (df_rows_nth d i (df_row d 0%nat) Hi).
  apply mapM_nth; [assumption | rewrite df_rows_length; assumption].
Qed.

Lemma set_where_length (t : Timestamp) (v : cell) (idx : list Timestamp)
  (col : list cell) :
  List.length (set_where t v idx col) = List.length col.
Proof.
  revert col; induction idx as [| i idx IH]; intros [| c col]; simpl; auto.
Qed.

Lemma nth_set_where (t : Timestamp) (v : cell) (idx : list Timestamp)
  (col : list cell) (i : nat) (dflt : cell) :
  (i < List.length idx)%nat -> (i < List.length col)%nat ->
  nth i (set_where t v idx col) dflt =
  if nth i idx 0 =? t then v else nth i col dflt.
Proof.
  revert col i; induction idx as [| j idx IH]; intros [| c col] i Hi Hc;
    simpl in *; try lia.
  destruct i as [| i]; [reflexivity |].
  apply IH; lia.
Qed.

Lemma fold_min_above (t0 : Timestamp) (rest : list Timestamp) :
  Forall (Z.lt t0) rest -> fold_right Z.min t0 rest = t0.
Proof.
  induction 1 as [| t rest Ht _ IH]; simpl; [reflexivity |].
  rewrite IH. lia.
Qed.

Lemma increasing_min (t0 : Timestamp) (rest : list Timestamp) :
  strictly_increasing (t0 :: rest) -> index_min (t0 :: rest) = t0.
Proof.
  intros H. apply StronglySorted_inv in H as [_ H].
  unfold index_min; simpl. rewrite (fold_min_above t0 rest H). lia.
Qed.

Lemma increasing_tail_above (t0 : Timestamp) (rest : list Timestamp) (i : nat) :
  strictly_increasing (t0 :: rest) -> (i < List.length rest)%nat ->
  t0 < nth i rest 0.
Proof.
  intros H Hi. apply StronglySorted_inv in H as [_ H].
  rewrite Forall_forall in H. apply H, nth_In, Hi.
Qed.

Lemma to_pydatetime_le (t : Timestamp) : to_pydatetime t <= t.
Proof.
  unfold to_pydatetime. pose proof (Z.mul_div_le t 1000). lia.
Qed.

Lemma to_pydatetime_gt (t : Timestamp) : t - 1000 < to_pydatetime t.
Proof.
  unfold to_pydatetime. pose proof (Z.mul_succ_div_gt t 1000). lia.
Qed.

Lemma to_pydatetime_mono (a b : Timestamp) :
  a <= b -> to_pydatetime a <= to_pydatetime b.
Proof.
  intros H. unfold to_pydatetime.
  pose proof (Z.div_le_mono a b 1000). lia.
Qed.

Lemma to_pydatetime_whole (t : Timestamp) :
  to_pydatetime t = t <-> t mod 1000 = 0.
Proof.
  unfold to_pydatetime. pose proof (Z.div_mod t 1000). lia.
Qed.

Lemma index_min_le (l : list Timestamp) (x : Timestamp) :
  In x l -> index_min l <= x.
Proof.
  unfold index_min. generalize (hd 0 l). intros d.
  induction l as [| a l IH]; simpl; [intros [] |].
  intros [-> | H]; [lia | specialize (IH H); lia].
Qed.

Lemma index_max_ge (l : list Timestamp) (x : Timestamp) :
  In x l -> x <= index_max l.
Proof.
  unfold index_max. generalize (hd 0 l). intros d.
  induction l as [| a l IH]; simpl; [intros [] |].
  intros [-> | H]; [lia | specialize (IH H); lia].
Qed.

Lemma start_is_min (self : Trajectory) :
  In (get_start_time self) (index (df self)) ->
  get_start_time self = index_min (index (df self)).
Proof.
  intros H. apply index_min_le in H.
  pose proof (to_pydatetime_le (index_min (index (df self)))) as Hle.
  unfold get_start_time in *. lia.
Qed.

Lemma col_set_twice {A : Type} (k : string) (x y : A) (l : list (string * A)) :
  col_set k x (col_set k y l) = col_set k x l.
Proof.
  induction l as [| [k0 a] l IH]; simpl.
  - rewrite String.eqb_refl; reflexivity.
  - destruct (String.eqb k0 k) eqn:E; simpl; rewrite E; [reflexivity |].
    f_equal; exact IH.
Qed.

Lemma col_drop_absent {A : Type} (k : string) (l : list (string * A)) :
  assoc k l = None -> col_drop k l = l.
Proof.
  induction l as [| [k0 a] l IH]; simpl; [reflexivity |].
  destruct (String.eqb k0 k) eqn:E; [discriminate |].
  intros H; simpl; f_equal; auto.
Qed.

Lemma col_drop_col_set_fresh {A : Type} (k : string) (v : A)
  (l : list (string * A)) :
  assoc k l = None -> col_drop k (col_set k v l) = l.
Proof.
  induction l as [| [k0 a] l IH]; simpl.
  - rewrite String.eqb_refl; reflexivity.
  - destruct (String.eqb k0 k) eqn:E; [discriminate |].
    intros H; simpl; rewrite E; simpl; f_equal; auto.
Qed.

(** A scratch column that was not there before is gone without a trace once
    it is dropped, whatever was assigned to another column meanwhile. *)
Lemma scratch_roundtrip {A : Type} (k n : string) (x y : A)
  (l : list (string * A)) :
  k <> n -> assoc k l = None ->
  col_drop k (col_set n x (col_set k y l)) = col_set n x l.
Proof.
  intros Hne; induction l as [| [k0 a] l IH]; simpl.
  - intros _. pose proof Hne as Hne'. apply String.eqb_neq in Hne'.
    rewrite Hne'; simpl. rewrite String.eqb_refl; simpl.
    assert (Hnk : String.eqb n k = false)
      by (apply String.eqb_neq; congruence).
    rewrite Hnk; reflexivity.
  - destruct (String.eqb k0 k) eqn:E; [discriminate |]. intros Hk. simpl.
    destruct (String.eqb k0 n) eqn:En; simpl; rewrite E; simpl.
    + f_equal. apply col_drop_col_set_fresh; assumption.
    + f_equal. auto.
Qed.

Lemma col_set_fresh {A : Type} (k : string) (v : A) (l : list (string * A)) :
  assoc k l = None -> col_set k v l = l ++ [(k, v)].
Proof.
  induction l as [| [k0 a] l IH]; simpl; [reflexivity |].
  destruct (String.eqb k0 k); [discriminate |].
  intros H; f_equal; auto.
Qed.

Lemma has_column_df_set_same (k : string) (vals : list cell) (d : DataFrame) :
  has_column k (df_set k vals d) = true.
Proof.
  unfold has_column, df_set; simpl. rewrite assoc_col_set_same. reflexivity.
Qed.

Lemma existsb_eqb_true (t : Timestamp) (l : list Timestamp) :
  In t l -> existsb (Z.eqb t) l = true.
Proof.
  intros H. apply existsb_exists. exists t. split; [exact H | apply Z.eqb_refl].
Qed.

Lemma existsb_eqb_false (t : Timestamp) (l : list Timestamp) :
  ~ In t l -> existsb (Z.eqb t) l = false.
Proof.
  intros H. destruct (existsb (Z.eqb t) l) eqn:E; [| reflexivity].
  apply existsb_exists in E as (x & Hx & E). apply Z.eqb_eq in E. subst x.
  contradiction.
Qed.

Lemma with_label_index (t : Timestamp) (d : DataFrame) :
  index (with_label t d) = labels_with t (index d) /\
  geometry_name (with_label t d) = geometry_name d /\
  df_crs (with_label t d) = df_crs d.
Proof.
  unfold with_label, labels_with.
  destruct (existsb (Z.eqb t) (index d)); repeat split.
Qed.

Lemma with_label_present (t : Timestamp) (d : DataFrame) :
  In t (index d) -> with_label t d = d.
Proof.
  intros H. unfold with_label. rewrite existsb_eqb_true by exact H.
  reflexivity.
Qed.

Lemma labels_with_present (t : Timestamp) (idx : list Timestamp) :
  In t idx -> labels_with t idx = idx.
Proof.
  intros H. unfold labels_with. rewrite existsb_eqb_true by exact H.
  reflexivity.
Qed.

Lemma padded_present (t : Timestamp) (idx : list Timestamp)
  (col : list cell) :
  In t idx -> padded t idx col = col.
Proof.
  intros H. unfold padded. rewrite existsb_eqb_true by exact H. reflexivity.
Qed.

Lemma padded_length (t : Timestamp) (idx : list Timestamp) (col : list cell) :
  List.length col = List.length idx ->
  List.length (padded t idx col) = List.length (labels_with t idx).
Proof.
  intros H. unfold padded, labels_with.
  destruct (existsb (Z.eqb t) idx); [exact H |].
  rewrite !length_app, H. reflexivity.
Qed.

Lemma map_col_set {A : Type} (f : list A -> list A) (k : string)
  (v : list A) (l : list (string * list A)) :
  map (fun c => (fst c, f (snd c))) (col_set k v l) =
  col_set k (f v) (map (fun c => (fst c, f (snd c))) l).
Proof.
  induction l as [| [k0 a] l IH]; cbn [col_set map fst snd]; [reflexivity |].
  destruct (String.eqb k0 k); cbn [map fst snd]; [reflexivity |].
  f_equal. exact IH.
Qed.

Lemma with_label_df_set (t : Timestamp) (k : string) (vals : list cell)
  (d : DataFrame) :
  with_label t (df_set k vals d) =
  df_set k (padded t (index d) vals) (with_label t d).
Proof.
  unfold with_label, padded. cbn [index df_set with_columns].
  destruct (existsb (Z.eqb t) (index d)); [reflexivity |].
  unfold enlarge, df_set, with_columns.
  cbn [index columns geometry_name df_crs]. f_equal.
  apply (map_col_set (fun col => col ++ [na_like col])).
Qed.

Lemma df_at_set_df_set (t : Timestamp) (k : string) (v : cell)
  (vals : list cell) (d : DataFrame) :
  df_at_set t k v (df_set k vals d) =
  df_set k (written t v (index d) vals)
         (with_label t d).
Proof.
  unfold df_at_set, written. rewrite with_label_df_set.
  cbn [columns index df_set with_columns].
  rewrite assoc_col_set_same.
  rewrite (proj1 (with_label_index t d)).
  unfold df_set, with_columns. cbn [index columns geometry_name df_crs].
  rewrite col_set_twice. reflexivity.
Qed.

Lemma df_at_set_present (t : Timestamp) (k : string) (v : cell)
  (vals : list cell) (d : DataFrame) :
  In t (index d) ->
  df_at_set t k v (df_set k vals d) =
  df_set k (set_where t v (index d) vals) d.
Proof.
  intros H. rewrite df_at_set_df_set. unfold written.
  rewrite labels_with_present, padded_present, with_label_present
    by exact H.
  reflexivity.
Qed.

Lemma written_present (t : Timestamp) (v : cell) (idx : list Timestamp)
  (vals : list cell) :
  In t idx -> written t v idx vals = set_where t v idx vals.
Proof.
  intros H. unfold written.
  rewrite labels_with_present, padded_present by exact H. reflexivity.
Qed.

Lemma written_length (t : Timestamp) (v : cell) (idx : list Timestamp)
  (vals : list cell) :
  List.length vals = List.length idx ->
  List.length (written t v idx vals) = List.length (labels_with t idx).
Proof.
  intros H. unfold written. rewrite set_where_length.
  apply padded_length. exact H.
Qed.

Lemma set_where_absent (t : Timestamp) (v : cell) (idx : list Timestamp)
  (col : list cell) :
  ~ In t idx -> set_where t v idx col = col.
Proof.
  revert col; induction idx as [| i idx IH]; intros [| c col] H;
    cbn [set_where]; try reflexivity.
  destruct (i =? t) eqn:E;
    [apply Z.eqb_eq in E; exfalso; apply H; left; exact E |].
  f_equal. apply IH. intros Hin. apply H. right. exact Hin.
Qed.

Lemma set_where_app (t : Timestamp) (v : cell) (idx idx' : list Timestamp)
  (col col' : list cell) :
  List.length col = List.length idx ->
  set_where t v (idx ++ idx') (col ++ col') =
  set_where t v idx col ++ set_where t v idx' col'.
Proof.
  revert col; induction idx as [| i idx IH]; intros [| c col] H;
    cbn [List.length] in H; try discriminate H; [reflexivity |].
  cbn [app set_where]. f_equal. apply IH. lia.
Qed.

(** The cells a write at a label the index lacks leaves: the old ones and,
    in the new row, the value written. *)
Lemma written_absent (t : Timestamp) (v : cell) (idx : list Timestamp)
  (vals : list cell) :
  ~ In t idx -> List.length vals = List.length idx ->
  written t v idx vals = vals ++ [v].
Proof.
  intros Hout Hlen. unfold written, labels_with, padded.
  rewrite existsb_eqb_false by exact Hout.
  rewrite set_where_app by exact Hlen.
  rewrite set_where_absent by exact Hout.
  cbn [set_where]. rewrite Z.eqb_refl. reflexivity.
Qed.

(** A write at label [t] leaves the rows with another label as they were. *)
Lemma written_elsewhere (t : Timestamp) (v : cell) (idx : list Timestamp)
  (vals : list cell) (j : nat) :
  List.length vals = List.length idx -> (j < List.length idx)%nat ->
  nth j idx 0 <> t ->
  nth_error (written t v idx vals) j
  = Some (nth j vals VNone).
Proof.
  intros Hlen Hj Hne.
  destruct (in_dec Z.eq_dec t idx) as [Hin | Hout].
  - rewrite written_present by exact Hin.
    rewrite (nth_error_nth' _ VNone) by (rewrite set_where_length; lia).
    rewrite nth_set_where by lia.
    destruct (nth j idx 0 =? t) eqn:E;
      [apply Z.eqb_eq in E; contradiction | reflexivity].
  - rewrite written_absent by assumption.
    rewrite nth_error_app1 by lia. apply nth_error_nth'. lia.
Qed.

Lemma df_drop_one (k : string) (d : DataFrame) :
  has_column k d = true ->
  df_drop [k] d = Ok (with_columns d (col_drop k (columns d))).
Proof. intros H; simpl; rewrite H; reflexivity. Qed.

Lemma df_drop_index (ks : list string) (d d' : DataFrame) :
  df_drop ks d = Ok d' ->
  index d' = index d /\ geometry_name d' = geometry_name d.
Proof.
  revert d; induction ks as [| k ks IH]; simpl; intros d H.
  - injection H as <-; auto.
  - destruct (has_column k d); [| discriminate].
    apply IH in H. exact H.
Qed.

Lemma df_drop_columns (ks : list string) (d d' : DataFrame) :
  df_drop ks d = Ok d' ->
  columns d' = fold_left (fun cs k => col_drop k cs) ks (columns d).
Proof.
  revert d; induction ks as [| k ks IH]; simpl; intros d H.
  - injection H as <-; auto.
  - destruct (has_column k d); [| discriminate].
    apply IH in H. exact H.
Qed.

Lemma with_prev_pt_inv (d temp : DataFrame) :
  with_prev_pt d = Ok temp ->
  exists g, assoc (geometry_name d) (columns d) = Some g /\
            temp = df_set "prev_pt" (shift VNone g) d.
Proof.
  unfold with_prev_pt, df_geometry.
  destruct (assoc (geometry_name d) (columns d)) as [g |]; simpl;
    [| discriminate].
  intros H; injection H as <-. eauto.
Qed.

Lemma with_prev_pt_index (d temp : DataFrame) :
  with_prev_pt d = Ok temp ->
  index temp = index d /\ geometry_name temp = geometry_name d.
Proof.
  intros H. destruct (with_prev_pt_inv _ _ H) as (g & _ & ->). auto.
Qed.

(* ================================================================== *)
(** ** The shape of a frame with a derived column *)

Lemma df_drop_one_inv (k : string) (d d' : DataFrame) :
  df_drop [k] d = Ok d' -> d' = with_columns d (col_drop k (columns d)).
Proof.
  simpl. destruct (has_column k d); [| discriminate].
  intros H; injection H as <-; reflexivity.
Qed.

Lemma df_iloc_1 (d : DataFrame) (r : Series) :
  df_iloc 1 d = Ok r -> (2 <= len d)%nat /\ r = df_row d 1%nat.
Proof.
  unfold df_iloc.
  destruct ((0 <=? 1) && (1 <? Z.of_nat (len d))) eqn:E.
  - intros H; injection H as <-. split; [| reflexivity].
    apply andb_prop in E as [_ E]. apply Z.ltb_lt in E. lia.
  - simpl. discriminate.
Qed.

Lemma labels_with_has (t : Timestamp) (idx : list Timestamp) :
  In t (labels_with t idx).
Proof.
  unfold labels_with. destruct (existsb (Z.eqb t) idx) eqn:E.
  - apply existsb_exists in E as (x & Hx & E). apply Z.eqb_eq in E.
    subst x. exact Hx.
  - apply in_or_app. right. left. reflexivity.
Qed.

Lemma labels_with_length (t : Timestamp) (idx : list Timestamp) :
  (List.length idx <= List.length (labels_with t idx))%nat.
Proof.
  unfold labels_with. destruct (existsb (Z.eqb t) idx); [lia |].
  rewrite length_app. lia.
Qed.

(** The frames the helpers return, whether the start time labels a row or
    not. *)
Lemma get_df_with_distance_frame (self : Trajectory) (conversion : Conversion)
  (name_ : string) (d' : DataFrame) :
  _get_df_with_distance self conversion name_ = Ok d' ->
  exists temp vals,
    with_prev_pt (df self) = Ok temp /\
    df_apply (as_cell (fun row => _compute_distance self row conversion)) temp
      = Ok vals /\
    index d' = labels_with (get_start_time self) (index (df self)) /\
    geometry_name d' = geometry_name (df self) /\
    columns d' =
      col_drop "prev_pt"
        (col_set name_
           (written (get_start_time self) (VFloat zero) (index (df self)) vals)
           (columns (with_label (get_start_time self) temp))).
Proof.
  unfold _get_df_with_distance. intros H.
  apply bind_Ok in H as (temp & Htemp & H).
  apply bind_Ok in H as (vals & Hvals & H).
  exists temp, vals.
  destruct (with_prev_pt_inv _ _ Htemp) as (g & Hg & Etemp).
  assert (Hidx : index temp = index (df self)) by (subst temp; reflexivity).
  assert (Hgeo : geometry_name temp = geometry_name (df self))
    by (subst temp; reflexivity).
  rewrite df_at_set_df_set in H. apply df_drop_one_inv in H. subst d'.
  cbn [index columns geometry_name df_set with_columns].
  destruct (with_label_index (get_start_time self) temp) as (Hi & Hg' & _).
  rewrite Hi, Hg', Hidx, Hgeo. repeat split; assumption.
Qed.

Lemma get_df_with_speed_frame (self : Trajectory) (conversion : Conversion)
  (name_ : string) (d' : DataFrame) :
  _get_df_with_speed self conversion name_ = Ok d' ->
  exists temp vals,
    with_prev_pt (_get_df_with_timedelta self "delta_t") = Ok temp /\
    df_apply (as_cell (fun row => _compute_speed self row conversion)) temp
      = Ok vals /\
    (2 <= len (df self))%nat /\
    index d' = labels_with (get_start_time self) (index (df self)) /\
    geometry_name d' = geometry_name (df self) /\
    columns d' =
      col_drop "delta_t"
        (col_drop "prev_pt"
           (col_set name_
              (written (get_start_time self) (nth 1 vals VNone) (index (df self)) vals)
              (columns (with_label (get_start_time self) temp)))).
Proof.
  unfold _get_df_with_speed. intros H.
  apply bind_Ok in H as (temp & Htemp & H).
  apply bind_Ok in H as (vals & Hvals & H).
  apply bind_Ok in H as (second & Hsecond & H).
  apply bind_Ok in H as (v & Hv & H).
  apply df_iloc_1 in Hsecond as [Hlen ->].
  rewrite row_get_df_row in Hv. simpl in Hv.
  rewrite assoc_col_set_same in Hv. injection Hv as <-.
  exists temp, vals.
  destruct (with_prev_pt_inv _ _ Htemp) as (g & Hg & Etemp).
  assert (Hidx : index temp = index (df self)) by (subst temp; reflexivity).
  assert (Hgeo : geometry_name temp = geometry_name (df self))
    by (subst temp; reflexivity).
  rewrite df_at_set_df_set in H.
  pose proof (df_drop_index _ _ _ H) as [Hi Hg'].
  pose proof (df_drop_columns _ _ _ H) as Hc.
  cbn [index columns geometry_name df_set with_columns fold_left]
    in Hi, Hg', Hc.
  destruct (with_label_index (get_start_time self) temp) as (Hi' & Hg'' & _).
  rewrite Hi' in Hi. rewrite Hg'' in Hg'. rewrite Hidx in *.
  repeat split; try assumption; try congruence.
  unfold len, df_set in Hlen; simpl in Hlen. rewrite Hidx in Hlen. exact Hlen.
Qed.

Lemma get_df_with_acceleration_frame (self : Trajectory)
  (conversion : Conversion) (name_ : string) (d' : DataFrame) :
  _get_df_with_acceleration self conversion name_ = Ok d' ->
  exists ds speed_temp,
    _get_df_with_speed self conversion "speed_temp" = Ok ds /\
    assoc "speed_temp" (columns ds) = Some speed_temp /\
    index d' = index ds /\
    geometry_name d' = geometry_name (df self) /\
    columns d' =
      col_drop "speed_temp"
        (col_set name_
           (set_where (get_start_time self)
              (nth 1 (acceleration_series conversion speed_temp (index ds))
                   VNone)
              (index ds)
              (acceleration_series conversion speed_temp (index ds)))
           (columns ds)).
Proof.
  unfold _get_df_with_acceleration. intros H.
  apply bind_Ok in H as (ds & Hds & H).
  apply bind_Ok in H as (speed_temp & Hsp & H).
  apply bind_Ok in H as (second & Hsecond & H).
  apply bind_Ok in H as (v & Hv & H).
  apply df_iloc_1 in Hsecond as [Hlen ->].
  rewrite row_get_df_row in Hv. simpl in Hv.
  rewrite assoc_col_set_same in Hv. injection Hv as <-.
  unfold df_get in Hsp.
  destruct (assoc "speed_temp" (columns ds)) as [sp |] eqn:Esp;
    [| discriminate].
  injection Hsp as ->.
  destruct (get_df_with_speed_frame _ _ _ _ Hds)
    as (temp & vals & _ & _ & _ & Hidx & Hgeo & _).
  rewrite df_at_set_present in H
    by (rewrite Hidx; apply labels_with_has).
  apply df_drop_one_inv in H. subst d'.
  exists ds, speed_temp. simpl. repeat split; assumption.
Qed.

(** The same when a row carries the start time, which is so when the first
    timestamp has no digits below the microsecond. *)
Lemma get_df_with_distance_shape (self : Trajectory) (conversion : Conversion)
  (name_ : string) (d' : DataFrame) :
  In (get_start_time self) (index (df self)) ->
  _get_df_with_distance self conversion name_ = Ok d' ->
  exists temp vals,
    with_prev_pt (df self) = Ok temp /\
    df_apply (as_cell (fun row => _compute_distance self row conversion)) temp
      = Ok vals /\
    index d' = index (df self) /\
    geometry_name d' = geometry_name (df self) /\
    columns d' =
      col_drop "prev_pt"
        (col_set name_
           (set_where (get_start_time self) (VFloat zero)
                      (index (df self)) vals)
           (columns temp)).
Proof.
  intros Hin H.
  destruct (get_df_with_distance_frame _ _ _ _ H)
    as (temp & vals & Htemp & Hvals & Hidx & Hgeo & Hcols).
  exists temp, vals.
  rewrite labels_with_present in Hidx by exact Hin.
  rewrite written_present in Hcols by exact Hin.
  rewrite with_label_present in Hcols
    by (rewrite (proj1 (with_prev_pt_index _ _ Htemp)); exact Hin).
  repeat split; assumption.
Qed.

Lemma get_df_with_speed_shape (self : Trajectory) (conversion : Conversion)
  (name_ : string) (d' : DataFrame) :
  In (get_start_time self) (index (df self)) ->
  _get_df_with_speed self conversion name_ = Ok d' ->
  exists temp vals,
    with_prev_pt (_get_df_with_timedelta self "delta_t") = Ok temp /\
    df_apply (as_cell (fun row => _compute_speed self row conversion)) temp
      = Ok vals /\
    (2 <= len (df self))%nat /\
    index d' = index (df self) /\
    geometry_name d' = geometry_name (df self) /\
    columns d' =
      col_drop "delta_t"
        (col_drop "prev_pt"
           (col_set name_
              (set_where (get_start_time self) (nth 1 vals VNone)
                         (index (df self)) vals)
              (columns temp))).
Proof.
  intros Hin H.
  destruct (get_df_with_speed_frame _ _ _ _ H)
    as (temp & vals & Htemp & Hvals & Hlen & Hidx & Hgeo & Hcols).
  exists temp, vals.
  rewrite labels_with_present in Hidx by exact Hin.
  rewrite written_present in Hcols by exact Hin.
  rewrite with_label_present in Hcols
    by (rewrite (proj1 (with_prev_pt_index _ _ Htemp)); exact Hin).
  repeat split; assumption.
Qed.

Lemma get_df_with_acceleration_shape (self : Trajectory)
  (conversion : Conversion) (name_ : string) (d' : DataFrame) :
  In (get_start_time self) (index (df self)) ->
  _get_df_with_acceleration self conversion name_ = Ok d' ->
  exists ds speed_temp,
    _get_df_with_speed self conversion "speed_temp" = Ok ds /\
    assoc "speed_temp" (columns ds) = Some speed_temp /\
    index d' = index (df self) /\
    geometry_name d' = geometry_name (df self) /\
    columns d' =
      col_drop "speed_temp"
        (col_set name_
           (set_where (get_start_time self)
              (nth 1 (acceleration_series conversion speed_temp
                        (index (df self))) VNone)
              (index (df self))
              (acceleration_series conversion speed_temp (index (df self))))
           (columns ds)).
Proof.
  intros Hin H.
  destruct (get_df_with_acceleration_frame _ _ _ _ H)
    as (ds & speed_temp & Hds & Hsp & Hidx & Hgeo & Hcols).
  exists ds, speed_temp.
  destruct (get_df_with_speed_shape _ _ _ _ Hin Hds)
    as (_ & _ & _ & _ & _ & Hi & _).
  rewrite Hi in Hidx, Hcols. repeat split; assumption.
Qed.

(* ================================================================== *)
(** ** What a successful [add_*] call did *)

Ltac self_simpl :=
  cbn beta iota;
  cbn [fst snd df crs_units is_latlon direction_col_name set_df
       set_distance_col_name set_speed_col_name set_acceleration_col_name
       set_timedelta_col_name set_direction_col_name
       set_angular_difference_col_name].

Ltac run_method :=
  unfold seq_, assign, assign_df, eval, raise, ret in *; cbn beta iota in *.

Lemma add_distance_ok (overwrite : bool) (name_ : string) (units : UNITS)
  (self self' : Trajectory) :
  add_distance overwrite name_ units self = (Ok tt, self') ->
  has_column name_ (df self) && negb overwrite = false /\
  exists conversion d',
    get_conversion units (crs_units self) = Ok conversion /\
    _get_df_with_distance self conversion name_ = Ok d' /\
    self' = set_df d' (set_distance_col_name name_ self).
Proof.
  unfold add_distance. run_method. cbn [df set_distance_col_name crs_units].
  destruct (has_column name_ (df self) && negb overwrite) eqn:Hg; cbn beta;
    [intros H; discriminate H |].
  cbn [df crs_units set_distance_col_name set_speed_col_name
       set_acceleration_col_name set_timedelta_col_name
       set_direction_col_name].
  destruct (get_conversion units (crs_units self)) as [conversion |] eqn:Hc;
    [| intros H; discriminate H].
  change (_get_df_with_distance (set_distance_col_name name_ self)
            conversion name_)
    with (_get_df_with_distance self conversion name_).
  destruct (_get_df_with_distance self conversion name_) as [d' |] eqn:Hd;
    [| intros H; discriminate H].
  intros H; injection H as <-. split; [reflexivity |].
  exists conversion, d'. repeat split; assumption || reflexivity.
Qed.

Lemma add_speed_ok (overwrite : bool) (name_ : string) (units : UNITS)
  (self self' : Trajectory) :
  add_speed overwrite name_ units self = (Ok tt, self') ->
  has_column name_ (df self) && negb overwrite = false /\
  exists conversion d',
    get_conversion units (crs_units self) = Ok conversion /\
    _get_df_with_speed self conversion name_ = Ok d' /\
    self' = set_df d' (set_speed_col_name name_ self).
Proof.
  unfold add_speed. run_method. cbn [df set_speed_col_name crs_units].
  destruct (has_column name_ (df self) && negb overwrite) eqn:Hg; cbn beta;
    [intros H; discriminate H |].
  cbn [df crs_units set_distance_col_name set_speed_col_name
       set_acceleration_col_name set_timedelta_col_name
       set_direction_col_name].
  destruct (get_conversion units (crs_units self)) as [conversion |] eqn:Hc;
    [| intros H; discriminate H].
  change (_get_df_with_speed (set_speed_col_name name_ self) conversion name_)
    with (_get_df_with_speed self conversion name_).
  destruct (_get_df_with_speed self conversion name_) as [d' |] eqn:Hd;
    [| intros H; discriminate H].
  intros H; injection H as <-. split; [reflexivity |].
  exists conversion, d'. repeat split; assumption || reflexivity.
Qed.

Lemma add_acceleration_ok (overwrite : bool) (name_ : string) (units : UNITS)
  (self self' : Trajectory) :
  add_acceleration overwrite name_ units self = (Ok tt, self') ->
  has_column name_ (df self) && negb overwrite = false /\
  exists conversion d',
    get_conversion units (crs_units self) = Ok conversion /\
    _get_df_with_acceleration self conversion name_ = Ok d' /\
    self' = set_df d' (set_acceleration_col_name name_ self).
Proof.
  unfold add_acceleration. run_method.
  cbn [df set_acceleration_col_name crs_units].
  destruct (has_column name_ (df self) && negb overwrite) eqn:Hg; cbn beta;
    [intros H; discriminate H |].
  cbn [df crs_units set_distance_col_name set_speed_col_name
       set_acceleration_col_name set_timedelta_col_name
       set_direction_col_name].
  destruct (get_conversion units (crs_units self)) as [conversion |] eqn:Hc;
    [| intros H; discriminate H].
  change (_get_df_with_acceleration (set_acceleration_col_name name_ self)
            conversion name_)
    with (_get_df_with_acceleration self conversion name_).
  destruct (_get_df_with_acceleration self conversion name_) as [d' |] eqn:Hd;
    [| intros H; discriminate H].
  intros H; injection H as <-. split; [reflexivity |].
  exists conversion, d'. repeat split; assumption || reflexivity.
Qed.

Lemma add_timedelta_ok (overwrite : bool) (name_ : string)
  (self self' : Trajectory) :
  add_timedelta overwrite name_ self = (Ok tt, self') ->
  has_column name_ (df self) && negb overwrite = false /\
  self' = set_df (_get_df_with_timedelta self name_)
                 (set_timedelta_col_name name_ self).
Proof.
  unfold add_timedelta. run_method. cbn [df set_timedelta_col_name].
  destruct (has_column name_ (df self) && negb overwrite) eqn:Hg; cbn beta;
    [intros H; discriminate H |].
  cbn [df crs_units set_distance_col_name set_speed_col_name
       set_acceleration_col_name set_timedelta_col_name
       set_direction_col_name].
  intros H; injection H as <-. auto.
Qed.

Lemma add_direction_frame (overwrite : bool) (name_ : string)
  (self self' : Trajectory) :
  add_direction overwrite name_ self = (Ok tt, self') ->
  has_column name_ (df self) && negb overwrite = false /\
  exists temp vals d',
    with_prev_pt (df self) = Ok temp /\
    df_apply (as_cell (_compute_heading self)) temp = Ok vals /\
    (2 <= len (df self))%nat /\
    index d' = labels_with (get_start_time self) (index (df self)) /\
    geometry_name d' = geometry_name (df self) /\
    columns d' =
      col_drop "prev_pt"
        (col_set name_
           (written (get_start_time self) (nth 1 vals VNone) (index (df self)) vals)
           (columns (with_label (get_start_time self) temp))) /\
    self' = set_df d' (set_direction_col_name name_ self).
Proof.
  unfold add_direction, _add_prev_pt. run_method. self_simpl.
  destruct (has_column name_ (df self) && negb overwrite) eqn:Hg; self_simpl;
    [intros H; discriminate H |].
  rewrite orb_true_r. self_simpl.
  destruct (with_prev_pt (df self)) as [temp |] eqn:Htemp; self_simpl;
    [| intros H; discriminate H].
  destruct (with_prev_pt_inv _ _ Htemp) as (g & Hgeo & Etemp).
  match goal with
  | |- context [df_apply (as_cell (_compute_heading ?s)) temp] =>
      replace (df_apply (as_cell (_compute_heading s)) temp)
        with (df_apply (as_cell (_compute_heading self)) temp)
        by (subst temp; reflexivity)
  end.
  destruct (df_apply (as_cell (_compute_heading self)) temp) as [vals |]
    eqn:Hvals; self_simpl; [| intros H; discriminate H].
  destruct (df_iloc 1 (df_set name_ vals temp)) as [second |] eqn:Hsecond;
    cbn [bind]; self_simpl; [| intros H; discriminate H].
  apply df_iloc_1 in Hsecond as [Hlen ->].
  rewrite row_get_df_row. cbn [columns df_set with_columns].
  rewrite assoc_col_set_same. self_simpl.
  assert (Hidx : index temp = index (df self)) by (subst temp; reflexivity).
  unfold get_start_time at 1. self_simpl. cbn [index df_set with_columns].
  rewrite Hidx. fold (get_start_time self).
  rewrite df_at_set_df_set.
  match goal with
  | |- context [df_drop ?ks ?d] =>
      destruct (df_drop ks d) as [d' |] eqn:Hdrop;
      [| intros H; discriminate H]
  end.
  intros H; injection H as <-. split; [reflexivity |].
  apply df_drop_one_inv in Hdrop.
  exists temp, vals, d'.
  destruct (with_label_index (get_start_time self) temp) as (Hi & Hg' & _).
  assert (Hgeo' : geometry_name temp = geometry_name (df self))
    by (subst temp; reflexivity).
  subst d'. cbn [index columns geometry_name df_set with_columns].
  rewrite Hi, Hg', Hidx, Hgeo'.
  repeat split; try reflexivity; try assumption.
  unfold len in *. cbn [index df_set with_columns] in Hlen.
  rewrite Hidx in Hlen. exact Hlen.
Qed.

Lemma add_direction_ok (overwrite : bool) (name_ : string)
  (self self' : Trajectory) :
  In (get_start_time self) (index (df self)) ->
  add_direction overwrite name_ self = (Ok tt, self') ->
  has_column name_ (df self) && negb overwrite = false /\
  exists temp vals d',
    with_prev_pt (df self) = Ok temp /\
    df_apply (as_cell (_compute_heading self)) temp = Ok vals /\
    (2 <= len (df self))%nat /\
    index d' = index (df self) /\
    geometry_name d' = geometry_name (df self) /\
    columns d' =
      col_drop "prev_pt"
        (col_set name_
           (set_where (get_start_time self) (nth 1 vals VNone)
                      (index (df self)) vals)
           (columns temp)) /\
    self' = set_df d' (set_direction_col_name name_ self).
Proof.
  intros Hin H.
  destruct (add_direction_frame _ _ _ _ H)
    as (Hguard & temp & vals & d' & Htemp & Hvals & Hlen & Hidx & Hgeo &
        Hcols & Hself).
  split; [exact Hguard |]. exists temp, vals, d'.
  rewrite labels_with_present in Hidx by exact Hin.
  rewrite written_present in Hcols by exact Hin.
  rewrite with_label_present in Hcols
    by (rewrite (proj1 (with_prev_pt_index _ _ Htemp)); exact Hin).
  repeat split; assumption.
Qed.

(* ================================================================== *)
(** ** The first row *)


Lemma map2_length {A B C : Type} (f : A -> B -> C) (l : list A) (m : list B) :
  List.length (map2 f l m) = Nat.min (List.length l) (List.length m).
Proof.
  revert m; induction l as [| a l IH]; intros [| b m]; simpl; auto.
Qed.

Lemma series_diff_length (col : list cell) :
  List.length (series_diff col) = List.length col.
Proof.
  destruct col as [| c rest]; [reflexivity |].
  unfold series_diff. cbn [List.length]. f_equal.
  rewrite map2_length. cbn [List.length]. lia.
Qed.

Lemma acceleration_series_length (conversion : Conversion)
  (speed : list cell) (idx : list Timestamp) :
  List.length speed = List.length idx ->
  List.length (acceleration_series conversion speed idx) = List.length idx.
Proof.
  intros H. unfold acceleration_series, dt_total_seconds.
  rewrite length_map, map2_length, series_diff_length, length_map,
    index_diff_length. lia.
Qed.

Lemma not_scratch (name_ : string) :
  ~ In name_ scratch_names ->
  "prev_pt" <> name_ /\ "delta_t" <> name_ /\ "speed_temp" <> name_.
Proof.
  unfold scratch_names; simpl. intuition.
Qed.

Lemma df_cell_columns (k : string) (i : nat) (d : DataFrame)
  (col : list cell) :
  assoc k (columns d) = Some col -> df_cell k i d = nth_error col i.
Proof. unfold df_cell. intros ->. reflexivity. Qed.

(** The speed column of the frame [_get_df_with_speed] returns. *)
Lemma speed_column (self : Trajectory) (conversion : Conversion)
  (name_ : string) (d' : DataFrame) :
  "prev_pt" <> name_ -> "delta_t" <> name_ ->
  _get_df_with_speed self conversion name_ = Ok d' ->
  exists temp vals,
    with_prev_pt (_get_df_with_timedelta self "delta_t") = Ok temp /\
    df_apply (as_cell (fun row => _compute_speed self row conversion)) temp
      = Ok vals /\
    List.length vals = len (df self) /\
    (2 <= len (df self))%nat /\
    index d' = labels_with (get_start_time self) (index (df self)) /\
    assoc name_ (columns d') =
      Some (written (get_start_time self) (nth 1 vals VNone)
                    (index (df self)) vals).
Proof.
  intros Hpp Hdt H.
  destruct (get_df_with_speed_frame _ _ _ _ H)
    as (temp & vals & Htemp & Hvals & Hlen & Hidx & _ & Hcols).
  exists temp, vals. repeat split; try assumption.
  - rewrite (df_apply_length _ _ _ Hvals). unfold len.
    destruct (with_prev_pt_index _ _ Htemp) as [-> _]. reflexivity.
  - rewrite Hcols.
    rewrite assoc_col_drop_other, assoc_col_drop_other by assumption.
    apply assoc_col_set_same.
Qed.

Lemma as_cell_Ok (f : Series -> result float) (row : Series) (c : cell) :
  as_cell f row = Ok c -> exists x, f row = Ok x /\ c = VFloat x.
Proof.
  unfold as_cell. intros H. apply bind_Ok in H as (x & Hx & H).
  injection H as <-. eauto.
Qed.


(* ================================================================== *)
(** ** A step without elapsed time, in [add_speed] *)

Lemma index_diff_cells (idx : list Timestamp) (j : nat) :
  (j < List.length idx)%nat ->
  nth j (index_diff idx) VNone = VNaT \/
  exists d, nth j (index_diff idx) VNone = VTimedelta d.
Proof.
  intros Hj. destruct j as [| j].
  - destruct idx; [simpl in Hj; lia | left; reflexivity].
  - right. rewrite nth_index_diff by assumption. eauto.
Qed.

(** The three cells [_compute_speed] reads in row [j] of its scratch frame. *)
Lemma speed_scratch_row (self : Trajectory) (g : list cell) (temp : DataFrame)
  (j : nat) :
  assoc (geometry_name (df self)) (columns (df self)) = Some g ->
  geometry_name (df self) <> "prev_pt" ->
  geometry_name (df self) <> "delta_t" ->
  with_prev_pt (_get_df_with_timedelta self "delta_t") = Ok temp ->
  row_get "prev_pt" (df_row temp j) = Ok (nth j (shift VNone g) VNone) /\
  row_get (get_geom_column_name self) (df_row temp j) = Ok (nth j g VNone) /\
  row_get "delta_t" (df_row temp j) =
    Ok (nth j (index_diff (index (df self))) VNone).
Proof.
  intros Hg Hpp Hdt Htemp.
  destruct (with_prev_pt_inv _ _ Htemp) as (g' & Hg' & ->).
  cbn [geometry_name _get_df_with_timedelta df_set with_columns columns]
    in Hg'.
  rewrite assoc_col_set_other in Hg' by congruence.
  rewrite Hg in Hg'. injection Hg' as <-.
  rewrite !row_get_df_row.
  unfold get_geom_column_name.
  cbn [columns _get_df_with_timedelta df_set with_columns].
  rewrite assoc_col_set_same.
  rewrite !assoc_col_set_other by congruence.
  rewrite assoc_col_set_same, Hg. auto.
Qed.

Lemma compute_speed_cases (self : Trajectory) (row : Series)
  (conversion : Conversion) (pt0 pt1 dt : cell) :
  row_get "prev_pt" row = Ok pt0 ->
  row_get (get_geom_column_name self) row = Ok pt1 ->
  row_get "delta_t" row = Ok dt ->
  isinstance_Point pt1 = true ->
  (dt = VNaT \/ exists d, dt = VTimedelta d) ->
  is_ok (_compute_speed self row conversion) = true \/
  _compute_speed self row conversion = Raise ZeroDivisionError.
Proof.
  intros H0 H1 Hdt Hp1 Hcell.
  unfold _compute_speed. rewrite H0, H1; simpl. rewrite Hp1; simpl.
  destruct (isinstance_Point pt0); simpl; [| auto].
  destruct (cell_eqb pt0 pt1); [auto |].
  rewrite Hdt.
  assert (Hsec : exists s, cell_total_seconds dt = Ok s)
    by (destruct Hcell as [-> | [d ->]]; simpl; eauto).
  destruct Hsec as [s Hs].
  destruct (is_latlon self);
    match goal with
    | |- context [bind (py_truediv ?a ?b) _] =>
        destruct (py_truediv_cases a b) as [Hok | Hr];
        [destruct (py_truediv a b) as [dist |]; [simpl | discriminate]
        | rewrite Hr; simpl; auto]
    end;
    rewrite Hs; simpl;
    match goal with
    | |- context [bind (py_truediv ?a ?b) _] =>
        destruct (py_truediv_cases a b) as [Hok' | Hr'];
        [destruct (py_truediv a b); [simpl; auto | discriminate]
        | rewrite Hr'; simpl; auto]
    end.
Qed.

Lemma as_cell_cases (f : Series -> result float) (row : Series) (e : exn) :
  is_ok (f row) = true \/ f row = Raise e ->
  is_ok (as_cell f row) = true \/ as_cell f row = Raise e.
Proof.
  unfold as_cell. intros [H | H].
  - destruct (f row); [left; reflexivity | discriminate].
  - rewrite H. right; reflexivity.
Qed.

(** C2. When two consecutive samples are distinct points with no time
    between them, [add_speed] raises ZeroDivisionError and assigns no frame:
    no 0, NaN or infinity is produced. The statement is about any frame
    whose positions are all points; [row] is the later sample's position
    from the top. *)
Theorem zero_elapsed_time_raises (self : Trajectory) (overwrite : bool)
  (name_ : string) (units : UNITS) (conversion : Conversion)
  (g : list cell) (i : nat) :
  has_column name_ (df self) && negb overwrite = false ->
  get_conversion units (crs_units self) = Ok conversion ->
  df_geometry (df self) = Ok g ->
  geometry_name (df self) <> "prev_pt" ->
  geometry_name (df self) <> "delta_t" ->
  List.length g = len (df self) ->
  Forall (fun c => isinstance_Point c = true) g ->
  (S i < len (df self))%nat ->
  nth (S i) (index (df self)) 0 - nth i (index (df self)) 0 = 0 ->
  cell_eqb (nth i g VNone) (nth (S i) g VNone) = false ->
  fst (add_speed overwrite name_ units self) = Raise ZeroDivisionError /\
  df (snd (add_speed overwrite name_ units self)) = df self.
Proof.
  intros Hguard Hconv Hgeom Hpp Hdt Hlen Hpoints Hi Hzero Hdistinct.
  unfold df_geometry in Hgeom.
  destruct (assoc (geometry_name (df self)) (columns (df self)))
    as [g' |] eqn:Hg; [| discriminate].
  injection Hgeom as ->.
  assert (Htemp : exists temp,
    with_prev_pt (_get_df_with_timedelta self "delta_t") = Ok temp).
  { unfold with_prev_pt, df_geometry.
    cbn [geometry_name _get_df_with_timedelta df_set with_columns columns].
    rewrite assoc_col_set_other by congruence. rewrite Hg. simpl. eauto. }
  destruct Htemp as [temp Htemp].
  assert (Happly :
    df_apply (as_cell (fun row => _compute_speed self row conversion)) temp
    = Raise ZeroDivisionError).
  { assert (Hlt : len temp = len (df self)).
    { unfold len. destruct (with_prev_pt_index _ _ Htemp) as [-> _].
      reflexivity. }
    unfold df_apply, df_rows. rewrite Hlt.
    apply mapM_raise.
    - apply Forall_forall. intros row Hin.
      apply in_map_iff in Hin as (j & <- & Hj). apply in_seq in Hj.
      apply as_cell_cases.
      destruct (speed_scratch_row self g temp j Hg Hpp Hdt Htemp)
        as (R0 & R1 & R2).
      eapply compute_speed_cases; eauto.
      + rewrite Forall_forall in Hpoints. apply Hpoints, nth_In. lia.
      + apply index_diff_cells. unfold len in Hj. lia.
    - apply Exists_exists. exists (df_row temp (S i)). split.
      + apply in_map, in_seq. lia.
      + destruct (speed_scratch_row self g temp (S i) Hg Hpp Hdt Htemp)
          as (R0 & R1 & R2).
        rewrite nth_shift in R0 by lia.
        rewrite nth_index_diff, Hzero in R2 by (unfold len in Hi; lia).
        unfold as_cell.
        rewrite (compute_speed_zero_elapsed self _ conversion _ _ R0 R1 R2);
          [reflexivity | | | assumption].
        * rewrite Forall_forall in Hpoints. apply Hpoints, nth_In. lia.
        * rewrite Forall_forall in Hpoints. apply Hpoints, nth_In. lia. }
  unfold add_speed. run_method. self_simpl.
  rewrite Hguard. self_simpl. rewrite Hconv. self_simpl.
  change (_get_df_with_speed (set_speed_col_name name_ self) conversion name_)
    with (_get_df_with_speed self conversion name_).
  unfold _get_df_with_speed. rewrite Htemp. cbn [bind].
  rewrite Happly. cbn [bind]. split; reflexivity.
Qed.

(* ================================================================== *)
(** ** Looking up rows of a strictly increasing index *)

Lemma strictly_increasing_tail (t0 : Timestamp) (rest : list Timestamp) :
  strictly_increasing (t0 :: rest) -> strictly_increasing rest.
Proof. intros H. apply StronglySorted_inv in H as [H _]. exact H. Qed.

Lemma strictly_increasing_above (t0 : Timestamp) (rest : list Timestamp) :
  strictly_increasing (t0 :: rest) -> Forall (Z.lt t0) rest.
Proof. intros H. apply StronglySorted_inv in H as [_ H]. exact H. Qed.

Lemma sort_values_increasing (l : list Timestamp) :
  strictly_increasing l -> sort_values l = l.
Proof.
  induction l as [| t0 rest IH]; intros H; [reflexivity |].
  unfold sort_values in *. simpl.
  rewrite (IH (strictly_increasing_tail _ _ H)).
  pose proof (strictly_increasing_above _ _ H) as Habove.
  destruct rest as [| t1 rest]; [reflexivity |].
  inversion Habove; subst. simpl.
  replace (t0 <=? t1) with true by (symmetry; apply Z.leb_le; lia).
  reflexivity.
Qed.

Lemma duplicated_first_fresh (seen l : list Timestamp) :
  strictly_increasing l ->
  (forall s x, In s seen -> In x l -> s < x) ->
  duplicated_first seen l = map (fun _ => false) l.
Proof.
  revert seen; induction l as [| t rest IH]; intros seen Hinc Hseen;
    [reflexivity |].
  simpl. f_equal.
  - destruct (existsb (Z.eqb t) seen) eqn:E; [| reflexivity].
    apply existsb_exists in E as (s & Hs & Es). apply Z.eqb_eq in Es. subst s.
    specialize (Hseen t t Hs (or_introl eq_refl)). lia.
  - apply IH; [exact (strictly_increasing_tail _ _ Hinc) |].
    pose proof (strictly_increasing_above _ _ Hinc) as Habove.
    rewrite Forall_forall in Habove.
    intros s x [<- | Hs] Hx; [apply Habove; exact Hx |].
    apply Hseen; [exact Hs | right; exact Hx].
Qed.

Lemma select_all {A : Type} (l : list A) :
  select (map negb (map (fun _ => false) l)) l = l.
Proof. induction l as [| a l IH]; simpl; [reflexivity | f_equal; exact IH]. Qed.

Lemma drop_duplicates_increasing (l : list Timestamp) :
  strictly_increasing l -> drop_duplicates l = l.
Proof.
  intros H. unfold drop_duplicates.
  rewrite (duplicated_first_fresh [] l H) by (intros s x []).
  apply select_all.
Qed.

Lemma positions_of_absent (t : Timestamp) (l : list Timestamp) (k : nat) :
  ~ In t l -> positions_of t l k = [].
Proof.
  revert k; induction l as [| h l IH]; intros k Hn; [reflexivity |].
  simpl. destruct (h =? t) eqn:E.
  - apply Z.eqb_eq in E. exfalso; apply Hn; left; exact E.
  - apply IH. intros H; apply Hn; right; exact H.
Qed.

Lemma positions_of_unique (l : list Timestamp) (i k : nat) :
  strictly_increasing l -> (i < List.length l)%nat ->
  positions_of (nth i l 0) l k = [(k + i)%nat].
Proof.
  revert i k; induction l as [| h l IH]; intros i k Hinc Hi;
    [simpl in Hi; lia |].
  pose proof (strictly_increasing_above _ _ Hinc) as Habove.
  rewrite Forall_forall in Habove.
  destruct i as [| i]; simpl.
  - rewrite Z.eqb_refl. rewrite positions_of_absent.
    + f_equal; lia.
    + intros Hin. specialize (Habove h Hin). lia.
  - assert (Hlt : h < nth i l 0) by (apply Habove, nth_In; simpl in Hi; lia).
    replace (h =? nth i l 0) with false by (symmetry; apply Z.eqb_neq; lia).
    rewrite IH; [f_equal; lia | exact (strictly_increasing_tail _ _ Hinc) |].
    simpl in Hi; lia.
Qed.

Lemma filter_none {A : Type} (p : A -> bool) (l : list A) :
  (forall x, In x l -> p x = false) -> filter p l = [].
Proof.
  induction l as [| a l IH]; intros H; [reflexivity |].
  simpl. rewrite (H a (or_introl eq_refl)). apply IH.
  intros x Hx; apply H; right; exact Hx.
Qed.

Lemma filter_every {A : Type} (p : A -> bool) (l : list A) :
  (forall x, In x l -> p x = true) -> filter p l = l.
Proof.
  induction l as [| a l IH]; intros H; [reflexivity |].
  simpl. rewrite (H a (or_introl eq_refl)). f_equal. apply IH.
  intros x Hx; apply H; right; exact Hx.
Qed.

(** Before the first label, "nearest" is position 0. *)
Lemma nearest_before_start (t : Timestamp) (l : list Timestamp) :
  strictly_increasing l -> l <> [] -> t < index_min l ->
  nearest_indexer t l = 0.
Proof.
  intros Hinc Hne Hlt.
  assert (Hall : forall x, In x l -> t < x).
  { intros x Hx. pose proof (index_min_le l x Hx). lia. }
  unfold nearest_indexer, pad_indexer, backfill_indexer,
    searchsorted_left, searchsorted_right.
  rewrite !filter_none
    by (intros x Hx; specialize (Hall x Hx);
        first [apply Z.leb_gt | apply Z.ltb_ge]; lia).
  simpl List.length. simpl Z.of_nat.
  destruct l as [| a l]; [congruence |].
  replace (0 =? Z.of_nat (List.length (a :: l))) with false
    by (symmetry; apply Z.eqb_neq; simpl List.length; lia).
  change (0 - 1) with (-1).
  assert (Hv1 : values_at (a :: l) (-1) = last (a :: l) 0).
  { unfold values_at. change (-1 <? 0) with true. cbn iota.
    replace (Z.to_nat (Z.of_nat (List.length (a :: l)) + -1))
      with (List.length l) by (simpl List.length; lia).
    clear. revert a. induction l as [| b l IH]; intros a; [reflexivity |].
    exact (IH b). }
  assert (Hv0 : values_at (a :: l) 0 = a) by reflexivity.
  rewrite Hv1, Hv0.
  assert (Hlast : In (last (a :: l) 0) (a :: l)).
  { clear. revert a. induction l as [| b l IH]; intros a; [left; reflexivity |].
    right. exact (IH b). }
  pose proof (Hall _ Hlast) as Ht1. pose proof (Hall a (or_introl eq_refl)).
  assert (Hle : a <= last (a :: l) 0).
  { destruct Hlast as [<- | Hin]; [lia |].
    pose proof (strictly_increasing_above _ _ Hinc) as Habove.
    rewrite Forall_forall in Habove. specialize (Habove _ Hin). lia. }
  change (0 =? -1) with false. rewrite orb_false_r.
  replace (Z.abs (t - last (a :: l) 0) <? Z.abs (t - a))
    with false by (symmetry; apply Z.ltb_ge; lia).
  reflexivity.
Qed.

(** After the last label, "nearest" is the last position. *)
Lemma nearest_after_end (t : Timestamp) (l : list Timestamp) :
  l <> [] -> index_max l < t ->
  nearest_indexer t l = Z.of_nat (List.length l) - 1.
Proof.
  intros Hne Hlt.
  assert (Hall : forall x, In x l -> x < t).
  { intros x Hx. pose proof (index_max_ge l x Hx). lia. }
  unfold nearest_indexer, pad_indexer, backfill_indexer,
    searchsorted_left, searchsorted_right.
  rewrite !filter_every
    by (intros x Hx; specialize (Hall x Hx);
        first [apply Z.leb_le | apply Z.ltb_lt]; lia).
  rewrite Z.eqb_refl. cbn [Z.eqb]. rewrite orb_true_r. reflexivity.
Qed.

Lemma get_indexer_ffill (b : bool) (t : Timestamp) (l : list Timestamp) :
  get_indexer b t "ffill" l = Ok (pad_indexer t l).
Proof. destruct b; reflexivity. Qed.

Lemma get_indexer_bfill (b : bool) (t : Timestamp) (l : list Timestamp) :
  get_indexer b t "bfill" l = Ok (backfill_indexer t l).
Proof. destruct b; reflexivity. Qed.

Lemma get_indexer_nearest (b : bool) (t : Timestamp) (l : list Timestamp) :
  get_indexer b t "nearest" l = Ok (nearest_indexer t l).
Proof. destruct b; reflexivity. Qed.

Lemma get_row_at_missing (self : Trajectory) (t : Timestamp)
  (method_ : string) :
  strictly_increasing (index (df self)) ->
  ~ In t (index (df self)) ->
  get_row_at self t method_ =
    (idx <- get_indexer asfreq_is_none t method_ (index (df self)) ;;
     row <- df_iloc idx (df self) ;;
     Ok (LSeries row)).
Proof.
  intros Hinc Hnot. unfold get_row_at, df_loc.
  rewrite positions_of_absent by assumption.
  rewrite sort_values_increasing, drop_duplicates_increasing by assumption.
  reflexivity.
Qed.

Lemma get_row_at_present (self : Trajectory) (i : nat) (method_ : string) :
  strictly_increasing (index (df self)) ->
  (i < size self)%nat ->
  get_row_at self (nth i (index (df self)) 0) method_ =
    Ok (LSeries (df_row (df self) i)).
Proof.
  intros Hinc Hi. unfold get_row_at, df_loc.
  rewrite positions_of_unique by assumption. reflexivity.
Qed.

(** X27. [get_row_at] checks no time range: for a timestamp before the first
    sample, method "nearest" hands back the first row, and for one after the
    last sample the last row. [get_position_at] raises the out-of-range
    ValueError for a timestamp after the last sample, and for one before the
    start time as [get_start_time] gives it. *)
Lemma get_row_at_has_no_range_check (self : Trajectory) (t : Timestamp) :
  strictly_increasing (index (df self)) ->
  (1 <= size self)%nat ->
  (t < index_min (index (df self)) ->
     get_row_at self t "nearest" = Ok (LSeries (df_row (df self) 0))) /\
  (index_max (index (df self)) < t ->
     get_row_at self t "nearest" =
       Ok (LSeries (df_row (df self) (size self - 1))) /\
     get_position_at self t "nearest" =
       Raise (ValueError (out_of_range_msg self t))) /\
  (t < get_start_time self ->
     get_position_at self t "nearest" =
       Raise (ValueError (out_of_range_msg self t))).
Proof.
  intros Hinc Hsize. unfold size in Hsize.
  assert (Hne : index (df self) <> [])
    by (destruct (index (df self)); [simpl in Hsize; lia | discriminate]).
  split; [| split]; intros Ht; [| split |].
  - rewrite get_row_at_missing; try assumption.
    + rewrite get_indexer_nearest.
      cbn [bind]. rewrite nearest_before_start by assumption.
      unfold df_iloc, len.
      replace (0 <? Z.of_nat (List.length (index (df self)))) with true
        by (symmetry; apply Z.ltb_lt; lia).
      reflexivity.
    + intros Hin. pose proof (index_min_le _ _ Hin). lia.
  - rewrite get_row_at_missing; try assumption.
    + rewrite get_indexer_nearest.
      cbn [bind]. rewrite nearest_after_end by assumption.
      unfold df_iloc, len, size.
      replace (0 <=? Z.of_nat (List.length (index (df self))) - 1) with true
        by (symmetry; apply Z.leb_le; lia).
      replace (Z.of_nat (List.length (index (df self))) - 1 <?
               Z.of_nat (List.length (index (df self)))) with true
        by (symmetry; apply Z.ltb_lt; lia).
      cbn [andb bind].
      replace (Z.to_nat (Z.of_nat (List.length (index (df self))) - 1))
        with (List.length (index (df self)) - 1)%nat by lia.
      reflexivity.
    + intros Hin. pose proof (index_max_ge _ _ Hin). lia.
  - unfold get_position_at.
    pose proof (to_pydatetime_le (index_max (index (df self)))) as Hle.
    replace (t >? get_end_time self) with true
      by (symmetry; apply Z.gtb_lt; unfold get_end_time; lia).
    rewrite orb_true_r. reflexivity.
  - unfold get_position_at.
    replace (t <? get_start_time self) with true
      by (symmetry; apply Z.ltb_lt; lia).
    reflexivity.
Qed.

(* ================================================================== *)
(** ** Interpolation at and between samples *)

(** X26. On a trajectory with strictly increasing timestamps, asking for the
    interpolated position at the timestamp of a sample whose position is a
    point returns exactly that point, provided the timestamp is not after the
    end time as [get_end_time] gives it. More generally, when the line
    between the points found before and after [t] has length zero, the
    earlier point is returned as it is and nothing is divided. The line from
    a point to itself is taken to have length zero, as in shapely. *)
Lemma interpolation_at_sample (self : Trajectory) (t : Timestamp) :
  (forall i x y,
     strictly_increasing (index (df self)) ->
     nth_error (index (df self)) i = Some t ->
     t <= get_end_time self ->
     df_cell (get_geom_column_name self) i (df self) = Some (VPoint x y) ->
     feqb (linestring_length (VPoint x y) (VPoint x y)) zero = true ->
     get_position_at self t "interpolated" = Ok (VPoint x y)) /\
  (forall prev next p q,
     get_start_time self <= t <= get_end_time self ->
     get_row_at self t "ffill" = Ok (LSeries prev) ->
     get_row_at self t "bfill" = Ok (LSeries next) ->
     row_get (get_geom_column_name self) prev = Ok p ->
     row_get (get_geom_column_name self) next = Ok q ->
     isinstance_Point p = true ->
     isinstance_Point q = true ->
     feqb (linestring_length p q) zero = true ->
     get_position_at self t "interpolated" = Ok p).
Proof.
  assert (General : forall prev next p q,
     get_start_time self <= t <= get_end_time self ->
     get_row_at self t "ffill" = Ok (LSeries prev) ->
     get_row_at self t "bfill" = Ok (LSeries next) ->
     row_get (get_geom_column_name self) prev = Ok p ->
     row_get (get_geom_column_name self) next = Ok q ->
     isinstance_Point p = true ->
     isinstance_Point q = true ->
     feqb (linestring_length p q) zero = true ->
     get_position_at self t "interpolated" = Ok p).
  { intros prev next p q [Hlo Hhi] Hprev Hnext Hp Hq Pp Pq Hdeg.
    unfold get_position_at.
    replace (t <? get_start_time self) with false
      by (symmetry; apply Z.ltb_ge; lia).
    replace (t >? get_end_time self) with false
      by (symmetry; rewrite Z.gtb_ltb; apply Z.ltb_ge; lia).
    cbn [orb existsb String.eqb Ascii.eqb Bool.eqb negb].
    unfold interpolate_position_at.
    rewrite Hprev, Hnext. cbn [bind loc_name loc_getitem].
    rewrite Hp, Hq. cbn [bind]. unfold LineString. rewrite Pp, Pq.
    cbn [andb bind fst snd]. rewrite Hdeg, orb_true_r. reflexivity. }
  split; [| exact General].
  intros i x y Hinc Hi Hend Hcell Hlength.
  assert (Hlt : (i < size self)%nat)
    by (unfold size; apply nth_error_Some; congruence).
  assert (Et : nth i (index (df self)) 0 = t)
    by (apply nth_error_nth; exact Hi).
  assert (Hin : In t (index (df self)))
    by (eapply nth_error_In; exact Hi).
  pose proof (get_row_at_present self i "ffill" Hinc Hlt) as Hf.
  pose proof (get_row_at_present self i "bfill" Hinc Hlt) as Hb.
  rewrite Et in Hf, Hb.
  assert (Hgeom : row_get (get_geom_column_name self) (df_row (df self) i)
                  = Ok (VPoint x y)).
  { rewrite row_get_df_row. unfold df_cell in Hcell.
    destruct (assoc (get_geom_column_name self) (columns (df self)))
      as [col |]; [| discriminate].
    rewrite (nth_error_nth _ _ VNone Hcell). reflexivity. }
  apply (General (df_row (df self) i) (df_row (df self) i)
                 (VPoint x y) (VPoint x y)); auto.
  split; [| exact Hend].
  pose proof (index_min_le _ _ Hin).
  pose proof (to_pydatetime_le (index_min (index (df self)))).
  unfold get_start_time. lia.
Qed.

(* ================================================================== *)
(** ** The LINESTRING M text *)

Lemma str_app_assoc (a b c : string) : ((a ++ b) ++ c = a ++ (b ++ c))%string.
Proof. induction a as [| ch a IH]; simpl; [reflexivity | f_equal; exact IH]. Qed.

Lemma str_app_nil_r (a : string) : (a ++ "" = a)%string.
Proof. induction a as [| ch a IH]; simpl; [reflexivity | f_equal; exact IH]. Qed.

Lemma str_length_app (a b : string) :
  String.length (a ++ b) = (String.length a + String.length b)%nat.
Proof. induction a as [| ch a IH]; simpl; [reflexivity | f_equal; exact IH]. Qed.

Lemma substring_0_app (a b : string) (n : nat) :
  substring 0 (String.length a + n) (a ++ b) = (a ++ substring 0 n b)%string.
Proof. induction a as [| ch a IH]; simpl; [reflexivity | f_equal; exact IH]. Qed.

Lemma drop_last2_app (a b : string) :
  (2 <= String.length b)%nat ->
  drop_last2 (a ++ b) = (a ++ drop_last2 b)%string.
Proof.
  intros Hb. unfold drop_last2. rewrite str_length_app.
  replace (String.length a + String.length b - 2)%nat
    with (String.length a + (String.length b - 2))%nat by lia.
  apply substring_0_app.
Qed.

Lemma terminated_length (tr : string) (rest : list string) :
  (2 <= String.length (terminated (tr :: rest)))%nat.
Proof.
  simpl. rewrite str_length_app. simpl. lia.
Qed.

Lemma drop_last2_terminated (triples : list string) :
  drop_last2 (terminated triples) = String.concat ", " triples.
Proof.
  induction triples as [| tr rest IH]; [reflexivity |].
  destruct rest as [| tr' rest].
  - simpl terminated. rewrite drop_last2_app by (simpl; lia).
    simpl. apply str_app_nil_r.
  - change (terminated (tr :: tr' :: rest))
      with (tr ++ ", " ++ terminated (tr' :: rest))%string.
    rewrite drop_last2_app
      by (rewrite str_length_app; pose proof (terminated_length tr' rest);
          simpl String.length at 1; lia).
    rewrite (drop_last2_app ", ") by apply terminated_length.
    rewrite IH. reflexivity.
Qed.

Lemma wkt_coords_mapM (geom : string) (rows : list Series) (coords : string)
  (triples : list string) :
  mapM (fun row => pt <- row_get geom row ;; wkt_triple pt (name row)) rows
    = Ok triples ->
  wkt_coords geom rows coords = Ok (coords ++ terminated triples)%string.
Proof.
  revert coords triples; induction rows as [| row rows IH];
    intros coords triples H; simpl in H.
  - injection H as <-. simpl. rewrite str_app_nil_r. reflexivity.
  - apply bind_Ok in H as (tr & Htr & H).
    apply bind_Ok in H as (trs & Htrs & H). injection H as <-.
    apply bind_Ok in Htr as (pt_ & Hpt & Htr).
    simpl. rewrite Hpt. cbn [bind]. rewrite Htr. cbn [bind].
    rewrite (IH _ _ Htrs). f_equal.
    rewrite !str_app_assoc. reflexivity.
Qed.

Lemma mapM_map {A B : Type} (f : A -> result B) (g : A -> B) (l : list A) :
  (forall a, In a l -> f a = Ok (g a)) -> mapM f l = Ok (map g l).
Proof.
  induction l as [| a l IH]; intros H; [reflexivity |].
  simpl. rewrite (H a (or_introl eq_refl)). cbn [bind].
  rewrite IH by (intros x Hx; apply H; right; exact Hx). reflexivity.
Qed.

Lemma combine_by_position {A B : Type} (l : list A) (m : list B)
  (da : A) (db : B) :
  List.length m = List.length l ->
  combine l m =
  map (fun j => (nth j l da, nth j m db)) (seq 0 (List.length l)).
Proof.
  revert m; induction l as [| a l IH]; intros [| b m] H; simpl in *;
    try reflexivity; try discriminate.
  f_equal. rewrite <- seq_shift, map_map. apply IH. lia.
Qed.

(** C9. For a trajectory whose positions are all points,
    [to_linestringm_wkt] returns "LINESTRING M (" followed by one triple
    "x y unix_seconds" per sample in sample order, joined by ", " with no
    separator after the last, followed by ")". *)
Theorem linestringm_wkt_text (self : Trajectory) (g : list cell) :
  df_geometry (df self) = Ok g ->
  List.length g = len (df self) ->
  Forall (fun c => isinstance_Point c = true) g ->
  to_linestringm_wkt self =
    Ok (linestringm_text (combine (index (df self)) g)).
Proof.
  intros Hgeom Hlen Hpoints.
  unfold df_geometry in Hgeom.
  destruct (assoc (geometry_name (df self)) (columns (df self)))
    as [g' |] eqn:Hg; [| discriminate].
  injection Hgeom as ->.
  unfold to_linestringm_wkt, linestringm_text.
  rewrite (wkt_coords_mapM _ _ ""
             (map sample_triple (combine (index (df self)) g))).
  - cbn [bind]. simpl append at 2. rewrite drop_last2_terminated. reflexivity.
  - rewrite (combine_by_position _ _ 0 VNone) by exact Hlen.
    rewrite map_map. unfold df_rows. rewrite mapM_map with
      (g := fun row =>
              sample_triple (name row,
                match row_get (get_geom_column_name self) row with
                | Ok c => c
                | Raise _ => VNone
                end)).
    + rewrite map_map. f_equal. apply map_ext_in. intros j Hj.
      rewrite row_get_df_row. unfold get_geom_column_name. rewrite Hg.
      reflexivity.
    + intros row Hin. apply in_map_iff in Hin as (j & <- & Hj).
      apply in_seq in Hj.
      rewrite row_get_df_row. unfold get_geom_column_name. rewrite Hg.
      cbn [bind].
      assert (Hp : isinstance_Point (nth j g VNone) = true).
      { rewrite Forall_forall in Hpoints. apply Hpoints, nth_In.
        unfold len in *. lia. }
      destruct (nth j g VNone); try discriminate. reflexivity.
Qed.

(* ================================================================== *)
(** ** Rows of a re-ordered and of a masked frame *)

Lemma map_nth_seq {A : Type} (l : list A) (d : A) :
  map (fun j => nth j l d) (seq 0 (List.length l)) = l.
Proof.
  induction l as [| a l IH]; [reflexivity |].
  simpl. f_equal. rewrite <- seq_shift, map_map. exact IH.
Qed.

Lemma df_take_rows (indexer : list nat) (d : DataFrame) :
  df_rows (df_take indexer d) = map (df_row d) indexer.
Proof.
  unfold df_rows, len. cbn [index df_take]. rewrite length_map.
  transitivity (map (df_row d)
                  (map (fun j => nth j indexer 0%nat)
                       (seq 0 (List.length indexer))));
    [| rewrite map_nth_seq; reflexivity].
  rewrite map_map.
  apply map_ext_in. intros j Hj. apply in_seq in Hj.
  unfold df_row. cbn [index columns df_take]. f_equal.
  - rewrite (nth_indep _ 0 ((fun i => nth i (index d) 0) 0%nat))
      by (rewrite length_map; lia).
    apply (map_nth (fun i => nth i (index d) 0)).
  - rewrite map_map. apply map_ext. intros [k col]. cbn [fst snd]. f_equal.
    rewrite (nth_indep _ VNone ((fun i => nth i col VNone) 0%nat))
      by (rewrite length_map; lia).
    apply (map_nth (fun i => nth i col VNone)).
Qed.

Lemma select_map {A B : Type} (f : A -> B) (mask : list bool) (l : list A) :
  select mask (map f l) = map f (select mask l).
Proof.
  revert l; induction mask as [| b mask IH]; intros [| a l]; simpl;
    try reflexivity.
  destruct b; simpl; rewrite IH; reflexivity.
Qed.

Lemma select_In {A : Type} (mask : list bool) (l : list A) (x : A) :
  In x (select mask l) -> In x l.
Proof.
  revert l; induction mask as [| b mask IH]; intros [| a l]; simpl;
    try (intros []).
  destruct b; simpl; intros H.
  - destruct H as [H | H]; [left; exact H | right; apply IH; exact H].
  - right; apply IH; exact H.
Qed.

Lemma select_length {A B : Type} (mask : list bool) (l : list A)
  (m : list B) :
  List.length l = List.length m ->
  List.length (select mask l) = List.length (select mask m).
Proof.
  revert l m; induction mask as [| b mask IH]; intros [| a l] [| c m] H;
    simpl in *; try reflexivity; try discriminate.
  destruct b; simpl; [f_equal |]; apply IH; lia.
Qed.

Lemma nth_empty {A : Type} (i : nat) (dflt : A) : nth i [] dflt = dflt.
Proof. destruct i; reflexivity. Qed.

(** The [j]-th cell a mask keeps is the cell at the [j]-th position the mask
    keeps, also in a column shorter than the mask. *)
Lemma nth_select {A : Type} (mask : list bool) (l : list A) (j k : nat)
  (dflt : A) :
  (j < List.length (select mask (seq k (List.length mask))))%nat ->
  nth j (select mask l) dflt =
  nth (nth j (select mask (seq k (List.length mask))) 0 - k)%nat l dflt.
Proof.
  revert l j k; induction mask as [| b mask IH]; intros l j k Hj;
    [simpl in Hj; lia |].
  cbn [List.length seq] in *.
  assert (Hge : forall i,
    (i < List.length (select mask (seq (S k) (List.length mask))))%nat ->
    (S k <= nth i (select mask (seq (S k) (List.length mask))) 0)%nat).
  { intros i Hi.
    assert (Hin : In (nth i (select mask (seq (S k) (List.length mask))) 0%nat)
                     (seq (S k) (List.length mask)))
      by (eapply select_In, nth_In; exact Hi).
    apply in_seq in Hin. lia. }
  destruct l as [| a l].
  - cbn [select]. rewrite !nth_empty. reflexivity.
  - destruct b; cbn [select] in *.
    + destruct j as [| j]; cbn [nth].
      * rewrite Nat.sub_diag. reflexivity.
      * cbn [List.length] in Hj.
        specialize (Hge j ltac:(lia)).
        rewrite (IH l j (S k)) by lia.
        replace (nth j (select mask (seq (S k) (List.length mask))) 0 - k)%nat
          with (S (nth j (select mask (seq (S k) (List.length mask))) 0 - S k))%nat
          by lia.
        reflexivity.
    + specialize (Hge j Hj).
      rewrite (IH l j (S k)) by exact Hj.
      replace (nth j (select mask (seq (S k) (List.length mask))) 0 - k)%nat
        with (S (nth j (select mask (seq (S k) (List.length mask))) 0 - S k))%nat
        by lia.
      reflexivity.
Qed.

Lemma df_mask_rows (mask : list bool) (d : DataFrame) :
  List.length mask = len d ->
  df_rows (df_mask mask d) = select mask (df_rows d).
Proof.
  intros Hmask. unfold df_rows at 2. rewrite select_map.
  transitivity (map (df_row d)
                  (map (fun j => nth j (select mask (seq 0 (len d))) 0%nat)
                       (seq 0 (List.length (select mask (seq 0 (len d)))))));
    [| rewrite map_nth_seq; reflexivity].
  rewrite map_map.
  unfold df_rows, len. cbn [index df_mask].
  rewrite (select_length mask (index d) (seq 0 (List.length (index d))))
    by (rewrite length_seq; reflexivity).
  apply map_ext_in. intros j Hj. apply in_seq in Hj.
  unfold len in Hmask. rewrite <- Hmask in Hj |- *.
  unfold df_row. cbn [index columns df_mask]. f_equal.
  - rewrite (nth_select mask (index d) j 0) by lia.
    rewrite Nat.sub_0_r. reflexivity.
  - rewrite map_map. apply map_ext. intros [k col]. cbn [fst snd]. f_equal.
    rewrite (nth_select mask col j 0) by lia.
    rewrite Nat.sub_0_r. reflexivity.
Qed.

Lemma duplicated_first_length (seen l : list Timestamp) :
  List.length (duplicated_first seen l) = List.length l.
Proof.
  revert seen; induction l as [| t l IH]; intros seen; simpl; auto.
Qed.

Lemma df_rows_names (d : DataFrame) : map name (df_rows d) = index d.
Proof.
  unfold df_rows. rewrite map_map. cbn [name df_row]. apply map_nth_seq.
Qed.

(* ================================================================== *)
(** ** Keeping the first row of every timestamp *)

Lemma existsb_eqb_In (t : Timestamp) (seen : list Timestamp) :
  existsb (Z.eqb t) seen = true <-> In t seen.
Proof.
  rewrite existsb_exists. split.
  - intros (s & Hs & E). apply Z.eqb_eq in E. subst s. exact Hs.
  - intros H. exists t. split; [exact H | apply Z.eqb_refl].
Qed.

Lemma keep_first_In (rows : list Series) (seen : list Timestamp)
  (row : Series) :
  In row (select (map negb (duplicated_first seen (map name rows))) rows) <->
  exists pre post,
    rows = pre ++ row :: post /\
    (forall r, In r pre -> name r <> name row) /\
    ~ In (name row) seen.
Proof.
  revert seen; induction rows as [| r0 rows IH]; intros seen.
  - simpl. split; [intros [] |].
    intros (pre & post & H & _). destruct pre; discriminate.
  - cbn [map duplicated_first select].
    destruct (existsb (Z.eqb (name r0)) seen) eqn:E; cbn [negb].
    + rewrite IH. apply existsb_eqb_In in E. split.
      * intros (pre & post & -> & Hpre & Hseen).
        exists (r0 :: pre), post. repeat split.
        -- intros r [<- | Hr]; [| apply Hpre; exact Hr].
           intros Heq. apply Hseen. left. exact Heq.
        -- intros Hin. apply Hseen. right. exact Hin.
      * intros (pre & post & Hrows & Hpre & Hseen).
        destruct pre as [| r1 pre]; simpl in Hrows; injection Hrows as -> ->.
        -- contradiction.
        -- exists pre, post. repeat split.
           ++ intros r Hr. apply Hpre. right. exact Hr.
           ++ intros [Heq | Hin]; [| contradiction].
              apply (Hpre r1 (or_introl eq_refl)). exact Heq.
    + assert (Hnot : ~ In (name r0) seen).
      { intros Hin. apply existsb_eqb_In in Hin. congruence. }
      cbn [In]. rewrite IH. split.
      * intros [<- | (pre & post & -> & Hpre & Hseen)].
        -- exists [], rows. repeat split; [intros r [] | exact Hnot].
        -- exists (r0 :: pre), post. repeat split.
           ++ intros r [<- | Hr]; [| apply Hpre; exact Hr].
              intros Heq. apply Hseen. left. exact Heq.
           ++ intros Hin. apply Hseen. right. exact Hin.
      * intros (pre & post & Hrows & Hpre & Hseen).
        destruct pre as [| r1 pre]; simpl in Hrows; injection Hrows as -> ->.
        -- left. reflexivity.
        -- right. exists pre, post. repeat split.
           ++ intros r Hr. apply Hpre. right. exact Hr.
           ++ intros [Heq | Hin]; [| contradiction].
              apply (Hpre r1 (or_introl eq_refl)). exact Heq.
Qed.

Lemma dedup_sorted (l seen : list Timestamp) :
  StronglySorted Z.le l ->
  (forall s x, In s seen -> In x l -> s <= x) ->
  StronglySorted Z.lt (select (map negb (duplicated_first seen l)) l) /\
  (forall y, In y (select (map negb (duplicated_first seen l)) l) ->
             In y l /\ ~ In y seen).
Proof.
  revert seen; induction l as [| t l IH]; intros seen Hsorted Hseen.
  - simpl. split; [constructor | intros y []].
  - apply StronglySorted_inv in Hsorted as [Hl Ht].
    rewrite Forall_forall in Ht.
    assert (Hseen' : forall s x, In s (t :: seen) -> In x l -> s <= x).
    { intros s x [<- | Hs] Hx; [apply Ht; exact Hx |].
      apply Hseen; [exact Hs | right; exact Hx]. }
    destruct (IH (t :: seen) Hl Hseen') as [IHs IHin].
    cbn [map duplicated_first select].
    destruct (existsb (Z.eqb t) seen) eqn:E; cbn [negb].
    + split; [exact IHs |].
      intros y Hy. destruct (IHin y Hy) as [Hyl Hyn]. split.
      * right; exact Hyl.
      * intros Hin. apply Hyn. right. exact Hin.
    + split.
      * constructor; [exact IHs |].
        apply Forall_forall. intros y Hy.
        destruct (IHin y Hy) as [Hyl Hyn].
        specialize (Ht y Hyl).
        assert (y <> t) by (intros ->; apply Hyn; left; reflexivity).
        lia.
      * intros y [<- | Hy].
        -- split; [left; reflexivity |].
           intros Hin. apply existsb_eqb_In in Hin. congruence.
        -- destruct (IHin y Hy) as [Hyl Hyn]. split.
           ++ right; exact Hyl.
           ++ intros Hin. apply Hyn. right. exact Hin.
Qed.

Lemma sorted_le_strong (l : list Timestamp) :
  Sorted Z.le l -> StronglySorted Z.le l.
Proof.
  apply Sorted_StronglySorted. intros x y z; lia.
Qed.

Lemma Trajectory_init_df (d : DataFrame) (id_ : string)
  (obj_id_ : option string) (parent_ : option Trajectory) (self : Trajectory) :
  Trajectory_init d id_ obj_id_ parent_ = Ok self ->
  (2 <= len d)%nat /\
  df self =
    df_mask (map negb (duplicated_first [] (index (sort_index d))))
            (sort_index d) /\
  parent self = parent_ /\ traj_id self = id_.
Proof.
  unfold Trajectory_init.
  destruct (len d <? 2)%nat eqn:E; [discriminate |].
  apply Nat.ltb_ge in E.
  destruct (df_crs (sort_index d)); intros H; injection H as <-;
    cbn [df parent traj_id]; auto.
Qed.

(* ================================================================== *)
(** ** The index when a row carries the start time *)

Lemma df_at_set_labels (t : Timestamp) (k : string) (v : cell)
  (d : DataFrame) :
  index (df_at_set t k v d) = labels_with t (index d).
Proof.
  unfold df_at_set. cbn [index df_set with_columns].
  apply with_label_index.
Qed.

Lemma df_at_set_index (t : Timestamp) (k : string) (v : cell) (d : DataFrame) :
  In t (index d) -> index (df_at_set t k v d) = index d.
Proof.
  intros H. rewrite df_at_set_labels. apply labels_with_present, H.
Qed.

Lemma add_distance_index (overwrite : bool) (name_ : string) (units : UNITS)
  (self : Trajectory) :
  In (get_start_time self) (index (df self)) ->
  index (df (snd (add_distance overwrite name_ units self))) = index (df self).
Proof.
  intros Hstart.
  unfold add_distance. run_method. self_simpl.
  destruct (has_column name_ (df self) && negb overwrite); self_simpl;
    [reflexivity |].
  destruct (get_conversion units (crs_units self)) as [conversion |];
    self_simpl; [| reflexivity].
  change (_get_df_with_distance (set_distance_col_name name_ self)
            conversion name_)
    with (_get_df_with_distance self conversion name_).
  destruct (_get_df_with_distance self conversion name_) as [d' |] eqn:Hd;
    self_simpl; [| reflexivity].
  destruct (get_df_with_distance_shape _ _ _ _ Hstart Hd)
    as (? & ? & _ & _ & Hidx & _). exact Hidx.
Qed.

Lemma add_speed_index (overwrite : bool) (name_ : string) (units : UNITS)
  (self : Trajectory) :
  In (get_start_time self) (index (df self)) ->
  index (df (snd (add_speed overwrite name_ units self))) = index (df self).
Proof.
  intros Hstart.
  unfold add_speed. run_method. self_simpl.
  destruct (has_column name_ (df self) && negb overwrite); self_simpl;
    [reflexivity |].
  destruct (get_conversion units (crs_units self)) as [conversion |];
    self_simpl; [| reflexivity].
  change (_get_df_with_speed (set_speed_col_name name_ self) conversion name_)
    with (_get_df_with_speed self conversion name_).
  destruct (_get_df_with_speed self conversion name_) as [d' |] eqn:Hd;
    self_simpl; [| reflexivity].
  destruct (get_df_with_speed_shape _ _ _ _ Hstart Hd)
    as (? & ? & _ & _ & _ & Hidx & _). exact Hidx.
Qed.

Lemma add_acceleration_index (overwrite : bool) (name_ : string)
  (units : UNITS) (self : Trajectory) :
  In (get_start_time self) (index (df self)) ->
  index (df (snd (add_acceleration overwrite name_ units self)))
  = index (df self).
Proof.
  intros Hstart.
  unfold add_acceleration. run_method. self_simpl.
  destruct (has_column name_ (df self) && negb overwrite); self_simpl;
    [reflexivity |].
  destruct (get_conversion units (crs_units self)) as [conversion |];
    self_simpl; [| reflexivity].
  change (_get_df_with_acceleration (set_acceleration_col_name name_ self)
            conversion name_)
    with (_get_df_with_acceleration self conversion name_).
  destruct (_get_df_with_acceleration self conversion name_) as [d' |] eqn:Hd;
    self_simpl; [| reflexivity].
  destruct (get_df_with_acceleration_shape _ _ _ _ Hstart Hd)
    as (? & ? & _ & _ & Hidx & _). exact Hidx.
Qed.

Lemma add_timedelta_index (overwrite : bool) (name_ : string)
  (self : Trajectory) :
  index (df (snd (add_timedelta overwrite name_ self))) = index (df self).
Proof.
  unfold add_timedelta. run_method. self_simpl.
  destruct (has_column name_ (df self) && negb overwrite); reflexivity.
Qed.

Ltac start_labels_row Hstart Hidx :=
  unfold get_start_time; self_simpl; cbn [index df_set with_columns];
  try rewrite Hidx; exact Hstart.

Lemma add_direction_index (overwrite : bool) (name_ : string)
  (self : Trajectory) :
  In (get_start_time self) (index (df self)) ->
  index (df (snd (add_direction overwrite name_ self))) = index (df self).
Proof.
  intros Hstart.
  unfold add_direction, _add_prev_pt. run_method. self_simpl.
  destruct (has_column name_ (df self) && negb overwrite); self_simpl;
    [reflexivity |].
  rewrite orb_true_r. self_simpl.
  destruct (with_prev_pt (df self)) as [temp |] eqn:Htemp; self_simpl;
    [| reflexivity].
  destruct (with_prev_pt_index _ _ Htemp) as [Hidx _].
  match goal with
  | |- context [df_apply ?f temp] =>
      destruct (df_apply f temp) as [vals |]; self_simpl; [| exact Hidx]
  end.
  match goal with
  | |- context [bind ?m ?k] =>
      destruct (bind m k) as [v |]; self_simpl; [| exact Hidx]
  end.
  match goal with
  | |- context [df_drop ?ks ?d] =>
      destruct (df_drop ks d) as [d' |] eqn:Hdrop; self_simpl
  end.
  - apply df_drop_index in Hdrop as [-> _].
    rewrite df_at_set_index; [exact Hidx | start_labels_row Hstart Hidx].
  - rewrite df_at_set_index; [exact Hidx | start_labels_row Hstart Hidx].
Qed.

Lemma add_angular_difference_index (overwrite : bool) (name_ : string)
  (self : Trajectory) :
  In (get_start_time self) (index (df self)) ->
  index (df (snd (add_angular_difference overwrite name_ self)))
  = index (df self).
Proof.
  intros Hstart.
  unfold add_angular_difference. run_method. self_simpl.
  destruct (has_column name_ (df self) && negb overwrite); self_simpl;
    [reflexivity |].
  set (self1 := set_angular_difference_col_name name_ self).
  assert (H1 : index (df self1) = index (df self)) by reflexivity.
  destruct (has_column (get_direction_column_name self1) (df self)) eqn:Hex;
    self_simpl.
  - fold self1.
    match goal with
    | |- context [df_get ?k ?d] =>
        destruct (df_get k d) as [direction |]; self_simpl;
        [| exact H1]
    end.
    match goal with
    | |- context [df_apply ?f ?d] =>
        destruct (df_apply f d) as [vals |]; self_simpl; [| exact H1]
    end.
    cbn [negb]. self_simpl.
    rewrite df_at_set_index; [exact H1 | start_labels_row Hstart H1].
  - pose proof (add_direction_index false DIRECTION_COL_NAME self1 Hstart)
      as H2.
    fold self1.
    destruct (add_direction false DIRECTION_COL_NAME self1) as [r self2]
      eqn:Hdir.
    cbn [snd] in H2. rewrite H1 in H2.
    destruct r as [[] | e]; self_simpl; [| exact H2].
    match goal with
    | |- context [df_get ?k ?d] =>
        destruct (df_get k d) as [direction |]; self_simpl;
        [| exact H2]
    end.
    match goal with
    | |- context [df_apply ?f ?d] =>
        destruct (df_apply f d) as [vals |]; self_simpl; [| exact H2]
    end.
    cbn [negb]. self_simpl.
    match goal with
    | |- context [df_drop ?ks ?d] =>
        destruct (df_drop ks d) as [d' |] eqn:Hdrop; self_simpl
    end.
    + apply df_drop_index in Hdrop as [-> _].
      rewrite df_at_set_index; [exact H2 | start_labels_row Hstart H2].
    + rewrite df_at_set_index; [exact H2 | start_labels_row Hstart H2].
Qed.

(* ================================================================== *)
(** ** The invariant of construction *)

Lemma sort_index_rows (d : DataFrame) :
  Permutation (df_rows (sort_index d)) (df_rows d) /\
  Sorted Z.le (index (sort_index d)).
Proof using Type argsort_perm argsort_sorted.
  split.
  - unfold sort_index. rewrite df_take_rows. unfold df_rows.
    apply Permutation_map, argsort_perm.
  - unfold sort_index. cbn [index df_take]. apply argsort_sorted.
Qed.

Lemma Trajectory_init_increasing (d : DataFrame) (id_ : string)
  (obj_id_ : option string) (parent_ : option Trajectory) (self : Trajectory) :
  Trajectory_init d id_ obj_id_ parent_ = Ok self ->
  strictly_increasing (index (df self)).
Proof using Type argsort_perm argsort_sorted.
  intros H. apply Trajectory_init_df in H as (_ & -> & _).
  cbn [index df_mask].
  destruct (sort_index_rows d) as [_ Hsorted].
  apply sorted_le_strong in Hsorted.
  apply (dedup_sorted _ [] Hsorted). intros s x [].
Qed.

(** X25. Whatever frame the constructor accepts, the frame of the new
    trajectory has strictly increasing, hence unique, timestamps, and its
    rows are exactly the rows of the time-sorted input that are the first
    with their timestamp in that order. When a row carries the start time,
    which is so when the first timestamp has no digits below the
    microsecond, no [add_*] call, successful or not, changes the index. *)
Theorem constructor_invariant (d : DataFrame) (id_ : string)
  (obj_id_ : option string) (parent_ : option Trajectory) (self : Trajectory) :
  Trajectory_init d id_ obj_id_ parent_ = Ok self ->
  Permutation (df_rows (sort_index d)) (df_rows d) /\
  Sorted Z.le (index (sort_index d)) /\
  strictly_increasing (index (df self)) /\
  (forall row,
     In row (df_rows (df self)) <->
     exists pre post,
       df_rows (sort_index d) = pre ++ row :: post /\
       forall r, In r pre -> name r <> name row) /\
  (In (get_start_time self) (index (df self)) ->
   forall overwrite name_ units,
     index (df (snd (add_distance overwrite name_ units self)))
       = index (df self) /\
     index (df (snd (add_speed overwrite name_ units self)))
       = index (df self) /\
     index (df (snd (add_acceleration overwrite name_ units self)))
       = index (df self) /\
     index (df (snd (add_timedelta overwrite name_ self)))
       = index (df self) /\
     index (df (snd (add_direction overwrite name_ self)))
       = index (df self) /\
     index (df (snd (add_angular_difference overwrite name_ self)))
       = index (df self)).
Proof using Type argsort_perm argsort_sorted.
  intros Hinit.
  destruct (sort_index_rows d) as [Hperm Hsorted].
  split; [exact Hperm |]. split; [exact Hsorted |].
  split; [exact (Trajectory_init_increasing _ _ _ _ _ Hinit) |].
  split; [intros row; split |].
  - apply Trajectory_init_df in Hinit as (_ & Hdf & _). rewrite Hdf.
    rewrite df_mask_rows
      by (rewrite length_map, duplicated_first_length; reflexivity).
    rewrite <- (df_rows_names (sort_index d)).
    intros Hin. apply keep_first_In in Hin as (pre & post & H1 & H2 & _).
    eauto.
  - apply Trajectory_init_df in Hinit as (_ & Hdf & _). rewrite Hdf.
    rewrite df_mask_rows
      by (rewrite length_map, duplicated_first_length; reflexivity).
    rewrite <- (df_rows_names (sort_index d)).
    intros (pre & post & H1 & H2). apply keep_first_In.
    exists pre, post. repeat split; try assumption. intros [].
  - intros Hstart overwrite name_ units.
    split; [apply add_distance_index, Hstart |].
    split; [apply add_speed_index, Hstart |].
    split; [apply add_acceleration_index, Hstart |].
    split; [apply add_timedelta_index |].
    split; [apply add_direction_index, Hstart |].
    apply add_angular_difference_index, Hstart.
Qed.

(* ================================================================== *)
(** ** Sorting an index that is already increasing *)

Lemma strictly_increasing_nth (idx : list Timestamp) (i j : nat) :
  strictly_increasing idx -> (i < j)%nat -> (j < List.length idx)%nat ->
  nth i idx 0 < nth j idx 0.
Proof.
  revert i j; induction idx as [| t idx IH]; intros i j Hinc Hij Hj;
    [simpl in Hj; lia |].
  destruct j as [| j]; [lia |].
  destruct i as [| i]; simpl.
  - apply (increasing_tail_above t idx j Hinc). simpl in Hj. lia.
  - apply IH; [exact (strictly_increasing_tail _ _ Hinc) | lia |].
    simpl in Hj. lia.
Qed.

Lemma sorted_lt_perm_unique (l m : list nat) :
  StronglySorted lt l -> StronglySorted lt m -> Permutation l m -> l = m.
Proof.
  revert m; induction l as [| a l IH]; intros m Hl Hm Hperm.
  - apply Permutation_nil in Hperm. congruence.
  - destruct m as [| b m];
      [apply Permutation_sym, Permutation_nil in Hperm; discriminate |].
    apply StronglySorted_inv in Hl as [Hl Ha].
    apply StronglySorted_inv in Hm as [Hm Hb].
    rewrite Forall_forall in Ha, Hb.
    assert (Hab : a = b).
    { assert (Hina : In a (b :: m))
        by (eapply Permutation_in; [exact Hperm | left; reflexivity]).
      assert (Hinb : In b (a :: l))
        by (eapply Permutation_in;
            [apply Permutation_sym; exact Hperm | left; reflexivity]).
      destruct Hina as [-> | Hina]; [reflexivity |].
      destruct Hinb as [-> | Hinb]; [reflexivity |].
      specialize (Ha _ Hinb). specialize (Hb _ Hina). lia. }
    subst b. f_equal. apply IH; try assumption.
    eapply Permutation_cons_inv; exact Hperm.
Qed.

Lemma seq_sorted (k n : nat) : StronglySorted lt (seq k n).
Proof.
  revert k; induction n as [| n IH]; intros k; simpl; constructor.
  - apply IH.
  - apply Forall_forall. intros x Hx. apply in_seq in Hx. lia.
Qed.

Lemma argsort_increasing (idx : list Timestamp) :
  strictly_increasing idx -> argsort idx = seq 0 (List.length idx).
Proof using Type argsort_perm argsort_sorted.
  intros Hinc.
  apply sorted_lt_perm_unique; [| apply seq_sorted | apply argsort_perm].
  pose proof (argsort_perm idx) as Hperm.
  pose proof (argsort_sorted idx) as Hsorted.
  apply sorted_le_strong in Hsorted.
  assert (Hnodup : NoDup (argsort idx)).
  { eapply Permutation_NoDup; [apply Permutation_sym; exact Hperm |].
    apply seq_NoDup. }
  assert (Hbound : forall x, In x (argsort idx) -> (x < List.length idx)%nat).
  { intros x Hx. eapply Permutation_in in Hx; [| exact Hperm].
    apply in_seq in Hx. lia. }
  clear Hperm. induction (argsort idx) as [| a l IH]; [constructor |].
  cbn [map] in Hsorted. apply StronglySorted_inv in Hsorted as [Hl Ha].
  apply NoDup_cons_iff in Hnodup as [Hnot Hnodup].
  constructor.
  - apply IH; try assumption. intros x Hx. apply Hbound. right. exact Hx.
  - apply Forall_forall. intros y Hy.
    rewrite Forall_forall in Ha.
    specialize (Ha (nth y idx 0) (in_map _ _ _ Hy)).
    assert (y <> a) by (intros ->; contradiction).
    destruct (Nat.lt_ge_cases a y) as [Hlt | Hge]; [exact Hlt |].
    assert (Hya : (y < a)%nat) by lia.
    pose proof (strictly_increasing_nth idx y a Hinc Hya
                  (Hbound a (or_introl eq_refl))).
    unfold Timestamp in *. lia.
Qed.

Lemma df_eq (d d' : DataFrame) :
  index d = index d' -> columns d = columns d' ->
  geometry_name d = geometry_name d' -> df_crs d = df_crs d' -> d = d'.
Proof. destruct d, d'; simpl; intros; subst; reflexivity. Qed.

Lemma df_take_all (d : DataFrame) :
  aligned d -> df_take (seq 0 (len d)) d = d.
Proof.
  intros Hal. apply df_eq; try reflexivity; cbn [index columns df_take].
  - apply map_nth_seq.
  - unfold aligned in Hal. induction (columns d) as [| [k col] cs IH];
      [reflexivity |].
    apply Forall_cons_iff in Hal as [Hcol Hcs]. cbn [snd] in Hcol.
    cbn [map fst snd]. f_equal; [| apply IH; exact Hcs].
    f_equal. rewrite <- Hcol. apply map_nth_seq.
Qed.

Lemma select_all_aligned {A B : Type} (l : list A) (m : list B) :
  List.length m = List.length l ->
  select (map negb (map (fun _ => false) l)) m = m.
Proof.
  revert m; induction l as [| a l IH]; intros [| b m] H; simpl in *;
    try reflexivity; try discriminate.
  f_equal. apply IH. lia.
Qed.

Lemma df_mask_all (d : DataFrame) :
  aligned d ->
  df_mask (map negb (map (fun _ => false) (index d))) d = d.
Proof.
  intros Hal. apply df_eq; try reflexivity; cbn [index columns df_mask].
  - apply select_all.
  - unfold aligned in Hal. induction (columns d) as [| [k col] cs IH];
      [reflexivity |].
    apply Forall_cons_iff in Hal as [Hcol Hcs]. cbn [snd] in Hcol.
    cbn [map fst snd]. f_equal; [| apply IH; exact Hcs].
    f_equal. apply select_all_aligned. exact Hcol.
Qed.

Lemma df_mask_aligned (mask : list bool) (d : DataFrame) :
  aligned d -> aligned (df_mask mask d).
Proof.
  unfold aligned, len. cbn [index columns df_mask]. intros Hal.
  apply Forall_forall. intros c Hc.
  apply in_map_iff in Hc as ([k col] & <- & Hin). cbn [fst snd].
  rewrite Forall_forall in Hal. specialize (Hal _ Hin). cbn [snd] in Hal.
  apply select_length. exact Hal.
Qed.

Lemma select_increasing (mask : list bool) (l : list Timestamp) :
  strictly_increasing l -> strictly_increasing (select mask l).
Proof.
  revert mask; induction l as [| t l IH]; intros [| b mask] H; simpl;
    try constructor.
  pose proof (strictly_increasing_tail _ _ H) as Htail.
  destruct b; [| apply IH; exact Htail].
  constructor; [apply IH; exact Htail |].
  pose proof (strictly_increasing_above _ _ H) as Habove.
  rewrite Forall_forall in Habove |- *.
  intros x Hx. apply Habove. eapply select_In; exact Hx.
Qed.

(** The constructor hands a frame back unchanged when it is already in
    order. *)
Lemma Trajectory_init_ordered (d : DataFrame) (id_ : string)
  (obj_id_ : option string) (parent_ : option Trajectory) :
  strictly_increasing (index d) -> aligned d -> (2 <= len d)%nat ->
  exists self,
    Trajectory_init d id_ obj_id_ parent_ = Ok self /\
    df self = d /\ parent self = parent_ /\ traj_id self = id_.
Proof using Type argsort_perm argsort_sorted.
  intros Hinc Hal Hlen.
  assert (Hsort : sort_index d = d).
  { unfold sort_index. rewrite argsort_increasing by exact Hinc.
    apply df_take_all. exact Hal. }
  unfold Trajectory_init.
  replace (len d <? 2)%nat with false by (symmetry; apply Nat.ltb_ge; lia).
  rewrite Hsort.
  rewrite (duplicated_first_fresh [] (index d) Hinc) by (intros s x []).
  rewrite df_mask_all by exact Hal.
  destruct (df_crs d); eexists; repeat split.
Qed.

(* ================================================================== *)
(** ** Segments *)

Lemma select_map_filter {A B : Type} (p : B -> bool) (f : A -> B)
  (l : list A) :
  select (map p (map f l)) l = filter (fun x => p (f x)) l.
Proof.
  induction l as [| a l IH]; [reflexivity |].
  simpl. destruct (p (f a)); rewrite IH; reflexivity.
Qed.

Lemma df_slice_rows (t1 t2 : Timestamp) (d : DataFrame) :
  df_rows (df_slice t1 t2 d) =
  filter (fun row => (t1 <=? name row) && (name row <=? t2)) (df_rows d).
Proof.
  unfold df_slice. rewrite df_mask_rows by (rewrite length_map; reflexivity).
  rewrite <- (df_rows_names d).
  apply (select_map_filter (fun t => (t1 <=? t) && (t <=? t2)) name).
Qed.

Lemma is_valid_true (self : Trajectory) :
  is_valid self = true <->
  (2 <= size self)%nat /\ get_start_time self < get_end_time self.
Proof.
  unfold is_valid, size, len.
  destruct (List.length (index (df self)) <? 2)%nat eqn:E.
  - apply Nat.ltb_lt in E. split; [discriminate | lia].
  - apply Nat.ltb_ge in E.
    destruct (get_start_time self <? get_end_time self) eqn:F; simpl.
    + apply Z.ltb_lt in F. split; [intros _; split; assumption | reflexivity].
    + apply Z.ltb_ge in F. split; [discriminate | lia].
Qed.

(** C7. On a trajectory with strictly increasing timestamps (and columns as
    long as the index), the rows of the slice [t1:t2] are exactly the rows
    with a timestamp in [[t1, t2]]. With two or more of them, and a first
    one that is before the last one also once the digits below the
    microsecond are dropped, as [get_start_time] and [get_end_time] do,
    [get_segment_between] returns a new trajectory whose frame is that slice
    and whose parent is [self]; with fewer than two it raises the
    constructor's ValueError; with two or more that start and end within one
    microsecond it raises its own RuntimeError. On any trajectory, a segment
    that is returned has at least two samples and a start time strictly
    before its end time: a segment the constructor accepts without these is
    refused with the RuntimeError of [get_segment_between]. *)
Theorem segment_between (self : Trajectory) (t1 t2 : Timestamp) :
  (strictly_increasing (index (df self)) -> aligned (df self) ->
     df_rows (df_slice t1 t2 (df self)) =
       filter (fun row => (t1 <=? name row) && (name row <=? t2))
              (df_rows (df self)) /\
     ((2 <= len (df_slice t1 t2 (df self)))%nat ->
      to_pydatetime (index_min (index (df_slice t1 t2 (df self))))
        < to_pydatetime (index_max (index (df_slice t1 t2 (df self)))) ->
        exists segment,
          get_segment_between self t1 t2 = Ok segment /\
          df segment = df_slice t1 t2 (df self) /\
          parent segment = Some self) /\
     ((len (df_slice t1 t2 (df self)) < 2)%nat ->
        get_segment_between self t1 t2 =
          Raise (ValueError
                   "The input DataFrame must have at least two rows.")) /\
     ((2 <= len (df_slice t1 t2 (df self)))%nat ->
      to_pydatetime (index_max (index (df_slice t1 t2 (df self))))
        <= to_pydatetime (index_min (index (df_slice t1 t2 (df self)))) ->
        get_segment_between self t1 t2 =
          Raise (RuntimeError (invalid_segment_msg t1 t2)))) /\
  (forall segment,
     get_segment_between self t1 t2 = Ok segment ->
     (2 <= size segment)%nat /\
     get_start_time segment < get_end_time segment /\
     parent segment = Some self) /\
  (forall segment,
     Trajectory_init (df_slice t1 t2 (df self)) (segment_id self t1)
                     None (Some self) = Ok segment ->
     ~ ((2 <= size segment)%nat /\
        get_start_time segment < get_end_time segment) ->
     get_segment_between self t1 t2 =
       Raise (RuntimeError (invalid_segment_msg t1 t2))).
Proof using Type argsort_perm argsort_sorted.
  assert (Refused : forall segment,
     Trajectory_init (df_slice t1 t2 (df self)) (segment_id self t1)
                     None (Some self) = Ok segment ->
     ~ ((2 <= size segment)%nat /\
        get_start_time segment < get_end_time segment) ->
     get_segment_between self t1 t2 =
       Raise (RuntimeError (invalid_segment_msg t1 t2))).
  { intros segment Hinit Hbad. unfold get_segment_between.
    rewrite Hinit. cbn [bind].
    destruct (is_valid segment) eqn:Hvalid; [| reflexivity].
    apply is_valid_true in Hvalid. contradiction. }
  split; [| split; [| exact Refused]].
  - intros Hinc Hal. split; [apply df_slice_rows |].
    assert (Hinc' : strictly_increasing (index (df_slice t1 t2 (df self))))
      by (apply select_increasing; exact Hinc).
    assert (Hal' : aligned (df_slice t1 t2 (df self)))
      by (apply df_mask_aligned; exact Hal).
    split; [| split].
    + intros Hlen Hspan.
      destruct (Trajectory_init_ordered _ (segment_id self t1) None
                  (Some self) Hinc' Hal' Hlen)
        as (segment & Hinit & Hdf & Hparent & _).
      exists segment. unfold get_segment_between.
      rewrite Hinit. cbn [bind].
      assert (Hvalid : is_valid segment = true).
      { apply is_valid_true. unfold size, get_start_time, get_end_time.
        rewrite Hdf. split; [exact Hlen | exact Hspan]. }
      rewrite Hvalid. auto.
    + intros Hlen. unfold get_segment_between, Trajectory_init.
      replace (len (df_slice t1 t2 (df self)) <? 2)%nat with true
        by (symmetry; apply Nat.ltb_lt; exact Hlen).
      reflexivity.
    + intros Hlen Hspan.
      destruct (Trajectory_init_ordered _ (segment_id self t1) None
                  (Some self) Hinc' Hal' Hlen)
        as (segment & Hinit & Hdf & _).
      apply (Refused segment Hinit). unfold get_start_time, get_end_time.
      rewrite Hdf. intros [_ H]. lia.
  - intros segment H. unfold get_segment_between in H.
    apply bind_Ok in H as (seg & Hinit & H).
    destruct (is_valid seg) eqn:Hvalid; [| discriminate].
    injection H as <-.
    apply is_valid_true in Hvalid as [H1 H2].
    apply Trajectory_init_df in Hinit as (_ & _ & Hparent & _). auto.
Qed.

(* ================================================================== *)
(** ** The frame effect of a derivation *)

Lemma has_column_false (k : string) (d : DataFrame) :
  has_column k d = false -> assoc k (columns d) = None.
Proof.
  unfold has_column. destruct (assoc k (columns d)); [discriminate | auto].
Qed.

Lemma distance_columns (self : Trajectory) (conversion : Conversion)
  (name_ : string) (d' : DataFrame) :
  In (get_start_time self) (index (df self)) ->
  has_column "prev_pt" (df self) = false -> "prev_pt" <> name_ ->
  _get_df_with_distance self conversion name_ = Ok d' ->
  index d' = index (df self) /\
  geometry_name d' = geometry_name (df self) /\
  exists vals,
    List.length vals = len (df self) /\
    columns d' = col_set name_ vals (columns (df self)).
Proof.
  intros Hstart Hpp Hne H.
  destruct (get_df_with_distance_shape _ _ _ _ Hstart H)
    as (temp & vals & Htemp & Hvals & Hidx & Hgeo & Hcols).
  repeat split; try assumption.
  destruct (with_prev_pt_inv _ _ Htemp) as (g & _ & Etemp).
  eexists. split; [| rewrite Hcols, Etemp; cbn [columns df_set with_columns];
                     apply scratch_roundtrip;
                     [exact Hne | apply has_column_false; exact Hpp]].
  rewrite set_where_length, (df_apply_length _ _ _ Hvals). subst temp.
  reflexivity.
Qed.

Lemma speed_columns (self : Trajectory) (conversion : Conversion)
  (name_ : string) (d' : DataFrame) :
  In (get_start_time self) (index (df self)) ->
  has_column "prev_pt" (df self) = false ->
  has_column "delta_t" (df self) = false ->
  "prev_pt" <> name_ -> "delta_t" <> name_ ->
  _get_df_with_speed self conversion name_ = Ok d' ->
  index d' = index (df self) /\
  geometry_name d' = geometry_name (df self) /\
  exists vals,
    List.length vals = len (df self) /\
    columns d' = col_set name_ vals (columns (df self)).
Proof.
  intros Hstart Hpp Hdt Hne1 Hne2 H.
  destruct (get_df_with_speed_shape _ _ _ _ Hstart H)
    as (temp & vals & Htemp & Hvals & _ & Hidx & Hgeo & Hcols).
  repeat split; try assumption.
  destruct (with_prev_pt_inv _ _ Htemp) as (g & _ & Etemp).
  eexists. split.
  - rewrite set_where_length, (df_apply_length _ _ _ Hvals). subst temp.
    reflexivity.
  - rewrite Hcols, Etemp.
    cbn [columns df_set with_columns _get_df_with_timedelta].
    rewrite scratch_roundtrip.
    + apply scratch_roundtrip;
        [exact Hne2 | apply has_column_false; exact Hdt].
    + exact Hne1.
    + rewrite assoc_col_set_other by discriminate.
      apply has_column_false; exact Hpp.
Qed.

Lemma acceleration_columns (self : Trajectory) (conversion : Conversion)
  (name_ : string) (d' : DataFrame) :
  In (get_start_time self) (index (df self)) ->
  (forall k, In k scratch_names -> has_column k (df self) = false) ->
  "speed_temp" <> name_ ->
  _get_df_with_acceleration self conversion name_ = Ok d' ->
  index d' = index (df self) /\
  geometry_name d' = geometry_name (df self) /\
  exists vals,
    List.length vals = len (df self) /\
    columns d' = col_set name_ vals (columns (df self)).
Proof.
  intros Hstart Hscratch Hne H.
  assert (Hpp : has_column "prev_pt" (df self) = false)
    by (apply Hscratch; simpl; auto).
  assert (Hdt : has_column "delta_t" (df self) = false)
    by (apply Hscratch; simpl; auto).
  assert (Hst : has_column "speed_temp" (df self) = false)
    by (apply Hscratch; simpl; auto).
  destruct (get_df_with_acceleration_shape _ _ _ _ Hstart H)
    as (ds & speed & Hds & Hspeed & Hidx & Hgeo & Hcols).
  repeat split; try assumption.
  destruct (speed_columns self conversion "speed_temp" ds Hstart Hpp Hdt
              ltac:(discriminate) ltac:(discriminate) Hds)
    as (_ & _ & sv & Hsv & Hdscols).
  rewrite Hdscols, assoc_col_set_same in Hspeed. injection Hspeed as <-.
  eexists. split.
  - rewrite set_where_length. apply acceleration_series_length. exact Hsv.
  - rewrite Hcols, Hdscols. apply scratch_roundtrip;
      [exact Hne | apply has_column_false; exact Hst].
Qed.

Lemma direction_columns (overwrite : bool) (name_ : string)
  (self self' : Trajectory) :
  In (get_start_time self) (index (df self)) ->
  has_column "prev_pt" (df self) = false -> "prev_pt" <> name_ ->
  add_direction overwrite name_ self = (Ok tt, self') ->
  index (df self') = index (df self) /\
  geometry_name (df self') = geometry_name (df self) /\
  exists vals,
    List.length vals = len (df self) /\
    columns (df self') = col_set name_ vals (columns (df self)).
Proof.
  intros Hstart Hpp Hne H.
  apply (add_direction_ok _ _ _ _ Hstart) in H
    as (_ & temp & vals & d' & Htemp & Hvals & _ & Hidx & Hgeo & Hcols & ->).
  cbn [df set_df]. repeat split; try assumption.
  destruct (with_prev_pt_inv _ _ Htemp) as (g & _ & Etemp).
  eexists. split; [| rewrite Hcols, Etemp; cbn [columns df_set with_columns];
                     apply scratch_roundtrip;
                     [exact Hne | apply has_column_false; exact Hpp]].
  rewrite set_where_length, (df_apply_length _ _ _ Hvals). subst temp.
  reflexivity.
Qed.

Lemma angular_difference_columns (overwrite : bool) (name_ : string)
  (self self' : Trajectory) :
  In (get_start_time self) (index (df self)) ->
  (has_column (get_direction_column_name self) (df self) = false ->
   has_column "prev_pt" (df self) = false) ->
  DIRECTION_COL_NAME <> name_ ->
  add_angular_difference overwrite name_ self = (Ok tt, self') ->
  index (df self') = index (df self) /\
  geometry_name (df self') = geometry_name (df self) /\
  exists vals,
    List.length vals = len (df self) /\
    columns (df self') = col_set name_ vals (columns (df self)).
Proof.
  intros Hstart Hpp Hne.
  unfold add_angular_difference. run_method. self_simpl.
  destruct (has_column name_ (df self) && negb overwrite); self_simpl;
    [intros H; discriminate H |].
  set (self1 := set_angular_difference_col_name name_ self).
  destruct (has_column (get_direction_column_name self1) (df self)) eqn:Hex;
    self_simpl.
  - fold self1.
    match goal with
    | |- context [df_get ?k ?d] =>
        destruct (df_get k d) as [direction |]; self_simpl;
        [| intros H; discriminate H]
    end.
    match goal with
    | |- context [df_apply ?f ?d] =>
        destruct (df_apply f d) as [vals |] eqn:Hvals; self_simpl;
        [| intros H; discriminate H]
    end.
    cbn [negb]. self_simpl. intros H; injection H as <-. cbn [df set_df].
    rewrite df_at_set_df_set.
    match goal with
    | |- context [with_label ?t (df self)] =>
        assert (Et : t = get_start_time self) by reflexivity;
        rewrite Et
    end.
    rewrite with_label_present by exact Hstart.
    rewrite written_present by exact Hstart.
    cbn [index geometry_name columns df_set with_columns].
    repeat split. eexists. split; [| reflexivity].
    rewrite set_where_length, (df_apply_length _ _ _ Hvals). reflexivity.
  - fold self1.
    destruct (add_direction false DIRECTION_COL_NAME self1) as [r self2]
      eqn:Hdir.
    destruct r as [[] | e]; self_simpl; [| intros H; discriminate H].
    assert (Hstart1 : In (get_start_time self1) (index (df self1)))
      by exact Hstart.
    pose proof (add_direction_ok _ _ _ _ Hstart1 Hdir) as (Hguard & _).
    rewrite andb_true_r in Hguard. cbn [df self1
      set_angular_difference_col_name] in Hguard.
    destruct (direction_columns false DIRECTION_COL_NAME self1 self2 Hstart1
                (Hpp Hex) ltac:(discriminate) Hdir)
      as (Hidx & Hgeo & dv & Hdv & Hcols2).
    cbn [df self1 set_angular_difference_col_name] in Hidx, Hgeo, Hdv, Hcols2.
    match goal with
    | |- context [df_get ?k ?d] =>
        destruct (df_get k d) as [direction |]; self_simpl;
        [| intros H; discriminate H]
    end.
    match goal with
    | |- context [df_apply ?f ?d] =>
        destruct (df_apply f d) as [vals |] eqn:Hvals; self_simpl;
        [| intros H; discriminate H]
    end.
    cbn [negb]. self_simpl.
    match goal with
    | |- context [df_drop ?ks ?d] =>
        destruct (df_drop ks d) as [d' |] eqn:Hdrop; self_simpl;
        [| intros H; discriminate H]
    end.
    intros H; injection H as <-. cbn [df set_df].
    apply df_drop_one_inv in Hdrop. subst d'.
    rewrite df_at_set_df_set.
    assert (Hstart2 : In (get_start_time self) (index (df self2)))
      by (rewrite Hidx; exact Hstart).
    match goal with
    | |- context [with_label ?t (df self2)] =>
        assert (Et : t = get_start_time self)
          by (unfold get_start_time; self_simpl;
              cbn [index df_set with_columns]; rewrite Hidx; reflexivity);
        rewrite Et
    end.
    rewrite with_label_present by exact Hstart2.
    rewrite written_present by exact Hstart2.
    cbn [index geometry_name columns df_set with_columns].
    repeat split; try assumption.
    eexists. split.
    + rewrite set_where_length, (df_apply_length _ _ _ Hvals).
      unfold len. cbn [index df_set with_columns]. rewrite Hidx. reflexivity.
    + rewrite Hcols2. apply scratch_roundtrip;
        [exact Hne | apply has_column_false; exact Hguard].
Qed.

Lemma adds_one_column_intro (name_ : string) (before after : DataFrame) :
  has_column name_ before = false ->
  index after = index before /\
  geometry_name after = geometry_name before /\
  (exists vals,
     List.length vals = len before /\
     columns after = col_set name_ vals (columns before)) ->
  adds_one_column name_ before after.
Proof.
  intros Hfresh (Hidx & Hgeo & vals & Hlen & Hcols).
  repeat split; try assumption.
  exists vals. split; [exact Hlen |].
  rewrite Hcols. apply col_set_fresh, has_column_false. exact Hfresh.
Qed.

Lemma assoc_app_absent {A : Type} (k n : string) (v : A)
  (l : list (string * A)) :
  n <> k -> assoc k l = None -> assoc k (l ++ [(n, v)]) = None.
Proof.
  intros Hne. induction l as [| [k0 a] l IH]; simpl.
  - apply String.eqb_neq in Hne. rewrite Hne. reflexivity.
  - destruct (String.eqb k0 k); [discriminate | exact IH].
Qed.

(** C8, as the code has it. When the frame has no column called [name_],
    a successful [add_timedelta] leaves the index, every existing column
    and its cells as they were and in the same order, and puts one column
    called [name_] after them. The other [add_*] methods do the same when
    the start time they write their first cell at labels a row (the first
    timestamp has no digits below the microsecond) and the scratch columns
    of the method at hand are neither in the frame nor asked for as
    [name_]: prev_pt for [add_distance] and [add_direction]; prev_pt and
    delta_t for [add_speed]; for [add_acceleration] prev_pt, delta_t and
    speed_temp in the frame and speed_temp as [name_].
    [add_angular_difference] (with [name_] other than
    "direction") needs prev_pt out of the frame only when it has to compute
    the direction column itself, and that column is gone again
    afterwards. *)
Theorem derivation_adds_one_column (self : Trajectory) (overwrite : bool)
  (name_ : string) (units : UNITS) :
  has_column name_ (df self) = false ->
  (forall self',
     add_timedelta overwrite name_ self = (Ok tt, self') ->
     adds_one_column name_ (df self) (df self')) /\
  (In (get_start_time self) (index (df self)) ->
   (forall self',
      has_column "prev_pt" (df self) = false -> name_ <> "prev_pt" ->
      add_distance overwrite name_ units self = (Ok tt, self') ->
      adds_one_column name_ (df self) (df self')) /\
   (forall self',
      has_column "prev_pt" (df self) = false -> name_ <> "prev_pt" ->
      add_direction overwrite name_ self = (Ok tt, self') ->
      adds_one_column name_ (df self) (df self')) /\
   (forall self',
      has_column "prev_pt" (df self) = false -> name_ <> "prev_pt" ->
      has_column "delta_t" (df self) = false -> name_ <> "delta_t" ->
      add_speed overwrite name_ units self = (Ok tt, self') ->
      adds_one_column name_ (df self) (df self')) /\
   (forall self',
      (forall k, In k scratch_names -> has_column k (df self) = false) ->
      name_ <> "speed_temp" ->
      add_acceleration overwrite name_ units self = (Ok tt, self') ->
      adds_one_column name_ (df self) (df self')) /\
   (forall self',
      (has_column (get_direction_column_name self) (df self) = false ->
       has_column "prev_pt" (df self) = false) ->
      name_ <> DIRECTION_COL_NAME ->
      add_angular_difference overwrite name_ self = (Ok tt, self') ->
      adds_one_column name_ (df self) (df self') /\
      (has_column DIRECTION_COL_NAME (df self) = false ->
       has_column DIRECTION_COL_NAME (df self') = false))).
Proof.
  intros Hfresh.
  split.
  { intros self' Hcall.
    apply add_timedelta_ok in Hcall as (_ & ->).
    apply adds_one_column_intro; [exact Hfresh |]. cbn [df set_df].
    unfold _get_df_with_timedelta.
    cbn [index geometry_name columns df_set with_columns].
    repeat split. eexists. split; [| reflexivity].
    apply index_diff_length. }
  intros Hstart.
  split; [| split; [| split; [| split]]]; intros self'.
  - intros Spp Hpp Hcall.
    apply add_distance_ok in Hcall as (_ & conversion & d' & _ & Hd & ->).
    apply adds_one_column_intro; [exact Hfresh |]. cbn [df set_df].
    eapply distance_columns; try eassumption. congruence.
  - intros Spp Hpp Hcall.
    apply adds_one_column_intro; [exact Hfresh |].
    eapply direction_columns; try eassumption. congruence.
  - intros Spp Hpp Sdt Hdt Hcall.
    apply add_speed_ok in Hcall as (_ & conversion & d' & _ & Hd & ->).
    apply adds_one_column_intro; [exact Hfresh |]. cbn [df set_df].
    eapply speed_columns; try eassumption; congruence.
  - intros Hscratch Hname Hcall.
    apply add_acceleration_ok in Hcall as (_ & conversion & d' & _ & Hd & ->).
    apply adds_one_column_intro; [exact Hfresh |]. cbn [df set_df].
    eapply acceleration_columns; try eassumption. congruence.
  - intros Spp Hne Hcall.
    assert (Hadd : adds_one_column name_ (df self) (df self')).
    { apply adds_one_column_intro; [exact Hfresh |].
      eapply angular_difference_columns; try eassumption.
      congruence. }
    split; [exact Hadd |].
    intros Hdir. destruct Hadd as (_ & _ & vals & _ & Hcols).
    unfold has_column. rewrite Hcols.
    rewrite assoc_app_absent;
      [reflexivity | exact Hne | apply has_column_false; exact Hdir].
Qed.

(* ================================================================== *)
(** ** Degenerate steps in the derived columns *)

(** The two cells [_compute_distance] and [_compute_heading] read in row
    [j] of their scratch frame. *)
Lemma distance_scratch_row (self : Trajectory) (g : list cell)
  (temp : DataFrame) (j : nat) :
  assoc (geometry_name (df self)) (columns (df self)) = Some g ->
  geometry_name (df self) <> "prev_pt" ->
  with_prev_pt (df self) = Ok temp ->
  row_get "prev_pt" (df_row temp j) = Ok (nth j (shift VNone g) VNone) /\
  row_get (get_geom_column_name self) (df_row temp j) = Ok (nth j g VNone).
Proof.
  intros Hg Hpp Htemp.
  destruct (with_prev_pt_inv _ _ Htemp) as (g' & Hg' & ->).
  rewrite Hg in Hg'. injection Hg' as <-.
  rewrite !row_get_df_row. unfold get_geom_column_name.
  cbn [columns df_set with_columns].
  rewrite assoc_col_set_same.
  rewrite assoc_col_set_other by congruence.
  rewrite Hg. auto.
Qed.

Lemma as_cell_value (f : Series -> result float) (row : Series) (c : cell)
  (x : float) :
  f row = Ok x -> as_cell f row = Ok c -> c = VFloat x.
Proof.
  unfold as_cell. intros ->. cbn [bind]. intros H; injection H as <-.
  reflexivity.
Qed.

Lemma later_than_start (self : Trajectory) (i : nat) :
  strictly_increasing (index (df self)) ->
  (S i < List.length (index (df self)))%nat ->
  nth (S i) (index (df self)) 0 <> get_start_time self.
Proof.
  intros Hinc Hi. unfold get_start_time.
  pose proof (to_pydatetime_le (index_min (index (df self)))) as Hle.
  destruct (index (df self)) as [| t0 rest] eqn:E; [simpl in Hi; lia |].
  rewrite (increasing_min _ _ Hinc) in *.
  pose proof (increasing_tail_above t0 rest i Hinc) as Hlt.
  simpl in Hi. specialize (Hlt ltac:(lia)). cbn [nth]. lia.
Qed.

Lemma nth_labels_with (t : Timestamp) (idx : list Timestamp) (j : nat) :
  (j < List.length idx)%nat -> nth j (labels_with t idx) 0 = nth j idx 0.
Proof.
  intros Hj. unfold labels_with.
  destruct (existsb (Z.eqb t) idx); [reflexivity | apply app_nth1; exact Hj].
Qed.

Lemma later_written (self : Trajectory) (vals : list cell) (v : cell)
  (i : nat) :
  strictly_increasing (index (df self)) ->
  (S i < len (df self))%nat -> List.length vals = len (df self) ->
  nth_error (written (get_start_time self) v (index (df self)) vals) (S i)
  = Some (nth (S i) vals VNone).
Proof.
  intros Hinc Hi Hlen. unfold len in *.
  apply written_elsewhere; [exact Hlen | exact Hi |].
  unfold get_start_time.
  pose proof (to_pydatetime_le (index_min (index (df self)))) as Hle.
  destruct (index (df self)) as [| t0 rest] eqn:E; [simpl in Hi; lia |].
  rewrite (increasing_min _ _ Hinc) in *.
  pose proof (increasing_tail_above t0 rest i Hinc) as Hlt.
  simpl in Hi. specialize (Hlt ltac:(lia)). cbn [nth]. lia.
Qed.

(** [df.apply] stops at the first row whose function raises. *)
Lemma mapM_first_raise {A B : Type} (f : A -> result B) (l : list A)
  (k : nat) (d : A) (e : exn) :
  (k < List.length l)%nat ->
  (forall j, (j < k)%nat -> exists b, f (nth j l d) = Ok b) ->
  f (nth k l d) = Raise e ->
  mapM f l = Raise e.
Proof.
  revert k. induction l as [| a l IH]; intros k Hk Hbefore Hat;
    [simpl in Hk; lia |].
  destruct k as [| k].
  - simpl in Hat. simpl. rewrite Hat. reflexivity.
  - simpl. destruct (Hbefore 0%nat ltac:(lia)) as [b Hb]. simpl in Hb.
    rewrite Hb. cbn [bind].
    rewrite (IH k); [reflexivity | simpl in Hk; lia | | exact Hat].
    intros j Hj. apply (Hbefore (S j)). lia.
Qed.

Lemma df_apply_first_raise (f : Series -> result cell) (d : DataFrame)
  (k : nat) (e : exn) :
  (k < len d)%nat ->
  (forall j, (j < k)%nat -> exists c, f (df_row d j) = Ok c) ->
  f (df_row d k) = Raise e ->
  df_apply f d = Raise e.
Proof.
  intros Hk Hbefore Hat. unfold df_apply.
  apply (mapM_first_raise f (df_rows d) k (df_row d 0%nat)).
  - rewrite df_rows_length; exact Hk.
  - intros j Hj. rewrite df_rows_nth by lia. apply Hbefore; exact Hj.
  - rewrite df_rows_nth by exact Hk. exact Hat.
Qed.

Lemma total_seconds_nonzero (d : Timedelta) :
  1000 <= d -> fis_zero (timedelta_total_seconds d) = false.
Proof.
  intros Hd. unfold timedelta_total_seconds, fis_zero, q_is_zero.
  cbn [Qnum]. apply Z.eqb_neq.
  pose proof (Z.mod_pos_bound d 1000 ltac:(lia)). lia.
Qed.

Lemma compute_distance_returns (self : Trajectory) (row : Series)
  (conversion : Conversion) (pt0 pt1 : cell) :
  row_get "prev_pt" row = Ok pt0 ->
  row_get (get_geom_column_name self) row = Ok pt1 ->
  isinstance_Point pt1 = true ->
  fis_zero (conv_distance conversion) = false ->
  exists x, _compute_distance self row conversion = Ok x.
Proof.
  intros H0 H1 P1 Hz. unfold _compute_distance. rewrite H0, H1. cbn [bind].
  rewrite P1. cbn [negb]. unfold py_truediv. rewrite Hz.
  destruct (isinstance_Point pt0), (cell_eqb pt0 pt1), (is_latlon self);
    cbn [negb]; eauto.
Qed.

Lemma compute_speed_returns (self : Trajectory) (row : Series)
  (conversion : Conversion) (pt0 pt1 : cell) :
  row_get "prev_pt" row = Ok pt0 ->
  row_get (get_geom_column_name self) row = Ok pt1 ->
  isinstance_Point pt1 = true ->
  fis_zero (conv_distance conversion) = false ->
  (isinstance_Point pt0 = true ->
   exists d, row_get "delta_t" row = Ok (VTimedelta d) /\ 1000 <= d) ->
  exists x, _compute_speed self row conversion = Ok x.
Proof.
  intros H0 H1 P1 Hz Hd. unfold _compute_speed. rewrite H0, H1. cbn [bind].
  rewrite P1. cbn [negb].
  destruct (isinstance_Point pt0); cbn [negb]; [| eauto].
  destruct (Hd eq_refl) as (d & Hrow & Hlong).
  destruct (cell_eqb pt0 pt1); [eauto |].
  unfold py_truediv at 1 2. rewrite Hz.
  destruct (is_latlon self); cbn [bind]; rewrite Hrow;
    cbn [bind cell_total_seconds]; unfold py_truediv;
    rewrite (total_seconds_nonzero d Hlong); cbn [bind]; eauto.
Qed.

Lemma with_prev_pt_returns (d : DataFrame) (g : list cell) :
  assoc (geometry_name d) (columns d) = Some g ->
  with_prev_pt d = Ok (df_set "prev_pt" (shift VNone g) d).
Proof.
  intros Hg. unfold with_prev_pt, df_geometry. rewrite Hg. reflexivity.
Qed.

Lemma with_prev_pt_timedelta_returns (self : Trajectory) (g : list cell) :
  assoc (geometry_name (df self)) (columns (df self)) = Some g ->
  geometry_name (df self) <> "delta_t" ->
  with_prev_pt (_get_df_with_timedelta self "delta_t") =
  Ok (df_set "prev_pt" (shift VNone g) (_get_df_with_timedelta self "delta_t")).
Proof.
  intros Hg Gdt. apply with_prev_pt_returns.
  unfold _get_df_with_timedelta. cbn [geometry_name columns df_set with_columns].
  rewrite assoc_col_set_other by congruence. exact Hg.
Qed.

Lemma shift_head_not_point (l : list cell) :
  isinstance_Point (nth 0 (shift VNone l) VNone) = false.
Proof. destruct l; reflexivity. Qed.

(** C3, as the code has it. On a trajectory with strictly increasing
    timestamps, take the step from sample [i] to the next one, and the row
    of the later sample in the scratch frames the methods work on.
    If the earlier position is not a point, or the two positions are equal
    points, then [_compute_distance], [_compute_speed] and
    [_compute_heading] return exactly 0.0 on that row, whatever the time
    between the samples, and 0.0 is the cell of the later sample in the
    column that a successful [add_distance], [add_speed] or [add_direction]
    adds. If the earlier position is a point and the later one is not,
    [_compute_distance] and [_compute_speed] raise the ValueError
    'Invalid trajectory! Got ... instead of point!' on that row, and so do
    [add_distance] and [add_speed], leaving the frame as it was, when the
    guard lets the call pass, the units resolve to a distance factor other
    than zero and this is the first step to fail (the samples before are
    points and, for the speed, at least a microsecond apart). *)
Theorem degenerate_step_is_zero (self : Trajectory) (overwrite : bool)
  (name_ : string) (units : UNITS) (g : list cell) (i : nat) :
  strictly_increasing (index (df self)) ->
  df_geometry (df self) = Ok g ->
  List.length g = len (df self) ->
  geometry_name (df self) <> "prev_pt" ->
  geometry_name (df self) <> "delta_t" ->
  name_ <> "prev_pt" -> name_ <> "delta_t" ->
  (S i < len (df self))%nat ->
  (exists temp temp_s,
     with_prev_pt (df self) = Ok temp /\
     with_prev_pt (_get_df_with_timedelta self "delta_t") = Ok temp_s /\
     (isinstance_Point (nth i g VNone) = false \/
      cell_eqb (nth i g VNone) (nth (S i) g VNone) = true ->
      forall conversion,
        _compute_distance self (df_row temp (S i)) conversion = Ok zero /\
        _compute_speed self (df_row temp_s (S i)) conversion = Ok zero /\
        _compute_heading self (df_row temp (S i)) = Ok zero) /\
     (isinstance_Point (nth i g VNone) = true ->
      isinstance_Point (nth (S i) g VNone) = false ->
      forall conversion,
        _compute_distance self (df_row temp (S i)) conversion =
          Raise (ValueError (invalid_point_msg (nth (S i) g VNone))) /\
        _compute_speed self (df_row temp_s (S i)) conversion =
          Raise (ValueError (invalid_point_msg (nth (S i) g VNone))))) /\
  (isinstance_Point (nth i g VNone) = false \/
   cell_eqb (nth i g VNone) (nth (S i) g VNone) = true ->
     (forall self',
        add_distance overwrite name_ units self = (Ok tt, self') ->
        df_cell name_ (S i) (df self') = Some (VFloat zero)) /\
     (forall self',
        add_speed overwrite name_ units self = (Ok tt, self') ->
        df_cell name_ (S i) (df self') = Some (VFloat zero)) /\
     (forall self',
        add_direction overwrite name_ self = (Ok tt, self') ->
        df_cell name_ (S i) (df self') = Some (VFloat zero))) /\
  (isinstance_Point (nth (S i) g VNone) = false ->
   (forall j, (j <= i)%nat -> isinstance_Point (nth j g VNone) = true) ->
   has_column name_ (df self) && negb overwrite = false ->
   forall conversion,
     get_conversion units (crs_units self) = Ok conversion ->
     fis_zero (conv_distance conversion) = false ->
     add_distance overwrite name_ units self =
       (Raise (ValueError (invalid_point_msg (nth (S i) g VNone))),
        set_distance_col_name name_ self) /\
     ((forall j, (j < i)%nat ->
         1000 <= nth (S j) (index (df self)) 0 - nth j (index (df self)) 0) ->
      add_speed overwrite name_ units self =
        (Raise (ValueError (invalid_point_msg (nth (S i) g VNone))),
         set_speed_col_name name_ self))).
Proof.
  intros Hinc Hgeom Hlen Gpp Gdt Npp Ndt Hi.
  assert (Hpp : "prev_pt" <> name_) by congruence.
  assert (Hdt : "delta_t" <> name_) by congruence.
  unfold df_geometry in Hgeom.
  destruct (assoc (geometry_name (df self)) (columns (df self)))
    as [g' |] eqn:Hg; [| discriminate].
  injection Hgeom as ->.
  assert (Hshift : nth (S i) (shift VNone g) VNone = nth i g VNone)
    by (apply nth_shift; lia).
  pose proof (with_prev_pt_returns (df self) g Hg) as Htemp.
  pose proof (with_prev_pt_timedelta_returns self g Hg Gdt) as Htemp_s.
  set (temp := df_set "prev_pt" (shift VNone g) (df self)) in *.
  set (temp_s := df_set "prev_pt" (shift VNone g)
                   (_get_df_with_timedelta self "delta_t")) in *.
  assert (Hrows : forall j,
             row_get "prev_pt" (df_row temp j)
               = Ok (nth j (shift VNone g) VNone) /\
             row_get (get_geom_column_name self) (df_row temp j)
               = Ok (nth j g VNone))
    by (intros j; exact (distance_scratch_row self g temp j Hg Gpp Htemp)).
  assert (Hrows_s : forall j,
             row_get "prev_pt" (df_row temp_s j)
               = Ok (nth j (shift VNone g) VNone) /\
             row_get (get_geom_column_name self) (df_row temp_s j)
               = Ok (nth j g VNone) /\
             row_get "delta_t" (df_row temp_s j)
               = Ok (nth j (index_diff (index (df self))) VNone))
    by (intros j;
        exact (speed_scratch_row self g temp_s j Hg Gpp Gdt Htemp_s)).
  destruct (Hrows (S i)) as [R0 R1]. rewrite Hshift in R0.
  destruct (Hrows_s (S i)) as (S0 & S1 & _). rewrite Hshift in S0.
  split; [| split].
  - exists temp, temp_s. split; [exact Htemp |]. split; [exact Htemp_s |].
    split.
    + intros Hdeg conversion.
      destruct (degenerate_row self _ conversion _ _ R0 R1) as [Hz _].
      destruct (degenerate_row self _ conversion _ _ S0 S1) as [Hz' _].
      destruct (Hz Hdeg) as (Hd & _ & Hh).
      destruct (Hz' Hdeg) as (_ & Hs & _). auto.
    + intros Hp0 Hp1 conversion.
      destruct (degenerate_row self _ conversion _ _ R0 R1) as [_ Hr].
      destruct (degenerate_row self _ conversion _ _ S0 S1) as [_ Hr'].
      destruct (Hr Hp0 Hp1) as (Hd & _).
      destruct (Hr' Hp0 Hp1) as (_ & Hs). auto.
  - intros Hdeg. split; [| split]; intros self' Hcall.
    + apply add_distance_ok in Hcall as (_ & conversion & d' & _ & Hd & ->).
      destruct (get_df_with_distance_frame _ _ _ _ Hd)
        as (temp' & vals & Htemp' & Hvals & _ & _ & Hcols).
      rewrite Htemp in Htemp'. injection Htemp' as <-.
      assert (Hi' : (S i < len temp)%nat) by exact Hi.
      pose proof (df_apply_nth _ _ _ _ Hvals Hi') as Hrow.
      destruct (degenerate_row self _ conversion _ _ R0 R1) as [Hz _].
      destruct (Hz Hdeg) as (Hzero & _ & _).
      apply (as_cell_value _ _ _ _ Hzero) in Hrow.
      cbn [df set_df].
      rewrite (df_cell_columns name_ (S i) d'
                 (written (get_start_time self) (VFloat zero)
                          (index (df self)) vals)).
      * rewrite later_written; try assumption.
        -- rewrite Hrow. reflexivity.
        -- rewrite (df_apply_length _ _ _ Hvals). reflexivity.
      * rewrite Hcols, assoc_col_drop_other by assumption.
        apply assoc_col_set_same.
    + apply add_speed_ok in Hcall as (_ & conversion & d' & _ & Hd & ->).
      destruct (speed_column _ _ _ _ Hpp Hdt Hd)
        as (temp' & vals & Htemp' & Hvals & Hvlen & _ & _ & Hcol).
      rewrite Htemp_s in Htemp'. injection Htemp' as <-.
      assert (Hi' : (S i < len temp_s)%nat) by exact Hi.
      pose proof (df_apply_nth _ _ _ _ Hvals Hi') as Hrow.
      destruct (degenerate_row self _ conversion _ _ S0 S1) as [Hz _].
      destruct (Hz Hdeg) as (_ & Hzero & _).
      apply (as_cell_value _ _ _ _ Hzero) in Hrow.
      cbn [df set_df].
      rewrite (df_cell_columns name_ (S i) d' _ Hcol).
      rewrite later_written; try assumption.
      rewrite Hrow. reflexivity.
    + apply add_direction_frame in Hcall
        as (_ & temp' & vals & d' & Htemp' & Hvals & _ & _ & _ & Hcols & ->).
      rewrite Htemp in Htemp'. injection Htemp' as <-.
      assert (Hi' : (S i < len temp)%nat) by exact Hi.
      pose proof (df_apply_nth _ _ _ _ Hvals Hi') as Hrow.
      destruct (degenerate_row self _
                  (mkConversion zero zero zero zero) _ _ R0 R1) as [Hz _].
      destruct (Hz Hdeg) as (_ & _ & Hzero).
      apply (as_cell_value _ _ _ _ Hzero) in Hrow.
      cbn [df set_df].
      rewrite (df_cell_columns name_ (S i) d'
                 (written (get_start_time self) (nth 1 vals VNone)
                          (index (df self)) vals)).
      * rewrite later_written; try assumption.
        -- rewrite Hrow. reflexivity.
        -- rewrite (df_apply_length _ _ _ Hvals). reflexivity.
      * rewrite Hcols, assoc_col_drop_other by assumption.
        apply assoc_col_set_same.
  - intros Hp1 Hpts Hguard conversion Hconv Hz.
    assert (Hp0 : isinstance_Point (nth i g VNone) = true)
      by (apply Hpts; lia).
    split; [| intros Hsteps].
    + assert (Hraise : _get_df_with_distance self conversion name_ =
                Raise (ValueError (invalid_point_msg (nth (S i) g VNone)))).
      2: { unfold add_distance. run_method. self_simpl. rewrite Hguard.
           self_simpl. rewrite Hconv. self_simpl.
           change (_get_df_with_distance (set_distance_col_name name_ self)
                     conversion name_)
             with (_get_df_with_distance self conversion name_).
           rewrite Hraise. reflexivity. }
      unfold _get_df_with_distance. cbv zeta. rewrite Htemp. cbn [bind].
      rewrite (df_apply_first_raise _ temp (S i)
                 (ValueError (invalid_point_msg (nth (S i) g VNone)))).
      * reflexivity.
      * exact Hi.
      * intros j Hj. destruct (Hrows j) as [Q0 Q1].
        destruct (compute_distance_returns self _ conversion _ _ Q0 Q1
                    (Hpts j ltac:(lia)) Hz) as [x Hx].
        exists (VFloat x). unfold as_cell. rewrite Hx. reflexivity.
      * destruct (degenerate_row self _ conversion _ _ R0 R1) as [_ Hr].
        destruct (Hr Hp0 Hp1) as (Hraise & _).
        unfold as_cell. rewrite Hraise. reflexivity.
    + assert (Hraise : _get_df_with_speed self conversion name_ =
                Raise (ValueError (invalid_point_msg (nth (S i) g VNone)))).
      2: { unfold add_speed. run_method. self_simpl. rewrite Hguard.
           self_simpl. rewrite Hconv. self_simpl.
           change (_get_df_with_speed (set_speed_col_name name_ self)
                     conversion name_)
             with (_get_df_with_speed self conversion name_).
           rewrite Hraise. reflexivity. }
      unfold _get_df_with_speed. cbv zeta. rewrite Htemp_s. cbn [bind].
      rewrite (df_apply_first_raise _ temp_s (S i)
                 (ValueError (invalid_point_msg (nth (S i) g VNone)))).
      * reflexivity.
      * exact Hi.
      * intros j Hj. destruct (Hrows_s j) as (Q0 & Q1 & Q2).
        destruct (compute_speed_returns self _ conversion _ _ Q0 Q1
                    (Hpts j ltac:(lia)) Hz) as [x Hx].
        -- intros Hpt. destruct j as [| j];
             [rewrite shift_head_not_point in Hpt; discriminate |].
           rewrite nth_index_diff in Q2 by (unfold len in Hi; lia).
           eexists. split; [exact Q2 |]. apply Hsteps. lia.
        -- exists (VFloat x). unfold as_cell. rewrite Hx. reflexivity.
      * destruct (degenerate_row self _ conversion _ _ S0 S1) as [_ Hr].
        destruct (Hr Hp0 Hp1) as (_ & Hraise).
        unfold as_cell. rewrite Hraise. reflexivity.
Qed.

(* ================================================================== *)
(** ** The values of the derived columns *)

(** X1. Every row after the first holds, as its timedelta, the time since the
    row before; the call is refused only by the overwrite guard. *)
Theorem timedelta_values (self : Trajectory) (overwrite : bool)
  (name_ : string) :
  has_column name_ (df self) && negb overwrite = false ->
  exists self',
    add_timedelta overwrite name_ self = (Ok tt, self') /\
    forall i, (S i < size self)%nat ->
      df_cell name_ (S i) (df self') =
      Some (VTimedelta (nth (S i) (index (df self)) 0
                        - nth i (index (df self)) 0)).
Proof.
  intros Hguard. eexists. split.
  - unfold add_timedelta. run_method. self_simpl. rewrite Hguard.
    reflexivity.
  - intros i Hi. cbn [df set_df]. unfold _get_df_with_timedelta, df_cell.
    cbn [columns df_set with_columns]. rewrite assoc_col_set_same.
    rewrite (nth_error_nth' _ VNone)
      by (rewrite index_diff_length; exact Hi).
    rewrite nth_index_diff by exact Hi. reflexivity.
Qed.

Lemma compute_distance_regular (self : Trajectory) (row : Series)
  (conversion : Conversion) (pt0 pt1 : cell) :
  row_get "prev_pt" row = Ok pt0 ->
  row_get (get_geom_column_name self) row = Ok pt1 ->
  isinstance_Point pt0 = true -> isinstance_Point pt1 = true ->
  cell_eqb pt0 pt1 = false ->
  _compute_distance self row conversion =
  py_truediv
    (fmul ((if is_latlon self then measure_distance_geodesic
            else measure_distance_euclidean) pt0 pt1)
          (conv_crs conversion))
    (conv_distance conversion).
Proof.
  intros H0 H1 P0 P1 Hne. unfold _compute_distance.
  rewrite H0, H1. cbn [bind]. rewrite P0, P1, Hne. cbn [negb].
  destruct (is_latlon self); reflexivity.
Qed.

Lemma compute_speed_regular (self : Trajectory) (row : Series)
  (conversion : Conversion) (pt0 pt1 : cell) (d : Timedelta) :
  row_get "prev_pt" row = Ok pt0 ->
  row_get (get_geom_column_name self) row = Ok pt1 ->
  row_get "delta_t" row = Ok (VTimedelta d) ->
  isinstance_Point pt0 = true -> isinstance_Point pt1 = true ->
  cell_eqb pt0 pt1 = false ->
  _compute_speed self row conversion =
  (dist <- py_truediv
             (fmul ((if is_latlon self then measure_distance_geodesic
                     else measure_distance_euclidean) pt0 pt1)
                   (conv_crs conversion))
             (conv_distance conversion) ;;
   quotient <- py_truediv dist (timedelta_total_seconds d) ;;
   Ok (fmul quotient (conv_time conversion))).
Proof.
  intros H0 H1 Hd P0 P1 Hne. unfold _compute_speed.
  rewrite H0, H1. cbn [bind]. rewrite P0, P1, Hne. cbn [negb].
  destruct (is_latlon self);
    match goal with
    | |- bind ?m _ = _ => destruct m; cbn [bind]; [| reflexivity]
    end; rewrite Hd; reflexivity.
Qed.

(** X2. The distance of a step between two different points is the measured
    distance (geodesic on a geographic CRS, Euclidean otherwise) times the
    CRS factor, divided by the factor of the requested unit. *)
Theorem distance_values (self self' : Trajectory) (overwrite : bool)
  (name_ : string) (units : UNITS) (g : list cell) (i : nat) :
  strictly_increasing (index (df self)) ->
  df_geometry (df self) = Ok g ->
  List.length g = len (df self) ->
  geometry_name (df self) <> "prev_pt" ->
  "prev_pt" <> name_ ->
  (S i < len (df self))%nat ->
  isinstance_Point (nth i g VNone) = true ->
  isinstance_Point (nth (S i) g VNone) = true ->
  cell_eqb (nth i g VNone) (nth (S i) g VNone) = false ->
  add_distance overwrite name_ units self = (Ok tt, self') ->
  exists conversion dist,
    get_conversion units (crs_units self) = Ok conversion /\
    py_truediv
      (fmul ((if is_latlon self then measure_distance_geodesic
              else measure_distance_euclidean)
               (nth i g VNone) (nth (S i) g VNone))
            (conv_crs conversion))
      (conv_distance conversion) = Ok dist /\
    df_cell name_ (S i) (df self') = Some (VFloat dist).
Proof.
  intros Hinc Hgeom Hlen Gpp Hpp Hi P0 P1 Hne Hcall.
  unfold df_geometry in Hgeom.
  destruct (assoc (geometry_name (df self)) (columns (df self)))
    as [g' |] eqn:Hg; [| discriminate].
  injection Hgeom as ->.
  apply add_distance_ok in Hcall as (_ & conversion & d' & Hconv & Hd & ->).
  destruct (get_df_with_distance_frame _ _ _ _ Hd)
    as (temp & vals & Htemp & Hvals & _ & _ & Hcols).
  destruct (with_prev_pt_index _ _ Htemp) as [Hidx _].
  assert (Hi' : (S i < len temp)%nat) by (unfold len; rewrite Hidx; exact Hi).
  pose proof (df_apply_nth _ _ _ _ Hvals Hi') as Hrow.
  destruct (distance_scratch_row self g temp (S i) Hg Gpp Htemp) as [R0 R1].
  rewrite nth_shift in R0 by lia.
  apply as_cell_Ok in Hrow as (x & Hx & Ex).
  rewrite (compute_distance_regular self _ conversion _ _ R0 R1 P0 P1 Hne)
    in Hx.
  exists conversion, x. split; [exact Hconv |]. split; [exact Hx |].
  cbn [df set_df].
  rewrite (df_cell_columns name_ (S i) d'
             (written (get_start_time self) (VFloat zero)
                      (index (df self)) vals)).
  - rewrite later_written; try assumption.
    + rewrite Ex. reflexivity.
    + rewrite (df_apply_length _ _ _ Hvals). unfold len. rewrite Hidx.
      reflexivity.
  - rewrite Hcols, assoc_col_drop_other by assumption.
    apply assoc_col_set_same.
Qed.

(** X3. The speed of a step between two different points is the distance of the
    step divided by the seconds between the two samples, counted in whole
    microseconds as the step's own [Timedelta.total_seconds()] does, times
    the time factor. *)
Theorem speed_values (self self' : Trajectory) (overwrite : bool)
  (name_ : string) (units : UNITS) (g : list cell) (i : nat) :
  strictly_increasing (index (df self)) ->
  df_geometry (df self) = Ok g ->
  List.length g = len (df self) ->
  geometry_name (df self) <> "prev_pt" ->
  geometry_name (df self) <> "delta_t" ->
  "prev_pt" <> name_ -> "delta_t" <> name_ ->
  (S i < len (df self))%nat ->
  isinstance_Point (nth i g VNone) = true ->
  isinstance_Point (nth (S i) g VNone) = true ->
  cell_eqb (nth i g VNone) (nth (S i) g VNone) = false ->
  add_speed overwrite name_ units self = (Ok tt, self') ->
  exists conversion dist quotient,
    get_conversion units (crs_units self) = Ok conversion /\
    py_truediv
      (fmul ((if is_latlon self then measure_distance_geodesic
              else measure_distance_euclidean)
               (nth i g VNone) (nth (S i) g VNone))
            (conv_crs conversion))
      (conv_distance conversion) = Ok dist /\
    py_truediv dist
      (timedelta_total_seconds (nth (S i) (index (df self)) 0
                                - nth i (index (df self)) 0)) = Ok quotient /\
    df_cell name_ (S i) (df self') =
      Some (VFloat (fmul quotient (conv_time conversion))).
Proof.
  intros Hinc Hgeom Hlen Gpp Gdt Hpp Hdt Hi P0 P1 Hne Hcall.
  unfold df_geometry in Hgeom.
  destruct (assoc (geometry_name (df self)) (columns (df self)))
    as [g' |] eqn:Hg; [| discriminate].
  injection Hgeom as ->.
  apply add_speed_ok in Hcall as (_ & conversion & d' & Hconv & Hd & ->).
  destruct (speed_column _ _ _ _ Hpp Hdt Hd)
    as (temp & vals & Htemp & Hvals & Hvlen & _ & _ & Hcol).
  destruct (with_prev_pt_index _ _ Htemp) as [Hidx _].
  assert (Hi' : (S i < len temp)%nat) by (unfold len; rewrite Hidx; exact Hi).
  pose proof (df_apply_nth _ _ _ _ Hvals Hi') as Hrow.
  destruct (speed_scratch_row self g temp (S i) Hg Gpp Gdt Htemp)
    as (R0 & R1 & R2).
  rewrite nth_shift in R0 by lia.
  rewrite nth_index_diff in R2 by exact Hi.
  apply as_cell_Ok in Hrow as (x & Hx & Ex).
  rewrite (compute_speed_regular self _ conversion _ _ _ R0 R1 R2 P0 P1 Hne)
    in Hx.
  apply bind_Ok in Hx as (dist & Hdist & Hx).
  apply bind_Ok in Hx as (quotient & Hq & Hx). injection Hx as <-.
  exists conversion, dist, quotient.
  split; [exact Hconv |]. split; [exact Hdist |]. split; [exact Hq |].
  cbn [df set_df]. rewrite (df_cell_columns name_ (S i) d' _ Hcol).
  rewrite later_written; try assumption.
  rewrite Ex. reflexivity.
Qed.

(* ================================================================== *)
(** ** Calls that raise *)

(** X4. [add_distance], [add_speed], [add_acceleration] and [add_timedelta]
    build the new frame aside and assign it last: when they raise, whatever
    the reason, the frame is the one from before the call. *)
Theorem failed_derivation_keeps_frame (self : Trajectory) (overwrite : bool)
  (name_ : string) (units : UNITS) :
  (is_ok (fst (add_distance overwrite name_ units self)) = false ->
   df (snd (add_distance overwrite name_ units self)) = df self) /\
  (is_ok (fst (add_speed overwrite name_ units self)) = false ->
   df (snd (add_speed overwrite name_ units self)) = df self) /\
  (is_ok (fst (add_acceleration overwrite name_ units self)) = false ->
   df (snd (add_acceleration overwrite name_ units self)) = df self) /\
  (is_ok (fst (add_timedelta overwrite name_ self)) = false ->
   df (snd (add_timedelta overwrite name_ self)) = df self).
Proof.
  unfold add_distance, add_speed, add_acceleration, add_timedelta.
  run_method. self_simpl.
  destruct (has_column name_ (df self) && negb overwrite); self_simpl.
  - repeat split; reflexivity.
  - destruct (get_conversion units (crs_units self)) as [conversion |];
      self_simpl; [| repeat split; try reflexivity; discriminate].
    split; [| split; [| split]].
    + match goal with
      | |- context [_get_df_with_distance ?s ?c ?n] =>
          destruct (_get_df_with_distance s c n)
      end; self_simpl; [discriminate | reflexivity].
    + match goal with
      | |- context [_get_df_with_speed ?s ?c ?n] =>
          destruct (_get_df_with_speed s c n)
      end; self_simpl; [discriminate | reflexivity].
    + match goal with
      | |- context [_get_df_with_acceleration ?s ?c ?n] =>
          destruct (_get_df_with_acceleration s c n)
      end; self_simpl; [discriminate | reflexivity].
    + discriminate.
Qed.

(* ================================================================== *)
(** ** Rows at times between the samples *)

Lemma filter_split {A : Type} (p : A -> bool) (a b : list A) :
  (forall x, In x a -> p x = true) ->
  (forall x, In x b -> p x = false) ->
  filter p (a ++ b) = a.
Proof.
  intros Ha Hb. rewrite filter_app, (filter_every p a Ha),
    (filter_none p b Hb). apply app_nil_r.
Qed.

Lemma firstn_below (l : list Timestamp) (i : nat) (x : Timestamp) :
  strictly_increasing l -> (i < List.length l)%nat ->
  In x (firstn (S i) l) -> x <= nth i l 0.
Proof.
  intros Hinc Hi Hx. apply (In_nth _ _ 0) in Hx as (j & Hj & <-).
  rewrite length_firstn in Hj. rewrite nth_firstn.
  destruct (j <? S i)%nat eqn:E; [| apply Nat.ltb_ge in E; lia].
  apply Nat.ltb_lt in E. destruct (Nat.eq_dec j i) as [-> | Hne]; [lia |].
  apply Z.lt_le_incl, strictly_increasing_nth; [exact Hinc | lia | lia].
Qed.

Lemma skipn_above (l : list Timestamp) (i : nat) (x : Timestamp) :
  strictly_increasing l -> (i < List.length l)%nat ->
  In x (skipn i l) -> nth i l 0 <= x.
Proof.
  intros Hinc Hi Hx. apply (In_nth _ _ 0) in Hx as (j & Hj & <-).
  rewrite length_skipn in Hj. rewrite nth_skipn.
  destruct j as [| j]; [rewrite Nat.add_0_r; lia |].
  apply Z.lt_le_incl, strictly_increasing_nth; [exact Hinc | lia | lia].
Qed.

Lemma searchsorted_between (l : list Timestamp) (i : nat) (t : Timestamp) :
  strictly_increasing l -> (S i < List.length l)%nat ->
  nth i l 0 < t < nth (S i) l 0 ->
  searchsorted_left t l = Z.of_nat (S i) /\
  searchsorted_right t l = Z.of_nat (S i).
Proof.
  intros Hinc Hi [Hlo Hhi]. unfold searchsorted_left, searchsorted_right.
  rewrite <- (firstn_skipn (S i) l) at 1 2.
  rewrite !filter_split.
  - rewrite length_firstn. split; f_equal; lia.
  - intros x Hx. apply Z.leb_le.
    apply (firstn_below l i x Hinc) in Hx; lia.
  - intros x Hx. apply Z.leb_gt.
    apply (skipn_above l (S i) x Hinc) in Hx; lia.
  - intros x Hx. apply Z.ltb_lt.
    apply (firstn_below l i x Hinc) in Hx; lia.
  - intros x Hx. apply Z.ltb_ge.
    apply (skipn_above l (S i) x Hinc) in Hx; lia.
Qed.

Lemma between_not_sample (l : list Timestamp) (i : nat) (t : Timestamp) :
  strictly_increasing l -> (S i < List.length l)%nat ->
  nth i l 0 < t < nth (S i) l 0 -> ~ In t l.
Proof.
  intros Hinc Hi Ht Hin. rewrite <- (firstn_skipn (S i) l) in Hin.
  apply in_app_or in Hin as [Hin | Hin].
  - apply (firstn_below l i t Hinc) in Hin; lia.
  - apply (skipn_above l (S i) t Hinc) in Hin; lia.
Qed.

Lemma df_iloc_inside (d : DataFrame) (i : nat) :
  (i < len d)%nat -> df_iloc (Z.of_nat i) d = Ok (df_row d i).
Proof.
  intros Hi. unfold df_iloc.
  destruct (0 <=? Z.of_nat i) eqn:E0; [| apply Z.leb_gt in E0; lia].
  destruct (Z.of_nat i <? Z.of_nat (len d)) eqn:E1;
    [| apply Z.ltb_ge in E1; lia].
  cbn [andb]. rewrite Nat2Z.id. reflexivity.
Qed.

Lemma df_iloc_last (d : DataFrame) :
  (1 <= len d)%nat -> df_iloc (-1) d = Ok (df_row d (len d - 1)).
Proof.
  intros Hlen. unfold df_iloc. cbn [Z.leb Z.compare andb Z.ltb].
  destruct (0 <=? Z.of_nat (len d) + -1) eqn:E; [| apply Z.leb_gt in E; lia].
  do 2 f_equal. lia.
Qed.

Lemma get_row_at_fill (self : Trajectory) (t : Timestamp) (i : nat) :
  strictly_increasing (index (df self)) ->
  (S i < size self)%nat ->
  nth i (index (df self)) 0 < t < nth (S i) (index (df self)) 0 ->
  get_row_at self t "ffill" = Ok (LSeries (df_row (df self) i)) /\
  get_row_at self t "bfill" = Ok (LSeries (df_row (df self) (S i))).
Proof.
  intros Hinc Hi Ht. unfold size in Hi.
  pose proof (between_not_sample _ _ _ Hinc Hi Ht) as Hout.
  destruct (searchsorted_between _ _ _ Hinc Hi Ht) as [Hl Hr].
  rewrite !get_row_at_missing by assumption.
  rewrite ?get_indexer_ffill, ?get_indexer_bfill, ?get_indexer_nearest.
  cbn [bind].
  unfold pad_indexer, backfill_indexer. rewrite Hl, Hr.
  destruct (Z.of_nat (S i) =? Z.of_nat (List.length (index (df self))))
    eqn:E; [apply Z.eqb_eq in E; lia |].
  replace (Z.of_nat (S i) - 1) with (Z.of_nat i) by lia.
  rewrite !df_iloc_inside by (unfold len; lia). split; reflexivity.
Qed.

(** X5. Between two consecutive samples ["ffill"] hands back the sample before,
    ["bfill"] the sample after, and ["nearest"] the one closer in time, the
    later one when both are as far. *)
Theorem get_row_at_between (self : Trajectory) (t : Timestamp) (i : nat) :
  strictly_increasing (index (df self)) ->
  (S i < size self)%nat ->
  nth i (index (df self)) 0 < t < nth (S i) (index (df self)) 0 ->
  get_row_at self t "ffill" = Ok (LSeries (df_row (df self) i)) /\
  get_row_at self t "bfill" = Ok (LSeries (df_row (df self) (S i))) /\
  get_row_at self t "nearest" =
    Ok (LSeries (df_row (df self)
                   (if t - nth i (index (df self)) 0
                       <? nth (S i) (index (df self)) 0 - t
                    then i else S i))).
Proof.
  intros Hinc Hi Ht. unfold size in Hi.
  pose proof (between_not_sample _ _ _ Hinc Hi Ht) as Hout.
  destruct (searchsorted_between _ _ _ Hinc Hi Ht) as [Hl Hr].
  assert (Hpad : pad_indexer t (index (df self)) = Z.of_nat i)
    by (unfold pad_indexer; rewrite Hr; lia).
  assert (Hback : backfill_indexer t (index (df self)) = Z.of_nat (S i)).
  { unfold backfill_indexer. rewrite Hl.
    destruct (Z.of_nat (S i) =? Z.of_nat (List.length (index (df self))))
      eqn:E; [apply Z.eqb_eq in E; lia | reflexivity]. }
  rewrite !get_row_at_missing by assumption.
  rewrite ?get_indexer_ffill, ?get_indexer_bfill, ?get_indexer_nearest.
  cbn [bind].
  split; [| split].
  - rewrite Hpad, df_iloc_inside by (unfold len; lia). reflexivity.
  - rewrite Hback, df_iloc_inside by (unfold len; lia). reflexivity.
  - unfold nearest_indexer. rewrite Hpad, Hback. unfold values_at.
    destruct (Z.of_nat i <? 0) eqn:E0; [apply Z.ltb_lt in E0; lia |].
    destruct (Z.of_nat (S i) <? 0) eqn:E1; [apply Z.ltb_lt in E1; lia |].
    rewrite !Nat2Z.id.
    destruct (Z.of_nat (S i) =? -1) eqn:E2; [apply Z.eqb_eq in E2; lia |].
    rewrite Bool.orb_false_r.
    replace (Z.abs (t - nth i (index (df self)) 0))
      with (t - nth i (index (df self)) 0) by lia.
    replace (Z.abs (t - nth (S i) (index (df self)) 0))
      with (nth (S i) (index (df self)) 0 - t) by lia.
    destruct (t - nth i (index (df self)) 0
              <? nth (S i) (index (df self)) 0 - t);
      rewrite df_iloc_inside by (unfold len; lia); reflexivity.
Qed.

Lemma fold_max_In (a : Timestamp) (m : list Timestamp) :
  fold_right Z.max a m = a \/ In (fold_right Z.max a m) m.
Proof.
  induction m as [| x m IH]; cbn [fold_right]; [left; reflexivity |].
  destruct (Z.max_spec x (fold_right Z.max a m)) as [[_ E] | [_ E]];
    rewrite E.
  - destruct IH as [H | H]; [left; exact H | right; right; exact H].
  - right; left; reflexivity.
Qed.

Lemma index_max_In (l : list Timestamp) : l <> [] -> In (index_max l) l.
Proof.
  destruct l as [| h l']; [congruence |]. intros _. unfold index_max.
  cbn [hd]. destruct (fold_max_In h (h :: l')) as [E | H];
    [rewrite E; left; reflexivity | exact H].
Qed.

Lemma fold_min_In (a : Timestamp) (m : list Timestamp) :
  fold_right Z.min a m = a \/ In (fold_right Z.min a m) m.
Proof.
  induction m as [| x m IH]; cbn [fold_right]; [left; reflexivity |].
  destruct (Z.min_spec x (fold_right Z.min a m)) as [[_ E] | [_ E]];
    rewrite E.
  - right; left; reflexivity.
  - destruct IH as [H | H]; [left; exact H | right; right; exact H].
Qed.

Lemma index_min_In (l : list Timestamp) : l <> [] -> In (index_min l) l.
Proof.
  destruct l as [| h l']; [congruence |]. intros _. unfold index_min.
  cbn [hd]. destruct (fold_min_In h (h :: l')) as [E | H];
    [rewrite E; left; reflexivity | exact H].
Qed.

(** The start time labels a row exactly when the first timestamp has no
    digits below the microsecond. *)
Lemma start_labels_row_iff (self : Trajectory) :
  index (df self) <> [] ->
  In (get_start_time self) (index (df self)) <->
  index_min (index (df self)) mod 1000 = 0.
Proof.
  intros Hne. rewrite <- to_pydatetime_whole. split.
  - intros Hin. exact (start_is_min self Hin).
  - intros E. unfold get_start_time. rewrite E.
    apply index_min_In. exact Hne.
Qed.

Lemma increasing_max (l : list Timestamp) :
  strictly_increasing l -> l <> [] ->
  index_max l = nth (List.length l - 1) l 0.
Proof.
  intros Hinc Hne. apply Z.le_antisymm.
  - pose proof (index_max_In l Hne) as Hin.
    apply (In_nth _ _ 0) in Hin as (j & Hj & <-).
    destruct (Nat.eq_dec j (List.length l - 1)) as [-> | Hd];
      [apply Z.le_refl |].
    apply Z.lt_le_incl, strictly_increasing_nth;
      [exact Hinc | unfold Timestamp in *; lia | unfold Timestamp in *; lia].
  - apply index_max_ge, nth_In. destruct l; [congruence | cbn; lia].
Qed.

(** X6. A time outside the trajectory is not refused by [get_row_at]. Before
    the first sample ["bfill"] hands back the first row and ["ffill"], whose
    position is -1, the last one; after the last sample both hand back the
    last row. *)
Theorem get_row_at_outside (self : Trajectory) (t : Timestamp) :
  strictly_increasing (index (df self)) ->
  (1 <= size self)%nat ->
  (t < index_min (index (df self)) ->
     get_row_at self t "bfill" = Ok (LSeries (df_row (df self) 0)) /\
     get_row_at self t "ffill" =
       Ok (LSeries (df_row (df self) (size self - 1)))) /\
  (index_max (index (df self)) < t ->
     get_row_at self t "bfill" =
       Ok (LSeries (df_row (df self) (size self - 1))) /\
     get_row_at self t "ffill" =
       Ok (LSeries (df_row (df self) (size self - 1)))).
Proof.
  intros Hinc Hsize. unfold size in *.
  split; intros Ht.
  - assert (Hout : ~ In t (index (df self)))
      by (intros Hin; apply index_min_le in Hin; lia).
    assert (Hnone : forall p : Timestamp -> bool,
               (forall x, index_min (index (df self)) <= x -> p x = false) ->
               filter p (index (df self)) = []).
    { intros p Hp. apply filter_none. intros x Hx. apply Hp, index_min_le, Hx. }
    rewrite !get_row_at_missing by assumption.
    rewrite ?get_indexer_ffill, ?get_indexer_bfill, ?get_indexer_nearest.
    cbn [bind].
    unfold backfill_indexer, pad_indexer, searchsorted_left,
      searchsorted_right.
    rewrite !Hnone by (intros; first [apply Z.ltb_ge | apply Z.leb_gt]; lia).
    cbn [List.length Z.of_nat Z.sub Z.opp Z.add].
    destruct (0 =? Z.of_nat (List.length (index (df self)))) eqn:E;
      [apply Z.eqb_eq in E; lia |].
    split.
    + assert (H0 : df_iloc 0 (df self) = Ok (df_row (df self) 0))
        by (apply (df_iloc_inside (df self) 0); unfold len; lia).
      rewrite H0. reflexivity.
    + rewrite df_iloc_last by (unfold len; lia). reflexivity.
  - assert (Hout : ~ In t (index (df self)))
      by (intros Hin; apply index_max_ge in Hin; lia).
    assert (Hall : forall p : Timestamp -> bool,
               (forall x, x <= index_max (index (df self)) -> p x = true) ->
               filter p (index (df self)) = index (df self)).
    { intros p Hp. apply filter_every. intros x Hx.
      apply Hp, index_max_ge, Hx. }
    rewrite !get_row_at_missing by assumption.
    rewrite ?get_indexer_ffill, ?get_indexer_bfill, ?get_indexer_nearest.
    cbn [bind].
    unfold backfill_indexer, pad_indexer, searchsorted_left,
      searchsorted_right.
    rewrite !Hall by (intros; first [apply Z.ltb_lt | apply Z.leb_le]; lia).
    rewrite Z.eqb_refl.
    split.
    + rewrite df_iloc_last by (unfold len; lia). reflexivity.
    + match goal with
      | |- context [df_iloc ?z _] =>
          replace z with (Z.of_nat (List.length (index (df self)) - 1))
            by (unfold Timestamp in *; lia)
      end.
      rewrite df_iloc_inside by (unfold len; lia). reflexivity.
Qed.

(** X7. The [method] argument is not read when a row carries the timestamp:
    at a sample every method string, known or not, hands back that sample's
    row. *)
Theorem get_row_at_method (self : Trajectory) (method_ : string) (i : nat) :
  strictly_increasing (index (df self)) ->
  (i < size self)%nat ->
  get_row_at self (nth i (index (df self)) 0) method_ =
    Ok (LSeries (df_row (df self) i)).
Proof.
  intros Hinc Hi. apply get_row_at_present; assumption.
Qed.

(* ================================================================== *)
(** ** Positions between the samples and at the ends *)

Lemma nth_above_start (self : Trajectory) (i : nat) :
  (i < size self)%nat ->
  get_start_time self <= nth i (index (df self)) 0.
Proof.
  intros Hi. unfold get_start_time.
  pose proof (to_pydatetime_le (index_min (index (df self)))) as Hle.
  pose proof (index_min_le (index (df self)) (nth i (index (df self)) 0)
                (nth_In _ _ Hi)).
  lia.
Qed.

Lemma in_range (self : Trajectory) (t : Timestamp) :
  get_start_time self <= t <= get_end_time self ->
  (t <? get_start_time self) || (t >? get_end_time self) = false.
Proof.
  intros [Hlo Hhi].
  destruct (t <? get_start_time self) eqn:E; [apply Z.ltb_lt in E; lia |].
  rewrite Z.gtb_ltb.
  destruct (get_end_time self <? t) eqn:E'; [apply Z.ltb_lt in E'; lia |].
  reflexivity.
Qed.

Lemma truediv_durations (a b : Z) :
  b <> 0 ->
  py_truediv (Fin (inject_Z a)) (Fin (inject_Z b)) =
  Ok (Fin (inject_Z a / inject_Z b)).
Proof.
  intros Hb. unfold py_truediv, fis_zero, fdiv, q_is_zero. cbn [Qnum inject_Z].
  destruct (b =? 0) eqn:E; [apply Z.eqb_eq in E; contradiction | reflexivity].
Qed.

(** X8. Strictly between two consecutive samples whose positions are points a
    non-zero distance apart, the interpolated position lies on the line from
    the earlier to the later position, at the elapsed fraction of the step's
    time times the length of the line; ["ffill"] and ["bfill"] give the
    earlier and the later position themselves. The time must not lie after
    the end time, which has lost the digits below the microsecond of the
    last timestamp. *)
Theorem get_position_at_between (self : Trajectory) (t : Timestamp) (i : nat)
  (g : list cell) :
  strictly_increasing (index (df self)) ->
  (S i < size self)%nat ->
  nth i (index (df self)) 0 < t < nth (S i) (index (df self)) 0 ->
  t <= get_end_time self ->
  df_geometry (df self) = Ok g ->
  get_position_at self t "ffill" = Ok (nth i g VNone) /\
  get_position_at self t "bfill" = Ok (nth (S i) g VNone) /\
  (isinstance_Point (nth i g VNone) = true ->
   isinstance_Point (nth (S i) g VNone) = true ->
   feqb (linestring_length (nth i g VNone) (nth (S i) g VNone)) zero = false ->
   get_position_at self t "interpolated" =
     Ok (linestring_interpolate (nth i g VNone) (nth (S i) g VNone)
           (fmul (Fin (inject_Z (t - nth i (index (df self)) 0)
                       / inject_Z (nth (S i) (index (df self)) 0
                                   - nth i (index (df self)) 0)))
                 (linestring_length (nth i g VNone) (nth (S i) g VNone))))).
Proof.
  intros Hinc Hi Ht Hend Hgeom.
  destruct (get_row_at_fill self t i Hinc Hi Ht) as (Hf & Hb).
  assert (Hrange : (t <? get_start_time self) || (t >? get_end_time self)
                   = false).
  { apply in_range.
    pose proof (nth_above_start self i ltac:(lia)) as H0.
    unfold Timestamp in *. lia. }
  unfold df_geometry in Hgeom.
  destruct (assoc (geometry_name (df self)) (columns (df self)))
    as [g' |] eqn:Hg; [| discriminate].
  injection Hgeom as ->.
  assert (Hcell : forall j,
             row_get (get_geom_column_name self) (df_row (df self) j)
             = Ok (nth j g VNone)).
  { intros j. rewrite row_get_df_row. unfold get_geom_column_name.
    rewrite Hg. reflexivity. }
  unfold get_position_at. rewrite Hrange.
  cbn [existsb String.eqb Ascii.eqb Bool.eqb orb andb negb].
  split; [| split].
  - rewrite Hf. cbn [bind loc_getitem]. apply Hcell.
  - rewrite Hb. cbn [bind loc_getitem]. apply Hcell.
  - intros Pp Pq Hlen. unfold interpolate_position_at.
    rewrite Hf, Hb. cbn [bind loc_name loc_getitem]. rewrite !Hcell.
    cbn [bind]. unfold LineString. rewrite Pp, Pq. cbn [andb bind fst snd].
    rewrite Hlen, Bool.orb_false_r. cbn [df_row name].
    destruct (nth (S i) (index (df self)) 0 - nth i (index (df self)) 0 =? 0)
      eqn:E; [apply Z.eqb_eq in E; lia |].
    rewrite truediv_durations by lia. reflexivity.
Qed.

Lemma aligned_column (d : DataFrame) (k : string) (col : list cell) :
  aligned d -> assoc k (columns d) = Some col -> List.length col = len d.
Proof.
  unfold aligned. generalize (len d) as n. intros n Hal.
  induction Hal as [| [k' c] cs Hc _ IH]; cbn [assoc]; [discriminate |].
  destruct (String.eqb k' k); [| exact IH].
  intros H; injection H as <-. exact Hc.
Qed.

Lemma series_iloc_first (col : list cell) :
  (1 <= List.length col)%nat -> series_iloc 0 col = Ok (nth 0 col VNone).
Proof.
  intros Hlen. unfold series_iloc. cbn [Z.leb Z.compare andb].
  destruct (0 <? Z.of_nat (List.length col)) eqn:E;
    [reflexivity | apply Z.ltb_ge in E; lia].
Qed.

Lemma series_iloc_last (col : list cell) :
  (1 <= List.length col)%nat ->
  series_iloc (-1) col = Ok (nth (List.length col - 1) col VNone).
Proof.
  intros Hlen. unfold series_iloc. cbn [Z.leb Z.compare andb Z.ltb].
  destruct (0 <=? Z.of_nat (List.length col) + -1) eqn:E;
    [| apply Z.leb_gt in E; lia].
  do 2 f_equal. lia.
Qed.

(** X9. On a trajectory with its samples in time order whose first and last
    timestamps have no digits below the microsecond, so that the start and
    the end time are those timestamps, the position at the start time is
    the start location and the position at the end time is the end
    location, whichever of the row-based methods is asked for. *)
Theorem endpoint_positions (self : Trajectory) (method_ : string) :
  strictly_increasing (index (df self)) ->
  aligned (df self) ->
  (1 <= size self)%nat ->
  get_start_time self = index_min (index (df self)) ->
  get_end_time self = index_max (index (df self)) ->
  has_column (get_geom_column_name self) (df self) = true ->
  In method_ ["nearest"; "ffill"; "bfill"] ->
  get_position_at self (get_start_time self) method_ =
    get_start_location self /\
  get_position_at self (get_end_time self) method_ = get_end_location self.
Proof.
  intros Hinc Hal Hsize Hwhole0 Hwhole1 Hgeom Hm. unfold size in Hsize.
  unfold has_column, get_geom_column_name in Hgeom.
  destruct (assoc (geometry_name (df self)) (columns (df self)))
    as [g |] eqn:Hg; [| discriminate].
  pose proof (aligned_column _ _ _ Hal Hg) as Hlen. unfold len in Hlen.
  assert (Hne : index (df self) <> [])
    by (intros E; rewrite E in Hsize; cbn in Hsize; lia).
  assert (Hstart : get_start_time self = nth 0 (index (df self)) 0).
  { rewrite Hwhole0. destruct (index (df self)) as [| t0 rest];
      [congruence |]. apply increasing_min. exact Hinc. }
  assert (Hend : get_end_time self
                 = nth (size self - 1) (index (df self)) 0)
    by (rewrite Hwhole1; apply increasing_max; assumption).
  assert (Hmeth : negb (existsb (String.eqb method_)
                          ["nearest"; "interpolated"; "ffill"; "bfill"])
                  = false /\ String.eqb method_ "interpolated" = false).
  { cbn in Hm. destruct Hm as [<- | [<- | [<- | []]]]; split; reflexivity. }
  destruct Hmeth as [Hknown Hrow].
  unfold get_position_at, get_start_location, get_end_location, df_geometry.
  rewrite Hg, Hknown, Hrow. cbn [bind].
  rewrite !in_range.
  - rewrite Hstart at 1. rewrite Hend at 1.
    rewrite !get_row_at_present by (try exact Hinc; unfold size; lia).
    cbn [bind loc_getitem]. rewrite !row_get_df_row.
    unfold get_geom_column_name. rewrite Hg.
    rewrite series_iloc_first, series_iloc_last by lia.
    unfold size. rewrite Hlen. split; reflexivity.
  - pose proof (nth_above_start self (size self - 1)) as H.
    rewrite <- Hend in H. unfold size in H. specialize (H ltac:(lia)). lia.
  - pose proof (nth_above_start self (size self - 1)) as H.
    rewrite <- Hend in H. unfold size in H. specialize (H ltac:(lia)). lia.
Qed.

(* ================================================================== *)
(** ** What the constructor keeps of its input *)

Lemma dedup_keeps (l seen : list Timestamp) (x : Timestamp) :
  In x l -> ~ In x seen ->
  In x (select (map negb (duplicated_first seen l)) l).
Proof.
  revert seen; induction l as [| h l IH]; intros seen Hx Hseen; [destruct Hx |].
  cbn [duplicated_first map select].
  destruct (existsb (Z.eqb h) seen) eqn:E; cbn [negb].
  - apply existsb_eqb_In in E. destruct Hx as [-> | Hx]; [contradiction |].
    apply IH; [exact Hx |]. intros [-> | H]; contradiction.
  - destruct (Z.eq_dec h x) as [-> | Hne]; [left; reflexivity |].
    right. destruct Hx as [-> | Hx]; [contradiction |].
    apply IH; [exact Hx |]. intros [-> | H]; contradiction.
Qed.

Lemma sort_index_timestamps (d : DataFrame) :
  Permutation (index (sort_index d)) (index d).
Proof using Type argsort_perm.
  unfold sort_index. cbn [index df_take].
  rewrite <- (map_nth_seq (index d) 0) at 2.
  apply Permutation_map, argsort_perm.
Qed.

Lemma Trajectory_init_timestamps (d : DataFrame) (id_ : string)
  (obj_id_ : option string) (parent_ : option Trajectory) (self : Trajectory)
  (t : Timestamp) :
  Trajectory_init d id_ obj_id_ parent_ = Ok self ->
  In t (index (df self)) <-> In t (index d).
Proof using Type argsort_perm.
  intros H. apply Trajectory_init_df in H as (_ & -> & _).
  cbn [index df_mask]. split; intros Hin.
  - apply select_In in Hin.
    eapply Permutation_in; [apply sort_index_timestamps | exact Hin].
  - apply dedup_keeps; [| intros []].
    eapply Permutation_in;
      [apply Permutation_sym, sort_index_timestamps | exact Hin].
Qed.

Lemma two_timestamps (l : list Timestamp) (t t' : Timestamp) :
  In t l -> In t' l -> t <> t' -> (2 <= List.length l)%nat.
Proof.
  destruct l as [| a [| b l]]; cbn [List.length In]; intros H H' Hne;
    [destruct H | | lia].
  destruct H as [<- | []]. destruct H' as [<- | []]. contradiction.
Qed.

Lemma df_take_aligned (indexer : list nat) (d : DataFrame) :
  aligned (df_take indexer d).
Proof.
  unfold aligned, len. cbn [index columns df_take]. apply Forall_forall.
  intros c Hc. apply in_map_iff in Hc as (c' & <- & _). cbn [snd].
  rewrite !length_map. reflexivity.
Qed.

(** X10. The constructor neither invents nor loses a timestamp: the trajectory
    holds exactly the timestamps of the input. It is valid exactly when the
    input has two timestamps that still differ once their digits below the
    microsecond are dropped, so an input whose rows all carry one timestamp
    is accepted and yields an invalid trajectory of one sample.
    Every column of the new frame is as long as its index. *)
Theorem constructor_timestamps (d : DataFrame) (id_ : string)
  (obj_id_ : option string) (parent_ : option Trajectory) (self : Trajectory) :
  Trajectory_init d id_ obj_id_ parent_ = Ok self ->
  (forall t, In t (index (df self)) <-> In t (index d)) /\
  (is_valid self = true <->
   exists t t', In t (index d) /\ In t' (index d) /\
                to_pydatetime t <> to_pydatetime t') /\
  aligned (df self).
Proof using Type argsort_perm argsort_sorted.
  intros H.
  pose proof (Trajectory_init_increasing _ _ _ _ _ H) as Hinc.
  assert (Hts : forall t, In t (index (df self)) <-> In t (index d))
    by (intros t; apply (Trajectory_init_timestamps _ _ _ _ _ t H)).
  split; [exact Hts |]. split.
  - rewrite is_valid_true. unfold get_start_time, get_end_time. split.
    + intros [Hsize Hspan]. unfold size in Hsize.
      assert (Hne : index (df self) <> [])
        by (intros E; rewrite E in Hsize; cbn in Hsize; lia).
      exists (index_min (index (df self))), (index_max (index (df self))).
      split; [apply Hts, index_min_In, Hne |].
      split; [apply Hts, index_max_In, Hne |]. lia.
    + intros (t & t' & Ht & Ht' & Hne).
      apply Hts in Ht. apply Hts in Ht'.
      assert (Hne' : t <> t') by congruence.
      pose proof (two_timestamps _ _ _ Ht Ht' Hne') as Hsize.
      split; [exact Hsize |].
      pose proof (to_pydatetime_mono _ _ (index_min_le _ _ Ht)).
      pose proof (to_pydatetime_mono _ _ (index_min_le _ _ Ht')).
      pose proof (to_pydatetime_mono _ _ (index_max_ge _ _ Ht)).
      pose proof (to_pydatetime_mono _ _ (index_max_ge _ _ Ht')).
      lia.
  - apply Trajectory_init_df in H as (_ & -> & _).
    apply df_mask_aligned. unfold sort_index. apply df_take_aligned.
Qed.

(* ================================================================== *)
(** ** Columns as long as the index *)

Lemma col_set_lengths (n : nat) (k : string) (v : list cell)
  (cs : list (string * list cell)) :
  Forall (fun c => List.length (snd c) = n) cs -> List.length v = n ->
  Forall (fun c => List.length (snd c) = n) (col_set k v cs).
Proof.
  intros Hcs Hv. induction Hcs as [| [k' c] cs Hc Hcs IH]; cbn [col_set].
  - constructor; [exact Hv | constructor].
  - destruct (String.eqb k' k); constructor;
      first [exact Hv | exact Hc | exact IH | assumption].
Qed.

Lemma col_drop_lengths (n : nat) (k : string)
  (cs : list (string * list cell)) :
  Forall (fun c => List.length (snd c) = n) cs ->
  Forall (fun c => List.length (snd c) = n) (col_drop k cs).
Proof.
  intros Hcs. apply Forall_forall. intros c Hc.
  apply filter_In in Hc as [Hc _]. rewrite Forall_forall in Hcs. auto.
Qed.

Lemma same_index_aligned (d d' : DataFrame) :
  index d' = index d ->
  Forall (fun c => List.length (snd c) = len d) (columns d') -> aligned d'.
Proof. unfold aligned, len. intros ->. auto. Qed.

Lemma with_prev_pt_aligned (d temp : DataFrame) :
  aligned d -> with_prev_pt d = Ok temp ->
  Forall (fun c => List.length (snd c) = len d) (columns temp).
Proof.
  intros Hal H. apply with_prev_pt_inv in H as (g & Hg & ->).
  cbn [columns df_set with_columns]. apply col_set_lengths; [exact Hal |].
  rewrite shift_length. apply (aligned_column _ _ _ Hal Hg).
Qed.

Lemma timedelta_aligned (self : Trajectory) (name_ : string) :
  aligned (df self) -> aligned (_get_df_with_timedelta self name_).
Proof.
  intros Hal. apply (same_index_aligned (df self)); [reflexivity |].
  unfold _get_df_with_timedelta. cbn [columns df_set with_columns].
  apply col_set_lengths; [exact Hal | apply index_diff_length].
Qed.

Lemma with_label_lengths (t : Timestamp) (d : DataFrame) :
  Forall (fun c => List.length (snd c) = List.length (index d)) (columns d) ->
  Forall (fun c => List.length (snd c)
                   = List.length (labels_with t (index d)))
         (columns (with_label t d)).
Proof.
  intros Hal. unfold with_label, labels_with.
  destruct (existsb (Z.eqb t) (index d)); [exact Hal |].
  cbn [columns enlarge]. apply Forall_forall. intros c Hc.
  apply in_map_iff in Hc as (c' & <- & Hc'). cbn [snd].
  rewrite Forall_forall in Hal. rewrite !length_app, (Hal c' Hc').
  reflexivity.
Qed.

Lemma scratch_lengths (self : Trajectory) (d temp : DataFrame) :
  index d = index (df self) ->
  aligned d -> with_prev_pt d = Ok temp ->
  Forall (fun c => List.length (snd c)
                   = List.length (labels_with (get_start_time self)
                                    (index (df self))))
         (columns (with_label (get_start_time self) temp)).
Proof.
  intros Hidx Hal Htemp.
  pose proof (with_prev_pt_aligned _ _ Hal Htemp) as Hcols.
  destruct (with_prev_pt_index _ _ Htemp) as [Etemp _].
  rewrite <- Hidx, <- Etemp. apply with_label_lengths.
  unfold len in Hcols. rewrite Etemp. exact Hcols.
Qed.

Lemma distance_aligned (self : Trajectory) (conversion : Conversion)
  (name_ : string) (d' : DataFrame) :
  aligned (df self) ->
  _get_df_with_distance self conversion name_ = Ok d' -> aligned d'.
Proof.
  intros Hal H.
  apply get_df_with_distance_frame in H
    as (temp & vals & Htemp & Hvals & Hidx & _ & Hcols).
  unfold aligned, len. rewrite Hidx, Hcols.
  apply col_drop_lengths, col_set_lengths.
  - apply (scratch_lengths self (df self)); auto.
  - apply written_length. rewrite (df_apply_length _ _ _ Hvals). unfold len.
    f_equal. apply (with_prev_pt_index _ _ Htemp).
Qed.

Lemma speed_aligned (self : Trajectory) (conversion : Conversion)
  (name_ : string) (d' : DataFrame) :
  aligned (df self) ->
  _get_df_with_speed self conversion name_ = Ok d' -> aligned d'.
Proof.
  intros Hal H.
  apply get_df_with_speed_frame in H
    as (temp & vals & Htemp & Hvals & _ & Hidx & _ & Hcols).
  unfold aligned, len. rewrite Hidx, Hcols.
  apply col_drop_lengths, col_drop_lengths, col_set_lengths.
  - apply (scratch_lengths self (_get_df_with_timedelta self "delta_t"));
      [reflexivity | apply timedelta_aligned; exact Hal | exact Htemp].
  - apply written_length. rewrite (df_apply_length _ _ _ Hvals). unfold len.
    f_equal. apply (with_prev_pt_index _ _ Htemp).
Qed.

Lemma acceleration_aligned (self : Trajectory) (conversion : Conversion)
  (name_ : string) (d' : DataFrame) :
  aligned (df self) ->
  _get_df_with_acceleration self conversion name_ = Ok d' -> aligned d'.
Proof.
  intros Hal H.
  apply get_df_with_acceleration_frame in H
    as (ds & speed_temp & Hds & Hsp & Hidx & _ & Hcols).
  pose proof (speed_aligned _ _ _ _ Hal Hds) as Hal'.
  apply (same_index_aligned ds); [exact Hidx |]. rewrite Hcols.
  apply col_drop_lengths, col_set_lengths.
  - exact Hal'.
  - rewrite set_where_length. apply acceleration_series_length.
    apply (aligned_column _ _ _ Hal' Hsp).
Qed.

(** X11. A successful [add_distance], [add_speed], [add_acceleration],
    [add_timedelta] or [add_direction] leaves every column, the new one
    included, as long as the index. *)
Theorem derivations_keep_alignment (self : Trajectory) (overwrite : bool)
  (name_ : string) (units : UNITS) :
  aligned (df self) ->
  (forall self', add_distance overwrite name_ units self = (Ok tt, self') ->
     aligned (df self')) /\
  (forall self', add_speed overwrite name_ units self = (Ok tt, self') ->
     aligned (df self')) /\
  (forall self', add_acceleration overwrite name_ units self = (Ok tt, self') ->
     aligned (df self')) /\
  (forall self', add_timedelta overwrite name_ self = (Ok tt, self') ->
     aligned (df self')) /\
  (forall self', add_direction overwrite name_ self = (Ok tt, self') ->
     aligned (df self')).
Proof.
  intros Hal. split; [| split; [| split; [| split]]]; intros self' H.
  - apply add_distance_ok in H as (_ & conversion & d' & _ & Hd & ->).
    cbn [df set_df]. exact (distance_aligned _ _ _ _ Hal Hd).
  - apply add_speed_ok in H as (_ & conversion & d' & _ & Hd & ->).
    cbn [df set_df]. exact (speed_aligned _ _ _ _ Hal Hd).
  - apply add_acceleration_ok in H as (_ & conversion & d' & _ & Hd & ->).
    cbn [df set_df]. exact (acceleration_aligned _ _ _ _ Hal Hd).
  - apply add_timedelta_ok in H as (_ & ->).
    cbn [df set_df]. exact (timedelta_aligned _ _ Hal).
  - apply add_direction_frame in H
      as (_ & temp & vals & d' & Htemp & Hvals & _ & Hidx & _ & Hcols & ->).
    cbn [df set_df].
    unfold aligned, len. rewrite Hidx, Hcols.
    apply col_drop_lengths, col_set_lengths.
    + apply (scratch_lengths self (df self)); auto.
    + apply written_length. rewrite (df_apply_length _ _ _ Hvals). unfold len.
      f_equal. apply (with_prev_pt_index _ _ Htemp).
Qed.

(* ================================================================== *)
(** ** Segments, duration and copies *)

Lemma df_slice_timestamps (t1 t2 : Timestamp) (d : DataFrame) (t : Timestamp) :
  In t (index (df_slice t1 t2 d)) <-> In t (index d) /\ t1 <= t <= t2.
Proof.
  unfold df_slice. cbn [index df_mask].
  rewrite <- (map_id (index d)) at 1.
  rewrite (select_map_filter (fun t => (t1 <=? t) && (t <=? t2))
             (fun t => t)).
  rewrite filter_In. split; intros [Hin H]; (split; [exact Hin |]).
  - apply andb_prop in H as [H1 H2].
    apply Z.leb_le in H1. apply Z.leb_le in H2. lia.
  - apply andb_true_intro. split; apply Z.leb_le; lia.
Qed.

Lemma get_segment_between_inv (self segment : Trajectory)
  (t1 t2 : Timestamp) :
  get_segment_between self t1 t2 = Ok segment ->
  Trajectory_init (df_slice t1 t2 (df self)) (segment_id self t1) None
                  (Some self) = Ok segment /\
  is_valid segment = true.
Proof.
  unfold get_segment_between. intros H.
  apply bind_Ok in H as (seg & Hinit & H).
  destruct (is_valid seg) eqn:Hv; cbn [negb] in H; [| discriminate H].
  injection H as <-. split; assumption.
Qed.

(** X12. A segment of a trajectory with its samples in time order holds
    exactly the timestamps of the trajectory that lie within [[t1, t2]],
    both ends included, so its first sample is no earlier than [t1], and
    its last sample and its end time are no later than [t2]. *)
Theorem segment_timestamps (self segment : Trajectory) (t1 t2 : Timestamp) :
  strictly_increasing (index (df self)) ->
  get_segment_between self t1 t2 = Ok segment ->
  (forall t, In t (index (df segment)) <->
             In t (index (df self)) /\ t1 <= t <= t2) /\
  t1 <= index_min (index (df segment)) /\
  index_max (index (df segment)) <= t2 /\
  get_end_time segment <= t2.
Proof using Type argsort_perm argsort_sorted.
  intros _ H. apply get_segment_between_inv in H as [Hinit Hvalid].
  assert (Hts : forall t, In t (index (df segment)) <->
                          In t (index (df self)) /\ t1 <= t <= t2).
  { intros t. rewrite (Trajectory_init_timestamps _ _ _ _ _ t Hinit).
    apply df_slice_timestamps. }
  split; [exact Hts |].
  apply is_valid_true in Hvalid as [Hsize _]. unfold size in Hsize.
  assert (Hne : index (df segment) <> [])
    by (intros E; rewrite E in Hsize; cbn in Hsize; lia).
  pose proof (index_min_In _ Hne) as Hmin. apply Hts in Hmin.
  pose proof (index_max_In _ Hne) as Hmax. apply Hts in Hmax.
  pose proof (to_pydatetime_le (index_max (index (df segment)))).
  unfold get_end_time. lia.
Qed.

Lemma mask_all_true (p : Timestamp -> bool) (l : list Timestamp) :
  (forall x, In x l -> p x = true) ->
  map p l = map negb (map (fun _ => false) l).
Proof.
  intros H. rewrite map_map. apply map_ext_in. intros x Hx.
  rewrite (H x Hx). reflexivity.
Qed.

(** X13. Asking a valid trajectory for the segment over a range that covers
    all its samples gives the trajectory's own frame back, under a new id
    made of the old id and [t1], and with the trajectory as parent. *)
Theorem segment_covering (self : Trajectory) (t1 t2 : Timestamp) :
  strictly_increasing (index (df self)) -> aligned (df self) ->
  is_valid self = true ->
  t1 <= index_min (index (df self)) -> index_max (index (df self)) <= t2 ->
  exists segment,
    get_segment_between self t1 t2 = Ok segment /\
    df segment = df self /\
    traj_id segment = segment_id self t1 /\
    parent segment = Some self.
Proof using Type argsort_perm argsort_sorted.
  intros Hinc Hal Hself Hlo Hhi.
  apply is_valid_true in Hself as [Hsize Hspan]. unfold size in Hsize.
  assert (Hslice : df_slice t1 t2 (df self) = df self).
  { unfold df_slice. rewrite (mask_all_true _ (index (df self))).
    - apply df_mask_all. exact Hal.
    - intros x Hx. apply andb_true_intro.
      pose proof (index_min_le _ _ Hx). pose proof (index_max_ge _ _ Hx).
      split; apply Z.leb_le; lia. }
  destruct (Trajectory_init_ordered (df self) (segment_id self t1) None
              (Some self) Hinc Hal Hsize)
    as (segment & Hinit & Hdf & Hparent & Hid).
  exists segment. unfold get_segment_between. rewrite Hslice, Hinit.
  cbn [bind].
  assert (Hvalid : is_valid segment = true).
  { apply is_valid_true. unfold size, get_start_time, get_end_time.
    rewrite Hdf. split; [exact Hsize | exact Hspan]. }
  rewrite Hvalid. cbn [negb]. repeat split; assumption.
Qed.

(** X14. A trajectory with at least one sample is valid exactly when its
    duration is positive. *)
Theorem valid_iff_positive_duration (self : Trajectory) :
  (1 <= size self)%nat ->
  is_valid self = true <-> 0 < get_duration self.
Proof.
  intros Hsize. rewrite is_valid_true. unfold get_duration.
  split; [intros [_ H]; lia |]. intros H. split; [| lia].
  unfold size, get_start_time, get_end_time, index_min, index_max in *.
  destruct (index (df self)) as [| a [| b l]]; cbn [List.length] in *;
    [lia | | lia].
  cbn [fold_right hd] in H. rewrite Z.max_id, Z.min_id in H. lia.
Qed.

Lemma Trajectory_init_attributes (d : DataFrame) (id_ : string)
  (obj_id_ : option string) (parent_ : option Trajectory) (self : Trajectory) :
  Trajectory_init d id_ obj_id_ parent_ = Ok self ->
  obj_id self = obj_id_ /\
  direction_col_name self = None /\
  angular_difference_col_name self = None /\
  distance_col_name self = None /\
  speed_col_name self = None /\
  acceleration_col_name self = None /\
  timedelta_col_name self = None.
Proof.
  unfold Trajectory_init. destruct (len d <? 2)%nat; [discriminate |].
  destruct (df_crs (sort_index d)); intros H; injection H as <-;
    repeat split.
Qed.

(** X15. [copy] builds a new trajectory from the frame, the id and the parent
    only. The copy of a time-ordered trajectory of two or more samples has
    the same frame, id and parent, but no object id and none of the column
    names recorded by the [add_*] methods, so its getters answer with the
    default names. A trajectory of fewer than two rows cannot be copied. *)
Theorem copy_keeps_frame_only (self : Trajectory) :
  (strictly_increasing (index (df self)) -> aligned (df self) ->
   (2 <= size self)%nat ->
   exists copied,
     copy self = Ok copied /\
     df copied = df self /\ traj_id copied = traj_id self /\
     parent copied = parent self /\
     obj_id copied = None /\
     get_speed_column_name copied = SPEED_COL_NAME /\
     get_distance_column_name copied = DISTANCE_COL_NAME /\
     get_direction_column_name copied = DIRECTION_COL_NAME /\
     get_angular_difference_column_name copied
       = ANGULAR_DIFFERENCE_COL_NAME /\
     get_timedelta_column_name copied = TIMEDELTA_COL_NAME) /\
  ((size self < 2)%nat ->
   copy self =
     Raise (ValueError "The input DataFrame must have at least two rows.")).
Proof using Type argsort_perm argsort_sorted.
  split.
  - intros Hinc Hal Hsize.
    destruct (Trajectory_init_ordered (df self) (traj_id self) None
                (parent self) Hinc Hal Hsize)
      as (copied & Hinit & Hdf & Hparent & Hid).
    exists copied. unfold copy. split; [exact Hinit |].
    apply Trajectory_init_attributes in Hinit
      as (Hobj & Hdir & Hang & Hdist & Hspeed & _ & Htime).
    unfold get_speed_column_name, get_distance_column_name,
      get_direction_column_name, get_angular_difference_column_name,
      get_timedelta_column_name.
    rewrite Hdir, Hang, Hdist, Hspeed, Htime. repeat split; assumption.
  - intros Hsize. unfold copy, Trajectory_init, size in *. unfold len.
    replace (List.length (index (df self)) <? 2)%nat with true
      by (symmetry; apply Nat.ltb_lt; exact Hsize).
    reflexivity.
Qed.

(* ================================================================== *)
(** ** Lines between two times *)

(** X16. What [get_linestring_between] raises. An unknown method is a
    ValueError. With ["within"], a RuntimeError from the extraction is raised
    again under the message of this method, but the ValueError the constructor
    raises for a slice of fewer than two rows passes through unchanged. With
    ["interpolated"], a [t1] before the start time or after the end time,
    as [get_start_time] and [get_end_time] give them, is the ValueError of
    [get_position_at]. *)
Theorem get_linestring_between_errors (self : Trajectory)
  (t1 t2 : Timestamp) :
  (forall method_, ~ In method_ ["interpolated"; "within"] ->
     get_linestring_between self t1 t2 method_ =
       Raise (ValueError (invalid_split_method_msg method_))) /\
  (forall msg,
     get_segment_between self t1 t2 = Raise (RuntimeError msg) ->
     get_linestring_between self t1 t2 "within" =
       Raise (RuntimeError (no_linestring_msg t1 t2))) /\
  ((len (df_slice t1 t2 (df self)) < 2)%nat ->
     get_linestring_between self t1 t2 "within" =
       Raise (ValueError "The input DataFrame must have at least two rows.")) /\
  (t1 < get_start_time self \/ get_end_time self < t1 ->
     get_linestring_between self t1 t2 "interpolated" =
       Raise (ValueError (out_of_range_msg self t1))).
Proof.
  split; [| split; [| split]].
  - intros method_ Hm. unfold get_linestring_between.
    cbn [existsb].
    destruct (String.eqb_spec method_ "interpolated") as [-> | _];
      [exfalso; apply Hm; cbn; auto |].
    destruct (String.eqb_spec method_ "within") as [-> | _];
      [exfalso; apply Hm; cbn; auto |].
    reflexivity.
  - intros msg H. unfold get_linestring_between.
    cbn [existsb String.eqb Ascii.eqb Bool.eqb orb negb].
    rewrite H. reflexivity.
  - intros Hlen. unfold get_linestring_between.
    cbn [existsb String.eqb Ascii.eqb Bool.eqb orb negb].
    unfold get_segment_between, Trajectory_init.
    replace (len (df_slice t1 t2 (df self)) <? 2)%nat with true
      by (symmetry; apply Nat.ltb_lt; exact Hlen).
    reflexivity.
  - intros Hout. unfold get_linestring_between.
    cbn [existsb String.eqb Ascii.eqb Bool.eqb orb negb].
    unfold get_position_at.
    replace ((t1 <? get_start_time self) || (t1 >? get_end_time self))
      with true; [reflexivity |].
    symmetry. apply Bool.orb_true_iff. rewrite Z.gtb_ltb.
    destruct Hout as [H | H]; [left | right]; apply Z.ltb_lt; exact H.
Qed.

(* ================================================================== *)
(** ** Text export of positions that are not points *)

Lemma wkt_triple_raises (c : cell) (t : Timestamp) :
  isinstance_Point c = false -> wkt_triple c t = Raise (AttributeError "x").
Proof. destruct c; cbn; intros H; first [discriminate H | reflexivity]. Qed.

Lemma wkt_triple_point (c : cell) (t : Timestamp) :
  isinstance_Point c = true -> is_ok (wkt_triple c t) = true.
Proof. destruct c; cbn; intros H; first [discriminate H | reflexivity]. Qed.

Lemma wkt_coords_raises (geom : string) (rows : list Series)
  (coords : string) :
  Forall (fun row => is_ok (row_get geom row) = true) rows ->
  Exists (fun row => exists c, row_get geom row = Ok c /\
                               isinstance_Point c = false) rows ->
  wkt_coords geom rows coords = Raise (AttributeError "x").
Proof.
  revert coords. induction rows as [| row rows IH]; intros coords Hall Hex;
    [inversion Hex |].
  apply Forall_cons_iff in Hall as [Hrow Hall]. cbn [wkt_coords].
  destruct (row_get geom row) as [c |] eqn:Hc; [| discriminate Hrow].
  cbn [bind]. destruct (isinstance_Point c) eqn:Pc.
  - pose proof (wkt_triple_point c (name row) Pc) as Hok.
    destruct (wkt_triple c (name row)) as [triple |]; [| discriminate Hok].
    cbn [bind]. apply IH; [exact Hall |].
    apply Exists_cons in Hex as [(c' & Hc' & Pc') | Hex]; [| exact Hex].
    congruence.
  - rewrite wkt_triple_raises by exact Pc. reflexivity.
Qed.

(** X17. The text export reads the coordinates of every position: when one
    position of the trajectory is not a point, the call raises an
    AttributeError instead of returning a text. *)
Theorem linestringm_wkt_needs_points (self : Trajectory) (g : list cell)
  (i : nat) :
  df_geometry (df self) = Ok g ->
  (i < size self)%nat ->
  isinstance_Point (nth i g VNone) = false ->
  to_linestringm_wkt self = Raise (AttributeError "x").
Proof.
  intros Hgeom Hi Pi. unfold df_geometry in Hgeom.
  destruct (assoc (geometry_name (df self)) (columns (df self)))
    as [g' |] eqn:Hg; [| discriminate].
  injection Hgeom as ->.
  assert (Hcell : forall j,
             row_get (get_geom_column_name self) (df_row (df self) j)
             = Ok (nth j g VNone)).
  { intros j. rewrite row_get_df_row. unfold get_geom_column_name.
    rewrite Hg. reflexivity. }
  unfold to_linestringm_wkt. rewrite wkt_coords_raises; [reflexivity | |].
  - apply Forall_forall. intros row Hrow. unfold df_rows in Hrow.
    apply in_map_iff in Hrow as (j & <- & _). rewrite Hcell. reflexivity.
  - apply Exists_exists. exists (df_row (df self) i). split.
    + unfold df_rows. apply in_map, in_seq. unfold size, len in *. lia.
    + exists (nth i g VNone). split; [apply Hcell | exact Pi].
Qed.

(* ================================================================== *)
(** ** A direction that cannot be computed *)

Lemma has_column_df_set_keeps (k k' : string) (vals : list cell)
  (d : DataFrame) :
  has_column k d = true -> has_column k (df_set k' vals d) = true.
Proof.
  intros H. destruct (String.eqb_spec k' k) as [-> | Hne];
    [apply has_column_df_set_same |].
  unfold has_column, df_set in *. cbn [columns with_columns].
  rewrite assoc_col_set_other by exact Hne. exact H.
Qed.

Lemma has_column_with_label (k : string) (t : Timestamp) (d : DataFrame) :
  has_column k (with_label t d) = has_column k d.
Proof.
  unfold with_label. destruct (existsb (Z.eqb t) (index d)); [reflexivity |].
  unfold has_column, enlarge. cbn [columns].
  induction (columns d) as [| [k' c] cs IH]; [reflexivity |].
  cbn [map assoc fst snd]. destruct (String.eqb k' k); [reflexivity | exact IH].
Qed.

(** X18. Unlike the other [add_*] methods, [add_direction] works on the frame of
    the trajectory itself: when it raises after the overwrite guard has let
    the call pass, the scratch column [prev_pt] is left in the frame. *)
Theorem add_direction_failure_leaves_prev_pt (self : Trajectory)
  (overwrite : bool) (name_ : string) :
  has_column name_ (df self) && negb overwrite = false ->
  has_column (get_geom_column_name self) (df self) = true ->
  is_ok (fst (add_direction overwrite name_ self)) = false ->
  has_column "prev_pt" (df (snd (add_direction overwrite name_ self))) = true.
Proof.
  intros Hguard Hgeom. unfold add_direction, _add_prev_pt. run_method.
  self_simpl. rewrite Hguard. self_simpl. rewrite orb_true_r. self_simpl.
  unfold has_column, get_geom_column_name in Hgeom.
  destruct (assoc (geometry_name (df self)) (columns (df self)))
    as [g |] eqn:Hg; [| discriminate].
  assert (Htemp : with_prev_pt (df self)
                  = Ok (df_set "prev_pt" (shift VNone g) (df self)))
    by (unfold with_prev_pt, df_geometry; rewrite Hg; reflexivity).
  rewrite Htemp. self_simpl.
  set (temp := df_set "prev_pt" (shift VNone g) (df self)).
  assert (Hpp : has_column "prev_pt" temp = true)
    by apply has_column_df_set_same.
  match goal with
  | |- context [df_apply ?f temp] =>
      destruct (df_apply f temp) as [vals |]; self_simpl;
      [| intros _; exact Hpp]
  end.
  assert (Hpp' : has_column "prev_pt" (df_set name_ vals temp) = true)
    by (apply has_column_df_set_keeps; exact Hpp).
  destruct (df_iloc 1 (df_set name_ vals temp)) as [second |];
    cbn [bind]; self_simpl; [| intros _; exact Hpp'].
  destruct (row_get name_ second) as [v |]; self_simpl;
    [| intros _; exact Hpp'].
  rewrite df_at_set_df_set.
  match goal with
  | |- context [df_drop ["prev_pt"] ?d] =>
      rewrite (df_drop_one "prev_pt" d)
        by (apply has_column_df_set_keeps;
            rewrite has_column_with_label; exact Hpp)
  end.
  self_simpl. intros H; discriminate H.
Qed.

(* ================================================================== *)
(** ** A trajectory of one sample *)

Lemma assoc_col_set_some {A : Type} (k k' : string) (v a : A)
  (l : list (string * A)) :
  assoc k l = Some a -> exists b, assoc k (col_set k' v l) = Some b.
Proof.
  intros H. destruct (String.eqb_spec k' k) as [-> | Hne].
  - exists v. apply assoc_col_set_same.
  - exists a. rewrite assoc_col_set_other by exact Hne. exact H.
Qed.

Lemma shift_head (g : list cell) : nth 0 (shift VNone g) VNone = VNone.
Proof. destruct g; reflexivity. Qed.

Lemma single_row (d : DataFrame) :
  len d = 1%nat -> df_rows d = [df_row d 0].
Proof. unfold df_rows. intros ->. reflexivity. Qed.

Lemma df_iloc_1_single (d : DataFrame) :
  len d = 1%nat -> df_iloc 1 d = Raise IndexError.
Proof. unfold df_iloc. intros ->. reflexivity. Qed.

(** The first row of a frame that went through [with_prev_pt] has no
    previous position, whatever else the frame holds. *)
Lemma first_row_prev_pt (d : DataFrame) (g : list cell) (geom : string)
  (c : list cell) :
  assoc geom (columns d) = Some c ->
  exists pt1,
    row_get "prev_pt" (df_row (df_set "prev_pt" (shift VNone g) d) 0)
      = Ok VNone /\
    row_get geom (df_row (df_set "prev_pt" (shift VNone g) d) 0) = Ok pt1.
Proof.
  intros Hc. rewrite !row_get_df_row. cbn [columns df_set with_columns].
  rewrite assoc_col_set_same, shift_head.
  destruct (assoc_col_set_some geom "prev_pt" (shift VNone g) c _ Hc)
    as [b ->].
  eexists. split; reflexivity.
Qed.

(** X19. A trajectory of one sample, which the constructor leaves when all rows
    of its input carry one timestamp: [add_distance] succeeds and writes 0,
    while [add_speed], [add_acceleration] and [add_direction], which read
    the second row, raise an IndexError. *)
Theorem single_sample_derivations (self : Trajectory) (overwrite : bool)
  (name_ : string) (units : UNITS) (conversion : Conversion) :
  size self = 1%nat ->
  has_column (get_geom_column_name self) (df self) = true ->
  has_column name_ (df self) && negb overwrite = false ->
  get_conversion units (crs_units self) = Ok conversion ->
  (exists self',
     add_distance overwrite name_ units self = (Ok tt, self') /\
     ("prev_pt" <> name_ ->
      df_cell name_ 0 (df self') = Some (VFloat zero))) /\
  fst (add_speed overwrite name_ units self) = Raise IndexError /\
  fst (add_acceleration overwrite name_ units self) = Raise IndexError /\
  fst (add_direction overwrite name_ self) = Raise IndexError.
Proof.
  intros Hsize Hgeom Hguard Hconv. unfold size in Hsize.
  unfold has_column, get_geom_column_name in Hgeom.
  destruct (assoc (geometry_name (df self)) (columns (df self)))
    as [g |] eqn:Hg; [| discriminate].
  assert (Hidx : exists t0, index (df self) = [t0]).
  { destruct (index (df self)) as [| t0 [| t1 l]]; try discriminate Hsize.
    exists t0. reflexivity. }
  destruct Hidx as [t0 Hidx].
  assert (Hprev : with_prev_pt (df self)
                  = Ok (df_set "prev_pt" (shift VNone g) (df self)))
    by (unfold with_prev_pt, df_geometry; rewrite Hg; reflexivity).
  assert (Hspeed : forall n,
             _get_df_with_speed self conversion n = Raise IndexError).
  { intros n. unfold _get_df_with_speed, with_prev_pt, df_geometry.
    cbn [geometry_name _get_df_with_timedelta df_set with_columns columns].
    destruct (assoc_col_set_some (geometry_name (df self)) "delta_t"
                (index_diff (index (df self))) g _ Hg) as [g' Hg'].
    rewrite Hg'. cbn [bind].
    match goal with
    | |- context [df_apply ?f ?temp] =>
        assert (Hvals : df_apply f temp = Ok [VFloat zero])
    end.
    { unfold df_apply. rewrite single_row by exact Hsize. cbn [mapM].
      unfold as_cell, _compute_speed, get_geom_column_name.
      match goal with
      | |- context [df_row (df_set "prev_pt" (shift VNone g') ?d) 0] =>
          destruct (first_row_prev_pt d g' (geometry_name (df self)) g' Hg')
            as (pt1 & -> & ->)
      end.
      reflexivity. }
    rewrite Hvals. cbn [bind].
    rewrite df_iloc_1_single by exact Hsize. reflexivity. }
  split; [| split; [| split]].
  - unfold add_distance. run_method. self_simpl. rewrite Hguard. self_simpl.
    rewrite Hconv. self_simpl.
    change (_get_df_with_distance (set_distance_col_name name_ self)
              conversion name_)
      with (_get_df_with_distance self conversion name_).
    assert (Hvals : df_apply
                      (as_cell (fun row =>
                                  _compute_distance self row conversion))
                      (df_set "prev_pt" (shift VNone g) (df self))
                    = Ok [VFloat zero]).
    { unfold df_apply. rewrite single_row by exact Hsize. cbn [mapM].
      unfold as_cell, _compute_distance, get_geom_column_name.
      destruct (first_row_prev_pt (df self) g (geometry_name (df self)) g Hg)
        as (pt1 & -> & ->).
      reflexivity. }
    unfold _get_df_with_distance. rewrite Hprev. cbn [bind].
    rewrite Hvals. cbn [bind]. rewrite df_at_set_df_set.
    rewrite df_drop_one
      by (apply has_column_df_set_keeps; rewrite has_column_with_label;
          apply has_column_df_set_same).
    self_simpl. eexists. split; [reflexivity |].
    intros Hname. cbn [df set_df]. unfold df_cell.
    cbn [columns with_columns df_set].
    rewrite assoc_col_drop_other, assoc_col_set_same by exact Hname.
    cbn [index df_set with_columns]. rewrite Hidx.
    unfold written, labels_with, padded. cbn [existsb orb].
    destruct (get_start_time self =? t0);
      cbn [orb app set_where nth_error];
      destruct (t0 =? get_start_time self); reflexivity.
  - unfold add_speed. run_method. self_simpl. rewrite Hguard. self_simpl.
    rewrite Hconv. self_simpl.
    change (_get_df_with_speed (set_speed_col_name name_ self)
              conversion name_)
      with (_get_df_with_speed self conversion name_).
    rewrite Hspeed. reflexivity.
  - unfold add_acceleration. run_method. self_simpl. rewrite Hguard.
    self_simpl. rewrite Hconv. self_simpl.
    change (_get_df_with_acceleration (set_acceleration_col_name name_ self)
              conversion name_)
      with (_get_df_with_acceleration self conversion name_).
    unfold _get_df_with_acceleration. rewrite Hspeed. reflexivity.
  - unfold add_direction, _add_prev_pt. run_method. self_simpl.
    rewrite Hguard. self_simpl. rewrite orb_true_r. self_simpl.
    rewrite Hprev. self_simpl.
    match goal with
    | |- context [df_apply ?f ?temp] =>
        assert (Hvals : df_apply f temp = Ok [VFloat zero])
    end.
    { unfold df_apply. rewrite single_row by exact Hsize. cbn [mapM].
      unfold as_cell, _compute_heading, get_geom_column_name.
      self_simpl. cbn [geometry_name df_set with_columns].
      destruct (first_row_prev_pt (df self) g (geometry_name (df self)) g Hg)
        as (pt1 & -> & ->).
      reflexivity. }
    rewrite Hvals. self_simpl.
    rewrite df_iloc_1_single by exact Hsize. reflexivity.
Qed.

(* ================================================================== *)
(** ** The recorded column names *)

Ltac split_outcomes :=
  repeat match goal with
         | |- context [match ?x with _ => _ end] =>
             lazymatch x with
             | context [match _ with _ => _ end] => fail
             | _ => destruct x
             end; cbn beta iota;
             cbn [fst snd df set_df bind negb andb orb
                  direction_col_name angular_difference_col_name
                  distance_col_name speed_col_name timedelta_col_name
                  set_distance_col_name set_speed_col_name
                  set_acceleration_col_name set_timedelta_col_name
                  set_direction_col_name set_angular_difference_col_name]
         end.

(** X20. Each [add_*] method records the column name before it looks at the
    frame: after the call the matching getter answers with that name,
    whether the call succeeded, was refused by the overwrite guard or raised
    on the way. *)
Theorem column_name_recorded (self : Trajectory) (overwrite : bool)
  (name_ : string) (units : UNITS) :
  get_distance_column_name (snd (add_distance overwrite name_ units self))
    = name_ /\
  get_speed_column_name (snd (add_speed overwrite name_ units self))
    = name_ /\
  get_timedelta_column_name (snd (add_timedelta overwrite name_ self))
    = name_ /\
  get_direction_column_name (snd (add_direction overwrite name_ self))
    = name_ /\
  get_angular_difference_column_name
    (snd (add_angular_difference overwrite name_ self)) = name_.
Proof.
  unfold get_distance_column_name, get_speed_column_name,
    get_timedelta_column_name, get_direction_column_name,
    get_angular_difference_column_name.
  split; [| split; [| split; [| split]]].
  - unfold add_distance. run_method. split_outcomes; reflexivity.
  - unfold add_speed. run_method. split_outcomes; reflexivity.
  - unfold add_timedelta. run_method. split_outcomes; reflexivity.
  - unfold add_direction, _add_prev_pt. run_method.
    split_outcomes; reflexivity.
  - unfold add_angular_difference, add_direction, _add_prev_pt. run_method.
    split_outcomes; reflexivity.
Qed.

(* ================================================================== *)
(** ** Overwriting a column *)

Lemma col_set_names {A : Type} (k : string) (v a : A)
  (l : list (string * A)) :
  assoc k l = Some a -> map fst (col_set k v l) = map fst l.
Proof.
  induction l as [| [k0 b] l IH]; cbn [assoc col_set]; [discriminate |].
  destruct (String.eqb k0 k); [reflexivity |].
  intros H. cbn [map fst]. f_equal. exact (IH H).
Qed.

Lemma replaces_column_intro (name_ : string) (before after : DataFrame) :
  has_column name_ before = true ->
  index after = index before /\
  geometry_name after = geometry_name before /\
  (exists vals,
     List.length vals = len before /\
     columns after = col_set name_ vals (columns before)) ->
  replaces_column name_ before after.
Proof.
  intros Hhas (Hidx & _ & vals & Hlen & Hcols). unfold has_column in Hhas.
  destruct (assoc name_ (columns before)) as [old |] eqn:Hold;
    [| discriminate].
  split; [exact Hidx |]. split; [| split].
  - unfold column_names. rewrite Hcols. apply (col_set_names _ _ old), Hold.
  - intros k Hk. rewrite Hcols. apply assoc_col_set_other. congruence.
  - exists vals. split; [exact Hlen |]. rewrite Hcols.
    apply assoc_col_set_same.
Qed.

(** X21. With [overwrite=True] and the name of a column the frame already has, a
    successful [add_timedelta] replaces the cells of that column where it
    stands: the index stays, the columns keep their order and every other
    column keeps its cells. So do [add_distance], [add_speed],
    [add_acceleration] and [add_direction] when the start time they write
    their first cell at labels a row and the frame has none of the scratch
    columns. *)
Theorem overwrite_replaces_in_place (self : Trajectory) (name_ : string)
  (units : UNITS) :
  has_column name_ (df self) = true ->
  (forall self', add_timedelta true name_ self = (Ok tt, self') ->
     replaces_column name_ (df self) (df self')) /\
  (In (get_start_time self) (index (df self)) ->
   (forall k, In k scratch_names -> has_column k (df self) = false) ->
   (forall self', add_distance true name_ units self = (Ok tt, self') ->
      replaces_column name_ (df self) (df self')) /\
   (forall self', add_speed true name_ units self = (Ok tt, self') ->
      replaces_column name_ (df self) (df self')) /\
   (forall self', add_acceleration true name_ units self = (Ok tt, self') ->
      replaces_column name_ (df self) (df self')) /\
   (forall self', add_direction true name_ self = (Ok tt, self') ->
      replaces_column name_ (df self) (df self'))).
Proof.
  intros Hhas. split.
  { intros self' H. apply replaces_column_intro; [exact Hhas |].
    apply add_timedelta_ok in H as (_ & ->). cbn [df set_df].
    split; [reflexivity |]. split; [reflexivity |].
    exists (index_diff (index (df self))).
    split; [apply index_diff_length | reflexivity]. }
  intros Hstart Hscratch.
  assert (Hname : ~ In name_ scratch_names).
  { intros Hin. rewrite (Hscratch _ Hin) in Hhas. discriminate Hhas. }
  destruct (not_scratch _ Hname) as (Npp & Ndt & Nst).
  assert (Hpp : has_column "prev_pt" (df self) = false)
    by (apply Hscratch; cbn; auto).
  assert (Hdt : has_column "delta_t" (df self) = false)
    by (apply Hscratch; cbn; auto).
  split; [| split; [| split]]; intros self' H;
    apply replaces_column_intro; try exact Hhas.
  - apply add_distance_ok in H as (_ & conversion & d' & _ & Hd & ->).
    cbn [df set_df]. exact (distance_columns _ _ _ _ Hstart Hpp Npp Hd).
  - apply add_speed_ok in H as (_ & conversion & d' & _ & Hd & ->).
    cbn [df set_df].
    exact (speed_columns _ _ _ _ Hstart Hpp Hdt Npp Ndt Hd).
  - apply add_acceleration_ok in H as (_ & conversion & d' & _ & Hd & ->).
    cbn [df set_df].
    exact (acceleration_columns _ _ _ _ Hstart Hscratch Nst Hd).
  - exact (direction_columns _ _ _ _ Hstart Hpp Npp H).
Qed.

(* ================================================================== *)
(** ** Headings and accelerations *)

Lemma compute_heading_regular (self : Trajectory) (row : Series)
  (pt0 pt1 : cell) :
  row_get "prev_pt" row = Ok pt0 ->
  row_get (get_geom_column_name self) row = Ok pt1 ->
  isinstance_Point pt0 = true ->
  cell_eqb pt0 pt1 = false ->
  _compute_heading self row =
  (if is_latlon self then calculate_initial_compass_bearing
   else azimuth) pt0 pt1.
Proof.
  intros H0 H1 P0 Hne. unfold _compute_heading.
  rewrite H0, H1. cbn [bind]. rewrite P0, Hne. cbn [negb].
  destruct (is_latlon self); reflexivity.
Qed.

(** X22. The direction of a step between two different positions is the initial
    compass bearing on a geographic CRS and the azimuth otherwise, from the
    earlier to the later position. *)
Theorem direction_values (self self' : Trajectory) (overwrite : bool)
  (name_ : string) (g : list cell) (i : nat) :
  strictly_increasing (index (df self)) ->
  df_geometry (df self) = Ok g ->
  List.length g = len (df self) ->
  geometry_name (df self) <> "prev_pt" ->
  "prev_pt" <> name_ ->
  (S i < len (df self))%nat ->
  isinstance_Point (nth i g VNone) = true ->
  cell_eqb (nth i g VNone) (nth (S i) g VNone) = false ->
  add_direction overwrite name_ self = (Ok tt, self') ->
  exists heading,
    (if is_latlon self then calculate_initial_compass_bearing
     else azimuth) (nth i g VNone) (nth (S i) g VNone) = Ok heading /\
    df_cell name_ (S i) (df self') = Some (VFloat heading).
Proof.
  intros Hinc Hgeom Hlen Gpp Hpp Hi P0 Hne Hcall.
  unfold df_geometry in Hgeom.
  destruct (assoc (geometry_name (df self)) (columns (df self)))
    as [g' |] eqn:Hg; [| discriminate].
  injection Hgeom as ->.
  apply add_direction_frame in Hcall
    as (_ & temp & vals & d' & Htemp & Hvals & _ & _ & _ & Hcols & ->).
  destruct (with_prev_pt_index _ _ Htemp) as [Hidx _].
  assert (Hi' : (S i < len temp)%nat) by (unfold len; rewrite Hidx; exact Hi).
  pose proof (df_apply_nth _ _ _ _ Hvals Hi') as Hrow.
  destruct (distance_scratch_row self g temp (S i) Hg Gpp Htemp) as [R0 R1].
  rewrite nth_shift in R0 by lia.
  apply as_cell_Ok in Hrow as (x & Hx & Ex).
  rewrite (compute_heading_regular self _ _ _ R0 R1 P0 Hne) in Hx.
  exists x. split; [exact Hx |]. cbn [df set_df].
  rewrite (df_cell_columns name_ (S i) d'
             (written (get_start_time self) (nth 1 vals VNone)
                      (index (df self)) vals)).
  - rewrite later_written; try assumption.
    + rewrite Ex. reflexivity.
    + rewrite (df_apply_length _ _ _ Hvals). unfold len. rewrite Hidx.
      reflexivity.
  - rewrite Hcols, assoc_col_drop_other by assumption.
    apply assoc_col_set_same.
Qed.

Lemma nth_map2 {A B C : Type} (f : A -> B -> C) (l : list A) (m : list B)
  (i : nat) (da : A) (db : B) (dc : C) :
  (i < List.length l)%nat -> (i < List.length m)%nat ->
  nth i (map2 f l m) dc = f (nth i l da) (nth i m db).
Proof.
  revert m i; induction l as [| a l IH]; intros [| b m] [| i] Hl Hm;
    cbn [List.length] in *; try lia; cbn [map2 nth]; [reflexivity |].
  apply IH; lia.
Qed.

Lemma nth_series_diff (col : list cell) (i : nat) :
  (S i < List.length col)%nat ->
  nth (S i) (series_diff col) VNone =
  cell_op fsub (nth (S i) col VNone) (nth i col VNone).
Proof.
  destruct col as [| c rest]; cbn [List.length]; intros Hi; [lia |].
  unfold series_diff. cbn [nth].
  rewrite (nth_map2 _ (c :: rest) rest i VNone VNone)
    by (cbn [List.length]; lia).
  reflexivity.
Qed.

Lemma nth_map_inside {A B : Type} (f : A -> B) (l : list A) (i : nat)
  (da : A) (db : B) :
  (i < List.length l)%nat -> nth i (map f l) db = f (nth i l da).
Proof.
  intros Hi. rewrite (nth_indep _ db (f da)) by (rewrite length_map; exact Hi).
  apply map_nth.
Qed.

Lemma nth_acceleration_series (conversion : Conversion) (speed : list cell)
  (idx : list Timestamp) (i : nat) :
  List.length speed = List.length idx -> (S i < List.length idx)%nat ->
  nth (S i) (acceleration_series conversion speed idx) VNone =
  cell_op fmul
    (cell_op fdiv
       (cell_op fsub (nth (S i) speed VNone) (nth i speed VNone))
       (VFloat (total_seconds (nth (S i) idx 0 - nth i idx 0))))
    (VFloat (conv_time2 conversion)).
Proof.
  intros Hlen Hi. unfold acceleration_series.
  assert (Hd : (S i < List.length (dt_total_seconds (index_diff idx)))%nat)
    by (unfold dt_total_seconds; rewrite length_map, index_diff_length;
        exact Hi).
  assert (Hs : (S i < List.length (series_diff speed))%nat)
    by (rewrite series_diff_length; lia).
  rewrite (nth_map_inside _ _ _ VNone) by (rewrite map2_length; lia).
  rewrite (nth_map2 _ _ _ _ VNone VNone) by assumption.
  rewrite nth_series_diff by lia.
  do 2 f_equal. unfold dt_total_seconds.
  rewrite (nth_map_inside _ _ _ VNone)
    by (rewrite index_diff_length; exact Hi).
  rewrite nth_index_diff by exact Hi. reflexivity.
Qed.

(** X23. The acceleration of a row is the change of speed since the row before,
    divided by the seconds between the two samples and multiplied by the
    second time factor, where the speeds are those [add_speed] writes for
    the same units. *)
Theorem acceleration_from_speed (self self_s self_a : Trajectory)
  (overwrite_s overwrite_a : bool) (name_s name_a : string) (units : UNITS)
  (i : nat) :
  strictly_increasing (index (df self)) ->
  ~ In name_s scratch_names -> ~ In name_a scratch_names ->
  (S i < size self)%nat ->
  add_speed overwrite_s name_s units self = (Ok tt, self_s) ->
  add_acceleration overwrite_a name_a units self = (Ok tt, self_a) ->
  exists conversion v0 v1,
    get_conversion units (crs_units self) = Ok conversion /\
    df_cell name_s i (df self_s) = Some v0 /\
    df_cell name_s (S i) (df self_s) = Some v1 /\
    df_cell name_a (S i) (df self_a) =
      Some (cell_op fmul
              (cell_op fdiv
                 (cell_op fsub v1 v0)
                 (VFloat (total_seconds (nth (S i) (index (df self)) 0
                                         - nth i (index (df self)) 0))))
              (VFloat (conv_time2 conversion))).
Proof.
  intros Hinc Hs Ha Hi Hspeed Hacc. unfold size in Hi.
  destruct (not_scratch _ Hs) as (Spp & Sdt & _).
  destruct (not_scratch _ Ha) as (_ & _ & Ast).
  apply add_speed_ok in Hspeed as (_ & conversion & ds & Hconv & Hds & ->).
  apply add_acceleration_ok in Hacc
    as (_ & conversion' & da & Hconv' & Hda & ->).
  rewrite Hconv in Hconv'. injection Hconv' as <-.
  apply get_df_with_acceleration_frame in Hda
    as (dt & speed_temp & Hdt & Hsp & _ & _ & Hcols).
  destruct (speed_column self conversion "speed_temp" dt
              ltac:(discriminate) ltac:(discriminate) Hdt)
    as (temp & vals & Htemp & Hvals & Hvlen & _ & Hidx & Hcol).
  destruct (speed_column self conversion name_s ds Spp Sdt Hds)
    as (temp' & vals' & Htemp' & Hvals' & _ & _ & _ & Hcol').
  rewrite Htemp in Htemp'. injection Htemp' as <-.
  rewrite Hvals in Hvals'. injection Hvals' as <-.
  rewrite Hsp in Hcol. injection Hcol as ->.
  set (speed := written (get_start_time self) (nth 1 vals VNone)
                        (index (df self)) vals) in *.
  set (labels := labels_with (get_start_time self) (index (df self))) in *.
  assert (Hlen : List.length speed = List.length labels)
    by (apply written_length; exact Hvlen).
  pose proof (labels_with_length (get_start_time self) (index (df self)))
    as Hlabels. fold labels in Hlabels.
  exists conversion, (nth i speed VNone), (nth (S i) speed VNone).
  cbn [df set_df]. split; [exact Hconv |].
  rewrite !(df_cell_columns name_s _ ds speed Hcol').
  split; [apply nth_error_nth'; lia |].
  split; [apply nth_error_nth'; lia |].
  rewrite (df_cell_columns name_a (S i) da
             (set_where (get_start_time self)
                (nth 1 (acceleration_series conversion speed (index dt))
                     VNone)
                (index dt)
                (acceleration_series conversion speed (index dt)))).
  - rewrite Hidx.
    rewrite (nth_error_nth' _ VNone)
      by (rewrite set_where_length, acceleration_series_length; lia).
    f_equal. rewrite nth_set_where
      by (rewrite ?acceleration_series_length; lia).
    unfold labels at 1. rewrite nth_labels_with by exact Hi.
    replace (nth (S i) (index (df self)) 0 =? get_start_time self)
      with false
      by (symmetry; apply Z.eqb_neq, later_than_start; assumption).
    rewrite nth_acceleration_series by (assumption || lia).
    unfold labels. rewrite !nth_labels_with by lia. reflexivity.
  - rewrite Hcols, assoc_col_drop_other by exact Ast.
    apply assoc_col_set_same.
Qed.

(* ================================================================== *)
(** ** Computing a column again *)

Lemma mapM_map_ext {A B C : Type} (f f' : B -> result C) (r r' : A -> B)
  (l : list A) :
  (forall a, In a l -> f (r a) = f' (r' a)) ->
  mapM f (map r l) = mapM f' (map r' l).
Proof.
  induction l as [| a l IH]; intros H; [reflexivity |].
  cbn [map mapM]. rewrite (H a (or_introl eq_refl)).
  rewrite IH by (intros b Hb; apply H; right; exact Hb). reflexivity.
Qed.

Lemma frame_eta (d : DataFrame) :
  mkDataFrame (index d) (columns d) (geometry_name d) (df_crs d) = d.
Proof. destruct d; reflexivity. Qed.

(** X24. Computing the distances a second time changes nothing when the
    start time labels a row (the first timestamp has no digits below the
    microsecond): after a successful [add_distance], the same call with
    [overwrite=True] succeeds and leaves the trajectory, its frame
    included, exactly as it was. *)
Theorem add_distance_twice (self self1 : Trajectory) (overwrite : bool)
  (name_ : string) (units : UNITS) :
  In (get_start_time self) (index (df self)) ->
  has_column "prev_pt" (df self) = false ->
  "prev_pt" <> name_ ->
  geometry_name (df self) <> name_ ->
  add_distance overwrite name_ units self = (Ok tt, self1) ->
  add_distance true name_ units self1 = (Ok tt, self1).
Proof.
  intros Hstart Hpp Npp Ngeom Hcall.
  apply add_distance_ok in Hcall as (_ & conversion & d1 & Hconv & Hd1 & ->).
  destruct (get_df_with_distance_shape _ _ _ _ Hstart Hd1)
    as (temp & vals & Htemp & Hvals & Hidx & Hgeo & Hcols).
  destruct (with_prev_pt_inv _ _ Htemp) as (g & Hg & Etemp).
  pose proof (has_column_false _ _ Hpp) as Hnone.
  assert (Gpp : geometry_name (df self) <> "prev_pt")
    by (intros E; rewrite E in Hg; congruence).
  set (column := set_where (get_start_time self) (VFloat zero)
                           (index (df self)) vals) in *.
  assert (Hc1 : columns d1 = col_set name_ column (columns (df self))).
  { rewrite Hcols, Etemp. cbn [columns df_set with_columns].
    apply scratch_roundtrip; assumption. }
  assert (Hg1 : assoc (geometry_name d1) (columns d1) = Some g).
  { rewrite Hgeo, Hc1, assoc_col_set_other by congruence. exact Hg. }
  assert (Hnone1 : assoc "prev_pt" (columns d1) = None).
  { rewrite Hc1, assoc_col_set_other by congruence. exact Hnone. }
  set (self1 := set_df d1 (set_distance_col_name name_ self)).
  assert (Htemp1 : with_prev_pt (df self1)
                   = Ok (df_set "prev_pt" (shift VNone g) d1))
    by (unfold with_prev_pt, df_geometry; cbn [df self1 set_df];
        rewrite Hg1; reflexivity).
  assert (Hvals1 :
    df_apply (as_cell (fun row => _compute_distance self1 row conversion))
             (df_set "prev_pt" (shift VNone g) d1) = Ok vals).
  { rewrite <- Hvals. unfold df_apply, df_rows.
    replace (len (df_set "prev_pt" (shift VNone g) d1)) with (len temp)
      by (unfold len; rewrite Etemp; cbn [index df_set with_columns];
          rewrite Hidx; reflexivity).
    apply mapM_map_ext. intros j _.
    destruct (distance_scratch_row self g temp j Hg Gpp Htemp) as [R0 R1].
    destruct (distance_scratch_row self1 g _ j Hg1
                ltac:(cbn [df self1 set_df]; rewrite Hgeo; exact Gpp) Htemp1)
      as [S0 S1].
    unfold as_cell, _compute_distance. rewrite R0, R1, S0, S1.
    reflexivity. }
  unfold add_distance. run_method. self_simpl. cbn [negb andb].
  rewrite Bool.andb_false_r. self_simpl.
  change (crs_units self1) with (crs_units self). rewrite Hconv. self_simpl.
  change (_get_df_with_distance (set_distance_col_name name_ self1)
            conversion name_)
    with (_get_df_with_distance self1 conversion name_).
  unfold _get_df_with_distance. rewrite Htemp1. cbn [bind].
  rewrite Hvals1. cbn [bind].
  assert (Hstart1 : In (get_start_time self1)
                       (index (df_set "prev_pt" (shift VNone g) d1))).
  { unfold get_start_time. cbn [df self1 set_df index df_set with_columns].
    rewrite Hidx. exact Hstart. }
  rewrite df_at_set_df_set.
  rewrite with_label_present, written_present by exact Hstart1.
  rewrite df_drop_one
    by (apply has_column_df_set_keeps, has_column_df_set_same).
  self_simpl. do 2 f_equal.
  unfold self1, set_df, set_distance_col_name. cbn [traj_id obj_id df crs
    parent crs_units is_latlon direction_col_name angular_difference_col_name
    distance_col_name speed_col_name acceleration_col_name timedelta_col_name].
  f_equal. unfold get_start_time, with_columns, df_set.
  cbn [columns index geometry_name df_crs df]. unfold with_columns.
  cbn [columns index geometry_name df_crs].
  rewrite scratch_roundtrip by assumption.
  rewrite Hidx. fold (get_start_time self). fold column.
  rewrite Hc1 at 1. rewrite col_set_twice, <- Hc1, <- Hidx.
  apply frame_eta.
Qed.

End Model.

(* ================================================================== *)
(** ** A sorting function that meets the assumptions on [argsort] *)

Lemma insert_position_perm (idx : list Timestamp) (i : nat) (l : list nat) :
  Permutation (insert_position idx i l) (i :: l).
Proof.
  induction l as [| j l IH]; simpl; [apply Permutation_refl |].
  destruct (nth i idx 0 <=? nth j idx 0); [apply Permutation_refl |].
  eapply Permutation_trans; [apply perm_skip; exact IH | apply perm_swap].
Qed.

Lemma insertion_argsort_perm (idx : list Timestamp) :
  Permutation (insertion_argsort idx) (seq 0 (List.length idx)).
Proof.
  unfold insertion_argsort.
  induction (seq 0 (List.length idx)) as [| a l IH]; simpl;
    [apply Permutation_refl |].
  eapply Permutation_trans; [apply insert_position_perm |].
  apply perm_skip. exact IH.
Qed.

Lemma insert_position_sorted (idx : list Timestamp) (i : nat) (l : list nat) :
  StronglySorted Z.le (map (fun j => nth j idx 0) l) ->
  StronglySorted Z.le (map (fun j => nth j idx 0) (insert_position idx i l)).
Proof.
  induction l as [| j l IH]; simpl; intros H.
  - constructor; constructor.
  - apply StronglySorted_inv in H as [Hl Hj].
    destruct (nth i idx 0 <=? nth j idx 0) eqn:E; simpl.
    + apply Z.leb_le in E. constructor.
      * constructor; assumption.
      * constructor; [exact E |].
        eapply Forall_impl; [| exact Hj]. intros x Hx. cbv beta in Hx. lia.
    + apply Z.leb_gt in E. constructor; [apply IH; exact Hl |].
      apply Forall_forall. intros x Hx.
      apply in_map_iff in Hx as (k & <- & Hk).
      eapply Permutation_in in Hk; [| apply insert_position_perm].
      destruct Hk as [<- | Hk]; [lia |].
      rewrite Forall_forall in Hj. apply Hj.
      apply (in_map (fun j => nth j idx 0)). exact Hk.
Qed.

Lemma insertion_argsort_sorted (idx : list Timestamp) :
  Sorted Z.le (map (fun i => nth i idx 0) (insertion_argsort idx)).
Proof.
  apply StronglySorted_Sorted. unfold insertion_argsort.
  induction (seq 0 (List.length idx)) as [| a l IH]; simpl;
    [constructor |].
  apply insert_position_sorted. exact IH.
Qed.

(* ================================================================== *)
(** ** The statements at work on the sample data *)

Abbreviation sample_add_distance :=
  (add_distance cityblock cityblock unit unit_conversion show_cell).
Abbreviation sample_add_speed :=
  (add_speed cityblock cityblock unit unit_conversion show_cell).
Abbreviation sample_add_acceleration :=
  (add_acceleration cityblock cityblock unit unit_conversion show_cell).
Abbreviation sample_add_direction := (add_direction bearing_east bearing_east).
Abbreviation sample_add_angular_difference :=
  (add_angular_difference bearing_east bearing_east abs_difference).
Abbreviation sample_get_row_at := (get_row_at true).
Abbreviation sample_get_position_at :=
  (get_position_at cityblock midpoint show_Z true).

Lemma docstring_index_increasing :
  strictly_increasing (index (df docstring_traj)).
Proof. unfold strictly_increasing. cbn. repeat constructor. Qed.

Lemma docstring_start_labels_row :
  In (get_start_time docstring_traj) (index (df docstring_traj)).
Proof. left. reflexivity. Qed.

Lemma scratch_names_absent (d : DataFrame) :
  has_column "prev_pt" d = false -> has_column "delta_t" d = false ->
  has_column "speed_temp" d = false ->
  forall k, In k scratch_names -> has_column k d = false.
Proof.
  intros H1 H2 H3 k [<- | [<- | [<- | []]]]; assumption.
Qed.

Lemma not_a_scratch_name (n : string) :
  n <> "prev_pt" -> n <> "delta_t" -> n <> "speed_temp" ->
  ~ In n scratch_names.
Proof.
  intros H1 H2 H3 [E | [E | [E | []]]]; symmetry in E; contradiction.
Qed.



Lemma zero_elapsed_time_raises_witness :
  (2 < len (df (traj_of stalled_df)))%nat /\
  nth 2 (index (df (traj_of stalled_df))) 0
    - nth 1 (index (df (traj_of stalled_df))) 0 = 0 /\
  cell_eqb (pt 1 0) (pt 2 0) = false /\
  fst (sample_add_speed false "speed" tt (traj_of stalled_df))
    = Raise ZeroDivisionError /\
  df (snd (sample_add_speed false "speed" tt (traj_of stalled_df)))
    = stalled_df.
Proof.
  assert (Hrows : (2 < len (df (traj_of stalled_df)))%nat)
    by (vm_compute; lia).
  assert (Hzero : nth 2 (index (df (traj_of stalled_df))) 0
                  - nth 1 (index (df (traj_of stalled_df))) 0 = 0)
    by reflexivity.
  assert (Hdistinct : cell_eqb (pt 1 0) (pt 2 0) = false) by reflexivity.
  split; [exact Hrows |]. split; [exact Hzero |]. split; [exact Hdistinct |].
  apply (zero_elapsed_time_raises cityblock cityblock unit unit_conversion
           show_cell (traj_of stalled_df) false "speed" tt
           (mkConversion (Fin 1) (Fin 1) (Fin 1) (Fin 1))
           [pt 0 0; pt 1 0; pt 2 0] 1%nat).
  - reflexivity.
  - reflexivity.
  - reflexivity.
  - intros H; discriminate H.
  - intros H; discriminate H.
  - reflexivity.
  - repeat constructor.
  - exact Hrows.
  - exact Hzero.
  - exact Hdistinct.
Defined.

Lemma resting_index_increasing :
  strictly_increasing (index (df (traj_of resting_df))).
Proof. unfold strictly_increasing. cbn. repeat constructor. Qed.

Lemma degenerate_step_is_zero_witness :
  cell_eqb (pt 3 3) (pt 3 3) = true /\
  df_cell "m" 2
    (df (snd (sample_add_distance false "m" tt (traj_of resting_df))))
    = Some (VFloat zero) /\
  df_cell "m" 2
    (df (snd (sample_add_speed false "m" tt (traj_of resting_df))))
    = Some (VFloat zero) /\
  df_cell "m" 2
    (df (snd (sample_add_direction false "m" (traj_of resting_df))))
    = Some (VFloat zero) /\
  sample_add_distance false "m" tt (traj_of gap_df)
    = (Raise (ValueError (invalid_point_msg show_cell VNone)),
       set_distance_col_name "m" (traj_of gap_df)) /\
  sample_add_speed false "m" tt (traj_of gap_df)
    = (Raise (ValueError (invalid_point_msg show_cell VNone)),
       set_speed_col_name "m" (traj_of gap_df)).
Proof.
  assert (Hsame : cell_eqb (pt 3 3) (pt 3 3) = true) by reflexivity.
  destruct (degenerate_step_is_zero cityblock cityblock bearing_east
              bearing_east unit unit_conversion show_cell
              (traj_of resting_df) false "m" tt
              [pt 0 0; pt 3 3; pt 3 3] 1%nat)
    as (_ & Hzero & _).
  { exact resting_index_increasing. }
  { reflexivity. }
  { reflexivity. }
  { intros H; discriminate H. }
  { intros H; discriminate H. }
  { intros H; discriminate H. }
  { intros H; discriminate H. }
  { vm_compute; lia. }
  destruct (Hzero (or_intror Hsame)) as (Hdist & Hspeed & Hdir).
  destruct (degenerate_step_is_zero cityblock cityblock bearing_east
              bearing_east unit unit_conversion show_cell
              (traj_of gap_df) false "m" tt [pt 0 0; VNone] 0%nat)
    as (_ & _ & Hraise).
  { unfold strictly_increasing. cbn. repeat constructor. }
  { reflexivity. }
  { reflexivity. }
  { intros H; discriminate H. }
  { intros H; discriminate H. }
  { intros H; discriminate H. }
  { intros H; discriminate H. }
  { vm_compute; lia. }
  assert (Hpts : forall j, (j <= 0)%nat ->
                   isinstance_Point (nth j [pt 0 0; VNone] VNone) = true).
  { intros j Hj. assert (j = 0%nat) as -> by lia. reflexivity. }
  destruct (Hraise eq_refl Hpts eq_refl
              (mkConversion (Fin 1) (Fin 1) (Fin 1) (Fin 1))
              eq_refl eq_refl) as [Hd Hs].
  split; [exact Hsame |].
  split; [apply Hdist; vm_compute; reflexivity |].
  split; [apply Hspeed; vm_compute; reflexivity |].
  split; [apply Hdir; vm_compute; reflexivity |].
  split; [exact Hd |]. apply Hs. intros j Hj. lia.
Defined.

(** C3, counterexample. A step from a point to a missing position: the
    later endpoint is not a valid point, yet [add_distance] and [add_speed]
    raise ValueError instead of putting 0.0 into the column. *)
Lemma degenerate_step_counterexample :
  df_cell "geometry" 1 gap_df = Some VNone /\
  isinstance_Point VNone = false /\
  sample_add_distance false "distance" tt (traj_of gap_df)
    = (Raise (ValueError "Invalid trajectory! Got None instead of point!"),
       set_distance_col_name "distance" (traj_of gap_df)) /\
  sample_add_speed false "speed" tt (traj_of gap_df)
    = (Raise (ValueError "Invalid trajectory! Got None instead of point!"),
       set_speed_col_name "speed" (traj_of gap_df)).
Proof. repeat split; vm_compute; reflexivity. Qed.

Lemma overwrite_guard_refuses_witness :
  has_column "distance"
    (df (snd (sample_add_distance false "distance" tt docstring_traj)))
    = true /\
  refused (column_exists_msg "distance")
    (snd (sample_add_distance false "distance" tt docstring_traj))
    (sample_add_distance false "distance" tt
       (snd (sample_add_distance false "distance" tt docstring_traj))) /\
  refused (column_exists_msg "distance")
    (snd (sample_add_distance false "distance" tt docstring_traj))
    (sample_add_direction false "distance"
       (snd (sample_add_distance false "distance" tt docstring_traj))).
Proof.
  assert (H : has_column "distance"
                (df (snd (sample_add_distance false "distance" tt
                            docstring_traj))) = true)
    by (vm_compute; reflexivity).
  destruct (overwrite_guard_refuses cityblock cityblock bearing_east
              bearing_east abs_difference unit unit_conversion show_cell
              (snd (sample_add_distance false "distance" tt docstring_traj))
              "distance" tt H)
    as (Hdistance & _ & _ & _ & Hdirection & _).
  split; [exact H |]. split; [exact Hdistance | exact Hdirection].
Defined.

Lemma constructor_invariant_witness :
  exists self,
    Trajectory_init insertion_argsort shuffled_df "1" None None = Ok self /\
    index (df self) = [0; 6 * minute; 10 * minute] /\
    df_cell "geometry" 0 (df self) = Some (pt 0 0) /\
    strictly_increasing (index (df self)) /\
    index (df (snd (sample_add_speed false "speed" tt self)))
      = index (df self).
Proof.
  assert (H : Trajectory_init insertion_argsort shuffled_df "1" None None
              = Ok (mkTrajectory "1" None
                      (mkDataFrame [0; 6 * minute; 10 * minute]
                         [("geometry", [pt 0 0; pt 6 0; pt 6 6])]
                         "geometry" (Some (mkCRS "metre" false)))
                      (Some (mkCRS "metre" false)) None (Some "metre") false
                      None None None None None None))
    by (vm_compute; reflexivity).
  eexists. split; [exact H |].
  destruct (constructor_invariant cityblock cityblock bearing_east
              bearing_east abs_difference unit unit_conversion show_cell
              insertion_argsort insertion_argsort_perm
              insertion_argsort_sorted shuffled_df "1" None None _ H)
    as (_ & _ & Hinc & _ & Hadd).
  split; [reflexivity |]. split; [reflexivity |]. split; [exact Hinc |].
  exact (proj1 (proj2 (Hadd (or_introl eq_refl) false "speed" tt))).
Defined.

(** C5. The code on an input whose first timestamp ends in a nanosecond.
    The constructor accepts the frame and leaves its two timestamps in
    order. [get_start_time] drops the nanosecond, so the label at which
    [add_speed] writes its first cell names no row: the call succeeds and
    leaves a third row, labelled 0, after the other two, and the index is
    no longer in increasing order. *)
Lemma nanosecond_index_out_of_order :
  exists self,
    Trajectory_init insertion_argsort nanosecond_df "1" None None = Ok self /\
    index (df self) = [1; minute + 1] /\
    strictly_increasing (index (df self)) /\
    get_start_time self = 0 /\
    fst (sample_add_speed false "speed" tt self) = Ok tt /\
    index (df (snd (sample_add_speed false "speed" tt self)))
      = [1; minute + 1; 0] /\
    ~ strictly_increasing
        (index (df (snd (sample_add_speed false "speed" tt self)))).
Proof.
  eexists. split; [vm_compute; reflexivity |].
  split; [reflexivity |].
  split; [unfold strictly_increasing; cbn; repeat constructor |].
  split; [reflexivity |].
  split; [vm_compute; reflexivity |].
  split; [vm_compute; reflexivity |].
  intros H.
  match type of H with
  | strictly_increasing ?l =>
      replace l with [1; minute + 1; 0] in H by (vm_compute; reflexivity)
  end.
  apply StronglySorted_inv in H as [_ H].
  apply Forall_inv_tail, Forall_inv in H. vm_compute in H. discriminate H.
Qed.

Lemma interpolation_at_sample_witness :
  sample_get_position_at docstring_traj (6 * minute) "interpolated"
    = Ok (pt 6 0) /\
  sample_get_position_at (traj_of resting_df) (minute + minute / 2)
    "interpolated" = Ok (pt 3 3).
Proof.
  destruct (interpolation_at_sample cityblock midpoint show_Z true
              docstring_traj (6 * minute)) as [Hsample _].
  destruct (interpolation_at_sample cityblock midpoint show_Z true
              (traj_of resting_df) (minute + minute / 2)) as [_ Hbetween].
  split.
  - apply (Hsample 1%nat).
    + exact docstring_index_increasing.
    + reflexivity.
    + vm_compute. discriminate.
    + reflexivity.
    + reflexivity.
  - apply (Hbetween
             (mkSeries minute [("geometry", pt 3 3)])
             (mkSeries (2 * minute) [("geometry", pt 3 3)])
             (pt 3 3) (pt 3 3)).
    + vm_compute. split; discriminate.
    + vm_compute; reflexivity.
    + vm_compute; reflexivity.
    + reflexivity.
    + reflexivity.
    + reflexivity.
    + reflexivity.
    + reflexivity.
Defined.

(** C6. The code at the timestamp of the last sample where that timestamp
    ends in a nanosecond. [get_end_time] drops the nanosecond, the range
    check of [get_position_at] finds the timestamp after the end time, and
    the call raises the out-of-range ValueError instead of returning the
    position of the sample. *)
Lemma nanosecond_sample_out_of_range :
  nth_error (index (df (traj_of nanosecond_df))) 1 = Some (minute + 1) /\
  df_cell "geometry" 1 (df (traj_of nanosecond_df)) = Some (pt 60 0) /\
  get_end_time (traj_of nanosecond_df) = minute /\
  sample_get_position_at (traj_of nanosecond_df) (minute + 1) "interpolated"
    = Raise (ValueError
               (out_of_range_msg show_Z (traj_of nanosecond_df)
                  (minute + 1))).
Proof. repeat split; vm_compute; reflexivity. Qed.

Lemma segment_between_witness :
  (exists segment,
     get_segment_between show_Z insertion_argsort docstring_traj
       (6 * minute) (10 * minute) = Ok segment /\
     df segment = df_slice (6 * minute) (10 * minute) (df docstring_traj) /\
     parent segment = Some docstring_traj) /\
  index (df_slice (6 * minute) (10 * minute) (df docstring_traj))
    = [6 * minute; 10 * minute] /\
  get_segment_between show_Z insertion_argsort docstring_traj
    (6 * minute) (7 * minute)
    = Raise (ValueError "The input DataFrame must have at least two rows.") /\
  index (df_slice 0 500 (df (traj_of submicrosecond_df))) = [0; 500] /\
  get_segment_between show_Z insertion_argsort (traj_of submicrosecond_df)
    0 500
    = Raise (RuntimeError (invalid_segment_msg show_Z 0 500)).
Proof.
  assert (Hal : aligned (df docstring_traj))
    by (unfold aligned; repeat constructor).
  destruct (segment_between show_Z insertion_argsort insertion_argsort_perm
              insertion_argsort_sorted docstring_traj
              (6 * minute) (10 * minute))
    as (Hwide & _ & _).
  destruct (Hwide docstring_index_increasing Hal) as (_ & Hok & _).
  destruct (segment_between show_Z insertion_argsort insertion_argsort_perm
              insertion_argsort_sorted docstring_traj
              (6 * minute) (7 * minute))
    as (Hnarrow & _ & _).
  destruct (Hnarrow docstring_index_increasing Hal) as (_ & _ & Hfail & _).
  assert (Hal' : aligned (df (traj_of submicrosecond_df)))
    by (unfold aligned; repeat constructor).
  assert (Hinc' : strictly_increasing (index (df (traj_of submicrosecond_df))))
    by (unfold strictly_increasing; cbn; repeat constructor).
  destruct (segment_between show_Z insertion_argsort insertion_argsort_perm
              insertion_argsort_sorted (traj_of submicrosecond_df) 0 500)
    as (Hshort & _ & _).
  destruct (Hshort Hinc' Hal') as (_ & _ & _ & Hrefused).
  split; [apply Hok; [vm_compute; lia | vm_compute; reflexivity] |].
  split; [reflexivity |].
  split; [apply Hfail; vm_compute; lia |].
  split; [reflexivity |].
  apply Hrefused; [vm_compute; lia | vm_compute; discriminate].
Defined.

(** C7, counterexample. The slice holds one sample; what is raised is the
    constructor's ValueError about the number of rows, not the RuntimeError
    with which [get_segment_between] reports a degenerate segment. *)
Lemma segment_between_counterexample :
  len (df_slice (6 * minute) (7 * minute) (df docstring_traj)) = 1%nat /\
  get_segment_between show_Z insertion_argsort docstring_traj
    (6 * minute) (7 * minute)
    = Raise (ValueError "The input DataFrame must have at least two rows.") /\
  get_segment_between show_Z insertion_argsort docstring_traj
    (6 * minute) (7 * minute)
    <> Raise (RuntimeError
                (invalid_segment_msg show_Z (6 * minute) (7 * minute))).
Proof.
  split; [reflexivity |]. split; [vm_compute; reflexivity |].
  vm_compute. discriminate.
Qed.

Lemma derivation_adds_one_column_witness :
  has_column "m" (df docstring_traj) = false /\
  adds_one_column "m" (df docstring_traj)
    (df (snd (sample_add_distance false "m" tt docstring_traj))) /\
  adds_one_column "m" (df docstring_traj)
    (df (snd (sample_add_speed false "m" tt docstring_traj))) /\
  adds_one_column "m" (df docstring_traj)
    (df (snd (sample_add_acceleration false "m" tt docstring_traj))) /\
  adds_one_column "m" (df docstring_traj)
    (df (snd (add_timedelta false "m" docstring_traj))) /\
  adds_one_column "m" (df docstring_traj)
    (df (snd (sample_add_direction false "m" docstring_traj))) /\
  adds_one_column "m" (df docstring_traj)
    (df (snd (sample_add_angular_difference false "m" docstring_traj))) /\
  has_column DIRECTION_COL_NAME
    (df (snd (sample_add_angular_difference false "m" docstring_traj)))
    = false.
Proof.
  assert (Hfresh : has_column "m" (df docstring_traj) = false)
    by reflexivity.
  assert (Hscratch :
    forall k, In k scratch_names -> has_column k (df docstring_traj) = false)
    by (apply scratch_names_absent; reflexivity).
  assert (Spp : has_column "prev_pt" (df docstring_traj) = false)
    by reflexivity.
  assert (Sdt : has_column "delta_t" (df docstring_traj) = false)
    by reflexivity.
  assert (Npp : "m" <> "prev_pt") by discriminate.
  assert (Ndt : "m" <> "delta_t") by discriminate.
  destruct (derivation_adds_one_column cityblock cityblock bearing_east
              bearing_east abs_difference unit unit_conversion show_cell
              docstring_traj false "m" tt Hfresh)
    as (Htime & Hstarted).
  destruct (Hstarted docstring_start_labels_row)
    as (Hdist & Hdir & Hspeed & Hacc & Hang).
  split; [exact Hfresh |].
  split; [apply Hdist; [exact Spp | exact Npp | vm_compute; reflexivity] |].
  split; [apply Hspeed;
          [exact Spp | exact Npp | exact Sdt | exact Ndt
           | vm_compute; reflexivity] |].
  split; [apply Hacc;
          [exact Hscratch | discriminate | vm_compute; reflexivity] |].
  split; [apply Htime; vm_compute; reflexivity |].
  split; [apply Hdir; [exact Spp | exact Npp | vm_compute; reflexivity] |].
  destruct (Hang (snd (sample_add_angular_difference false "m"
                         docstring_traj)))
    as [Hone Hgone];
    [intros _; exact Spp | discriminate | vm_compute; reflexivity |].
  split; [exact Hone | apply Hgone; reflexivity].
Defined.

(** C8, counterexample. The frame has a column of the caller's called
    "prev_pt"; a successful [add_distance] removes it. *)
Lemma derivation_frame_counterexample :
  column_names (df (traj_of labelled_df)) = ["geometry"; "prev_pt"] /\
  fst (sample_add_distance false "distance" tt (traj_of labelled_df))
    = Ok tt /\
  column_names
    (df (snd (sample_add_distance false "distance" tt (traj_of labelled_df))))
    = ["geometry"; "distance"].
Proof. repeat split; vm_compute; reflexivity. Qed.

Lemma linestringm_wkt_text_witness :
  to_linestringm_wkt unix_seconds show_cell docstring_traj
    = Ok (linestringm_text unix_seconds show_cell
            (combine (index (df docstring_traj))
                     [pt 0 0; pt 6 0; pt 6 6; pt 9 9])) /\
  linestringm_text unix_seconds show_cell
    (combine (index (df docstring_traj)) [pt 0 0; pt 6 0; pt 6 6; pt 9 9])
    = "LINESTRING M (0 0 0, 6 0 360, 6 6 600, 9 9 900)".
Proof.
  split; [| vm_compute; reflexivity].
  apply (linestringm_wkt_text unix_seconds show_cell docstring_traj).
  - reflexivity.
  - reflexivity.
  - repeat constructor.
Defined.

Lemma get_row_at_has_no_range_check_witness :
  (sample_get_row_at docstring_traj (-1) "nearest"
     = Ok (LSeries (df_row (df docstring_traj) 0)) /\
   sample_get_position_at docstring_traj (-1) "nearest"
     = Raise (ValueError (out_of_range_msg show_Z docstring_traj (-1)))) /\
  (sample_get_row_at docstring_traj (16 * minute) "nearest"
     = Ok (LSeries (df_row (df docstring_traj) (size docstring_traj - 1))) /\
   sample_get_position_at docstring_traj (16 * minute) "nearest"
     = Raise (ValueError
                (out_of_range_msg show_Z docstring_traj (16 * minute)))).
Proof.
  assert (Hsize : (1 <= size docstring_traj)%nat) by (vm_compute; lia).
  destruct (get_row_at_has_no_range_check cityblock midpoint show_Z true
              docstring_traj (-1) docstring_index_increasing Hsize)
    as (Hbefore & _ & Hrefused).
  destruct (get_row_at_has_no_range_check cityblock midpoint show_Z true
              docstring_traj (16 * minute) docstring_index_increasing Hsize)
    as (_ & Hafter & _).
  split.
  - split; [apply Hbefore | apply Hrefused]; vm_compute; reflexivity.
  - apply Hafter. vm_compute. reflexivity.
Defined.

(** C10. The code at a time before the first sample where the first
    timestamp ends in a nanosecond. [get_row_at] hands back the first row,
    as it does for every earlier time. [get_start_time] drops the
    nanosecond, so the range check of [get_position_at] does not find the
    time before the start time: the call is not rejected and returns the
    first position. *)
Lemma nanosecond_early_time_accepted :
  index_min (index (df (traj_of nanosecond_df))) = 1 /\
  0 < index_min (index (df (traj_of nanosecond_df))) /\
  get_start_time (traj_of nanosecond_df) = 0 /\
  sample_get_row_at (traj_of nanosecond_df) 0 "nearest"
    = Ok (LSeries (df_row (df (traj_of nanosecond_df)) 0)) /\
  sample_get_position_at (traj_of nanosecond_df) 0 "nearest" = Ok (pt 0 0).
Proof. repeat split; vm_compute; reflexivity. Qed.

(* ================================================================== *)
(** ** Further statements at work on the sample data *)

Abbreviation sample_copy := (copy insertion_argsort).
Abbreviation sample_get_segment_between :=
  (get_segment_between show_Z insertion_argsort).
Abbreviation sample_get_linestring_between :=
  (get_linestring_between cityblock midpoint show_Z true insertion_argsort
     line_of_frame entry_and_exit).
Abbreviation sample_to_linestringm_wkt :=
  (to_linestringm_wkt unix_seconds show_cell).
Abbreviation docstring_geometry := [pt 0 0; pt 6 0; pt 6 6; pt 9 9].
Abbreviation with_speed_and_timedelta :=
  (snd (add_timedelta false "timedelta"
          (snd (sample_add_speed false "speed" tt docstring_traj)))).

Lemma docstring_aligned : aligned (df docstring_traj).
Proof. unfold aligned. repeat constructor. Qed.

Lemma timedelta_values_witness :
  exists self',
    add_timedelta false "timedelta" docstring_traj = (Ok tt, self') /\
    df_cell "timedelta" 1 (df self') = Some (VTimedelta (6 * minute)) /\
    df_cell "timedelta" 3 (df self') = Some (VTimedelta (5 * minute)).
Proof.
  destruct (timedelta_values docstring_traj false "timedelta")
    as (self' & Hcall & Hvalues); [reflexivity |].
  exists self'. split; [exact Hcall |]. split.
  - rewrite (Hvalues 0%nat) by (vm_compute; lia). reflexivity.
  - rewrite (Hvalues 2%nat) by (vm_compute; lia). reflexivity.
Defined.

Lemma distance_values_witness :
  exists conversion dist,
    unit_conversion tt (crs_units docstring_traj) = Ok conversion /\
    py_truediv (fmul (cityblock (pt 0 0) (pt 6 0)) (conv_crs conversion))
               (conv_distance conversion) = Ok dist /\
    df_cell "distance" 1
      (df (snd (sample_add_distance false "distance" tt docstring_traj)))
      = Some (VFloat dist).
Proof.
  apply (distance_values cityblock cityblock unit unit_conversion show_cell
           docstring_traj
           (snd (sample_add_distance false "distance" tt docstring_traj))
           false "distance" tt docstring_geometry 0%nat).
  - exact docstring_index_increasing.
  - reflexivity.
  - reflexivity.
  - intros H; discriminate H.
  - intros H; discriminate H.
  - vm_compute; lia.
  - reflexivity.
  - reflexivity.
  - reflexivity.
  - vm_compute; reflexivity.
Defined.

Lemma speed_values_witness :
  exists conversion dist quotient,
    unit_conversion tt (crs_units docstring_traj) = Ok conversion /\
    py_truediv (fmul (cityblock (pt 0 0) (pt 6 0)) (conv_crs conversion))
               (conv_distance conversion) = Ok dist /\
    py_truediv dist (timedelta_total_seconds (6 * minute - 0)) = Ok quotient /\
    df_cell "speed" 1
      (df (snd (sample_add_speed false "speed" tt docstring_traj)))
      = Some (VFloat (fmul quotient (conv_time conversion))).
Proof.
  apply (speed_values cityblock cityblock unit unit_conversion show_cell
           docstring_traj
           (snd (sample_add_speed false "speed" tt docstring_traj))
           false "speed" tt docstring_geometry 0%nat).
  - exact docstring_index_increasing.
  - reflexivity.
  - reflexivity.
  - intros H; discriminate H.
  - intros H; discriminate H.
  - intros H; discriminate H.
  - intros H; discriminate H.
  - vm_compute; lia.
  - reflexivity.
  - reflexivity.
  - reflexivity.
  - vm_compute; reflexivity.
Defined.

Lemma direction_values_witness :
  exists heading,
    bearing_east (pt 6 0) (pt 6 6) = Ok heading /\
    df_cell "direction" 2
      (df (snd (sample_add_direction false "direction" docstring_traj)))
      = Some (VFloat heading).
Proof.
  apply (direction_values bearing_east bearing_east docstring_traj
           (snd (sample_add_direction false "direction" docstring_traj))
           false "direction" docstring_geometry 1%nat).
  - exact docstring_index_increasing.
  - reflexivity.
  - reflexivity.
  - intros H; discriminate H.
  - intros H; discriminate H.
  - vm_compute; lia.
  - reflexivity.
  - reflexivity.
  - vm_compute; reflexivity.
Defined.

Lemma acceleration_from_speed_witness :
  exists conversion v0 v1,
    unit_conversion tt (crs_units docstring_traj) = Ok conversion /\
    df_cell "speed" 1
      (df (snd (sample_add_speed false "speed" tt docstring_traj)))
      = Some v0 /\
    df_cell "speed" 2
      (df (snd (sample_add_speed false "speed" tt docstring_traj)))
      = Some v1 /\
    df_cell "acceleration" 2
      (df (snd (sample_add_acceleration false "acceleration" tt
                  docstring_traj)))
      = Some (cell_op fmul
                (cell_op fdiv (cell_op fsub v1 v0)
                   (VFloat (total_seconds (10 * minute - 6 * minute))))
                (VFloat (conv_time2 conversion))).
Proof.
  apply (acceleration_from_speed cityblock cityblock unit unit_conversion
           show_cell docstring_traj
           (snd (sample_add_speed false "speed" tt docstring_traj))
           (snd (sample_add_acceleration false "acceleration" tt
                   docstring_traj))
           false false "speed" "acceleration" tt 1%nat).
  - exact docstring_index_increasing.
  - apply not_a_scratch_name; discriminate.
  - apply not_a_scratch_name; discriminate.
  - vm_compute; lia.
  - vm_compute; reflexivity.
  - vm_compute; reflexivity.
Defined.

Lemma failed_derivation_keeps_frame_witness :
  fst (sample_add_speed false "speed" tt (traj_of gap_df))
    = Raise (ValueError "Invalid trajectory! Got None instead of point!") /\
  df (snd (sample_add_speed false "speed" tt (traj_of gap_df))) = gap_df.
Proof.
  split; [vm_compute; reflexivity |].
  destruct (failed_derivation_keeps_frame cityblock cityblock unit
              unit_conversion show_cell (traj_of gap_df) false "speed" tt)
    as (_ & Hspeed & _).
  apply Hspeed. vm_compute. reflexivity.
Defined.

Lemma add_direction_failure_leaves_prev_pt_witness :
  fst (sample_add_direction false "direction" (traj_of gap_df))
    = Raise (TypeError "Only Point geometries are supported") /\
  has_column "prev_pt" (df (traj_of gap_df)) = false /\
  has_column "prev_pt"
    (df (snd (sample_add_direction false "direction" (traj_of gap_df))))
    = true.
Proof.
  split; [vm_compute; reflexivity |]. split; [reflexivity |].
  apply (add_direction_failure_leaves_prev_pt bearing_east bearing_east
           (traj_of gap_df) false "direction").
  - reflexivity.
  - reflexivity.
  - vm_compute. reflexivity.
Defined.

Lemma single_sample_derivations_witness :
  size (traj_of single_df) = 1%nat /\
  (exists self',
     sample_add_distance false "m" tt (traj_of single_df) = (Ok tt, self') /\
     df_cell "m" 0 (df self') = Some (VFloat zero)) /\
  fst (sample_add_speed false "m" tt (traj_of single_df)) = Raise IndexError /\
  fst (sample_add_acceleration false "m" tt (traj_of single_df))
    = Raise IndexError /\
  fst (sample_add_direction false "m" (traj_of single_df)) = Raise IndexError.
Proof.
  assert (Hsize : size (traj_of single_df) = 1%nat) by reflexivity.
  destruct (single_sample_derivations cityblock cityblock bearing_east
              bearing_east unit unit_conversion show_cell
              (traj_of single_df) false "m" tt
              (mkConversion (Fin 1) (Fin 1) (Fin 1) (Fin 1)) Hsize)
    as ((self' & Hcall & Hzero) & Hspeed & Hacc & Hdir);
    [reflexivity | reflexivity | reflexivity |].
  split; [exact Hsize |].
  split; [| split; [exact Hspeed | split; [exact Hacc | exact Hdir]]].
  exists self'. split; [exact Hcall |]. apply Hzero. intros H; discriminate H.
Defined.

Lemma overwrite_replaces_in_place_witness :
  column_names (df with_speed_and_timedelta)
    = ["geometry"; "speed"; "timedelta"] /\
  replaces_column "speed" (df with_speed_and_timedelta)
    (df (snd (sample_add_speed true "speed" tt with_speed_and_timedelta))).
Proof.
  split; [vm_compute; reflexivity |].
  destruct (overwrite_replaces_in_place cityblock cityblock bearing_east
              bearing_east unit unit_conversion show_cell
              with_speed_and_timedelta "speed" tt)
    as (_ & Hstarted).
  - vm_compute. reflexivity.
  - destruct Hstarted as (_ & Hspeed & _).
    + left. vm_compute. reflexivity.
    + apply scratch_names_absent; vm_compute; reflexivity.
    + apply Hspeed. vm_compute. reflexivity.
Defined.

Lemma derivations_keep_alignment_witness :
  aligned (df docstring_traj) /\
  aligned (df (snd (sample_add_acceleration false "acceleration" tt
                      docstring_traj))) /\
  aligned (df (snd (sample_add_direction false "direction" docstring_traj))).
Proof.
  destruct (derivations_keep_alignment cityblock cityblock bearing_east
              bearing_east unit unit_conversion show_cell
              docstring_traj false "acceleration" tt docstring_aligned)
    as (_ & _ & Hacc & _ & _).
  destruct (derivations_keep_alignment cityblock cityblock bearing_east
              bearing_east unit unit_conversion show_cell
              docstring_traj false "direction" tt docstring_aligned)
    as (_ & _ & _ & _ & Hdir).
  split; [exact docstring_aligned |].
  split; [apply Hacc | apply Hdir]; vm_compute; reflexivity.
Defined.

Lemma constructor_timestamps_witness :
  (exists self,
     Trajectory_init insertion_argsort shuffled_df "1" None None = Ok self /\
     (forall t, In t (index (df self)) <-> In t (index shuffled_df)) /\
     is_valid self = true /\ aligned (df self)) /\
  (exists self,
     Trajectory_init insertion_argsort simultaneous_df "1" None None
       = Ok self /\
     size self = 1%nat /\
     (is_valid self = true <->
      exists t t', In t (index simultaneous_df) /\
                   In t' (index simultaneous_df) /\
                   to_pydatetime t <> to_pydatetime t')).
Proof.
  split.
  - assert (H : exists self,
                Trajectory_init insertion_argsort shuffled_df "1" None None
                = Ok self)
      by (eexists; vm_compute; reflexivity).
    destruct H as [self H]. exists self. split; [exact H |].
    destruct (constructor_timestamps insertion_argsort insertion_argsort_perm
                insertion_argsort_sorted shuffled_df "1" None None self H)
      as (Hts & Hvalid & Hal).
    split; [exact Hts |]. split; [| exact Hal].
    apply Hvalid. exists 0, (6 * minute).
    split; [cbn; auto |]. split; [cbn; auto | discriminate].
  - assert (H : Trajectory_init insertion_argsort simultaneous_df "1" None None
                = Ok (mkTrajectory "1" None
                        (mkDataFrame [minute] [("geometry", [pt 0 0])]
                           "geometry" (Some (mkCRS "metre" false)))
                        (Some (mkCRS "metre" false)) None (Some "metre") false
                        None None None None None None))
      by (vm_compute; reflexivity).
    eexists. split; [exact H |]. split; [reflexivity |].
    exact (proj1 (proj2 (constructor_timestamps insertion_argsort
                           insertion_argsort_perm insertion_argsort_sorted
                           simultaneous_df "1" None None _ H))).
Defined.

Lemma copy_keeps_frame_only_witness :
  (exists copied,
     sample_copy
       (snd (sample_add_speed false "v" tt docstring_traj)) = Ok copied /\
     get_speed_column_name
       (snd (sample_add_speed false "v" tt docstring_traj)) = "v" /\
     get_speed_column_name copied = SPEED_COL_NAME) /\
  sample_copy (traj_of single_df)
    = Raise (ValueError "The input DataFrame must have at least two rows.").
Proof.
  destruct (copy_keeps_frame_only insertion_argsort insertion_argsort_perm
              insertion_argsort_sorted
              (snd (sample_add_speed false "v" tt docstring_traj)))
    as [Hcopy _].
  destruct Hcopy as (copied & Hcall & _ & _ & _ & _ & Hspeed & _).
  { unfold strictly_increasing. cbn. repeat constructor. }
  { unfold aligned. cbn. repeat constructor. }
  { vm_compute; lia. }
  destruct (copy_keeps_frame_only insertion_argsort insertion_argsort_perm
              insertion_argsort_sorted (traj_of single_df))
    as [_ Hfail].
  split; [| apply Hfail; vm_compute; lia].
  exists copied. split; [exact Hcall |]. split; [reflexivity | exact Hspeed].
Defined.

Lemma valid_iff_positive_duration_witness :
  get_duration docstring_traj = 15 * minute /\
  is_valid docstring_traj = true /\
  get_duration (traj_of single_df) = 0 /\
  is_valid (traj_of single_df) <> true.
Proof.
  split; [reflexivity |].
  split; [apply (valid_iff_positive_duration docstring_traj);
          [vm_compute; lia | vm_compute; reflexivity] |].
  split; [reflexivity |].
  intros H.
  apply (valid_iff_positive_duration (traj_of single_df)) in H;
    [vm_compute in H; discriminate H | vm_compute; lia].
Defined.

Lemma get_row_at_between_witness :
  sample_get_row_at docstring_traj (8 * minute) "ffill"
    = Ok (LSeries (df_row docstring_df 1)) /\
  sample_get_row_at docstring_traj (8 * minute) "bfill"
    = Ok (LSeries (df_row docstring_df 2)) /\
  sample_get_row_at docstring_traj (8 * minute) "nearest"
    = Ok (LSeries (df_row docstring_df 2)) /\
  sample_get_row_at docstring_traj (7 * minute) "nearest"
    = Ok (LSeries (df_row docstring_df 1)).
Proof.
  destruct (get_row_at_between true docstring_traj (8 * minute) 1
              docstring_index_increasing)
    as (Hffill & Hbfill & Hnearest);
    [vm_compute; lia | vm_compute; split; reflexivity |].
  destruct (get_row_at_between true docstring_traj (7 * minute) 1
              docstring_index_increasing)
    as (_ & _ & Hcloser);
    [vm_compute; lia | vm_compute; split; reflexivity |].
  split; [exact Hffill |]. split; [exact Hbfill |].
  split; [exact Hnearest | exact Hcloser].
Defined.

Lemma get_row_at_outside_witness :
  sample_get_row_at docstring_traj (- minute) "bfill"
    = Ok (LSeries (df_row docstring_df 0)) /\
  sample_get_row_at docstring_traj (- minute) "ffill"
    = Ok (LSeries (df_row docstring_df 3)) /\
  sample_get_row_at docstring_traj (20 * minute) "bfill"
    = Ok (LSeries (df_row docstring_df 3)).
Proof.
  destruct (get_row_at_outside true docstring_traj (- minute)
              docstring_index_increasing) as [Hbefore _];
    [vm_compute; lia |].
  destruct (get_row_at_outside true docstring_traj (20 * minute)
              docstring_index_increasing) as [_ Hafter];
    [vm_compute; lia |].
  destruct Hbefore as [Hb Hf]; [vm_compute; reflexivity |].
  destruct Hafter as [Hb' _]; [vm_compute; reflexivity |].
  split; [exact Hb |]. split; [exact Hf | exact Hb'].
Defined.

Lemma get_row_at_method_witness :
  sample_get_row_at docstring_traj (6 * minute) "linear"
    = Ok (LSeries (df_row docstring_df 1)).
Proof.
  apply (get_row_at_method true docstring_traj "linear" 1%nat
           docstring_index_increasing).
  vm_compute; lia.
Defined.

Lemma get_position_at_between_witness :
  sample_get_position_at docstring_traj (3 * minute) "ffill" = Ok (pt 0 0) /\
  sample_get_position_at docstring_traj (3 * minute) "bfill" = Ok (pt 6 0) /\
  sample_get_position_at docstring_traj (3 * minute) "interpolated"
    = Ok (midpoint (pt 0 0) (pt 6 0)
            (fmul (Fin (inject_Z (3 * minute - 0)
                        / inject_Z (6 * minute - 0)))
                  (cityblock (pt 0 0) (pt 6 0)))).
Proof.
  destruct (get_position_at_between cityblock midpoint show_Z true
              docstring_traj (3 * minute) 0 docstring_geometry
              docstring_index_increasing)
    as (Hffill & Hbfill & Hline);
    [vm_compute; lia | vm_compute; split; reflexivity
     | vm_compute; discriminate | reflexivity |].
  split; [exact Hffill |]. split; [exact Hbfill |].
  apply Hline; reflexivity.
Defined.

Lemma endpoint_positions_witness :
  sample_get_position_at docstring_traj (get_start_time docstring_traj)
    "nearest" = get_start_location docstring_traj /\
  sample_get_position_at docstring_traj (get_end_time docstring_traj)
    "nearest" = get_end_location docstring_traj /\
  get_end_location docstring_traj = Ok (pt 9 9).
Proof.
  destruct (endpoint_positions cityblock midpoint show_Z true docstring_traj
              "nearest" docstring_index_increasing docstring_aligned)
    as [Hstart Hend];
    [vm_compute; lia | reflexivity | reflexivity | reflexivity
     | cbn; auto |].
  split; [exact Hstart |]. split; [exact Hend | reflexivity].
Defined.

Lemma segment_timestamps_witness :
  exists segment,
    sample_get_segment_between docstring_traj (5 * minute) (12 * minute)
      = Ok segment /\
    (forall t, In t (index (df segment)) <->
               In t (index (df docstring_traj)) /\
               5 * minute <= t <= 12 * minute) /\
    5 * minute <= index_min (index (df segment)) /\
    index_max (index (df segment)) <= 12 * minute /\
    get_end_time segment <= 12 * minute.
Proof.
  assert (H : exists segment,
              sample_get_segment_between docstring_traj (5 * minute)
                (12 * minute) = Ok segment)
    by (eexists; vm_compute; reflexivity).
  destruct H as [segment H]. exists segment. split; [exact H |].
  exact (segment_timestamps show_Z insertion_argsort insertion_argsort_perm
           insertion_argsort_sorted docstring_traj segment
           (5 * minute) (12 * minute) docstring_index_increasing H).
Defined.

Lemma segment_covering_witness :
  exists segment,
    sample_get_segment_between docstring_traj (- minute) (15 * minute)
      = Ok segment /\
    df segment = df docstring_traj /\
    traj_id segment = segment_id show_Z docstring_traj (- minute) /\
    parent segment = Some docstring_traj.
Proof.
  apply (segment_covering show_Z insertion_argsort insertion_argsort_perm
           insertion_argsort_sorted docstring_traj (- minute) (15 * minute)
           docstring_index_increasing docstring_aligned).
  - vm_compute; reflexivity.
  - vm_compute; discriminate.
  - vm_compute; discriminate.
Defined.

Lemma get_linestring_between_errors_witness :
  sample_get_linestring_between docstring_traj (6 * minute) (10 * minute)
    "linear"
    = Raise (ValueError (invalid_split_method_msg "linear")) /\
  sample_get_linestring_between (traj_of stalled_df) minute minute "within"
    = Raise (RuntimeError (no_linestring_msg show_Z minute minute)) /\
  sample_get_linestring_between docstring_traj (6 * minute) (7 * minute)
    "within"
    = Raise (ValueError "The input DataFrame must have at least two rows.") /\
  sample_get_linestring_between docstring_traj (- minute) (7 * minute)
    "interpolated"
    = Raise (ValueError (out_of_range_msg show_Z docstring_traj (- minute))).
Proof.
  destruct (get_linestring_between_errors cityblock midpoint show_Z true
              insertion_argsort line_of_frame entry_and_exit docstring_traj
              (6 * minute) (10 * minute)) as (Hmethod & _).
  destruct (get_linestring_between_errors cityblock midpoint show_Z true
              insertion_argsort line_of_frame entry_and_exit
              (traj_of stalled_df) minute minute) as (_ & Hruntime & _).
  destruct (get_linestring_between_errors cityblock midpoint show_Z true
              insertion_argsort line_of_frame entry_and_exit docstring_traj
              (6 * minute) (7 * minute)) as (_ & _ & Hrows & _).
  destruct (get_linestring_between_errors cityblock midpoint show_Z true
              insertion_argsort line_of_frame entry_and_exit docstring_traj
              (- minute) (7 * minute)) as (_ & _ & _ & Hrange).
  split; [apply Hmethod; cbn; intros [H | [H | []]]; discriminate H |].
  split; [apply (Hruntime (invalid_segment_msg show_Z minute minute));
          vm_compute; reflexivity |].
  split; [apply Hrows; vm_compute; lia |].
  apply Hrange. left. vm_compute. reflexivity.
Defined.

Lemma linestringm_wkt_needs_points_witness :
  df_cell "geometry" 1 (df (traj_of gap_df)) = Some VNone /\
  sample_to_linestringm_wkt (traj_of gap_df) = Raise (AttributeError "x").
Proof.
  split; [reflexivity |].
  apply (linestringm_wkt_needs_points unix_seconds show_cell
           (traj_of gap_df) [pt 0 0; VNone] 1%nat).
  - reflexivity.
  - vm_compute; lia.
  - reflexivity.
Defined.

Lemma add_distance_twice_witness :
  has_column "distance"
    (df (snd (sample_add_distance false "distance" tt docstring_traj)))
    = true /\
  sample_add_distance true "distance" tt
    (snd (sample_add_distance false "distance" tt docstring_traj))
  = (Ok tt, snd (sample_add_distance false "distance" tt docstring_traj)).
Proof.
  split; [vm_compute; reflexivity |].
  apply (add_distance_twice cityblock cityblock unit unit_conversion
           show_cell docstring_traj
           (snd (sample_add_distance false "distance" tt docstring_traj))
           false "distance" tt).
  - exact docstring_start_labels_row.
  - reflexivity.
  - intros H; discriminate H.
  - intros H; discriminate H.
  - vm_compute; reflexivity.
Defined.
